(** * AgCenter Zero2W SmartNode: the acquisition engine of [utility/utils.py]

    A shallow embedding of the sensor classes and of [Controller] and the
    properties of the median reduction, the CO2 retry policy, the
    compensation ordering, the snapshot assembly and the scheduler; and of
    the pages [LCD] shows of a Snapshot.

    Conventions of the embedding:
    - a sample value is an integer ([Z]); zero is the one falsy number;
    - a Python value stored in a sensor's data dict is a [pyval]: a list of
      samples (the accumulator), a number (the reduced value) or [None];
    - a dict is an association list in insertion order, its keys distinct;
    - hardware and wall clock are oracles: a read is answered by the oracle
      at the current tick, and every read advances the tick;
    - an uncaught Python exception is the outcome [Raise]. *)

From Stdlib Require Import ZArith String Bool Arith Lia List Permutation Sorted.
Import ListNotations.
Local Open Scope string_scope.
Local Open Scope list_scope.

(** ** utility/config.py *)

Module config.
Definition NODE : Z := 69.               (* 0x45 *)
Definition STORE_LOCAL : bool := false.
Definition CO2_ATTEMPTS : nat := 5.
Definition NUM_READINGS : nat := 10.
Definition SCP_COPY : bool := false.
End config.

(** ** Python values and exceptions *)

Inductive exn : Type :=
| RuntimeError | OSError | TypeError | AttributeError | IndexError
| KeyError | UnboundLocalError | NameError.

Inductive pyval : Type :=
| VList (l : list Z)
| VNum (z : Z)
| VNone.

(** The result of a computation without effects that may raise. *)
Inductive result (A : Type) : Type :=
| Res (a : A)
| Err (e : exn).
Arguments Res {A} a.
Arguments Err {A} e.

(** Truth value testing: an empty list, zero and [None] are falsy. *)
Definition truthy (v : pyval) : bool :=
  match v with
  | VList l => negb (Nat.eqb (length l) 0)
  | VNum z => negb (Z.eqb z 0)
  | VNone => false
  end.

(** [list.sort()] on numbers: the sorted rearrangement of the list. *)
Fixpoint insert_sorted (x : Z) (l : list Z) : list Z :=
  match l with
  | [] => [x]
  | y :: l' => if Z.leb x y then x :: y :: l' else y :: insert_sorted x l'
  end.

Fixpoint list_sort (l : list Z) : list Z :=
  match l with
  | [] => []
  | x :: l' => insert_sorted x (list_sort l')
  end.

(** ** find_median_data (utils.py 22-27)

    [len] of a number raises [TypeError]; the index [int(len/2)] is within
    the list whenever the list is not empty.  The list is sorted in place,
    and the caller at once replaces it by the value returned. *)
Definition find_median_data (data_list : pyval) : result pyval :=
  if truthy data_list then
    match data_list with
    | VList l =>
        if Nat.eqb (length l) config.NUM_READINGS then
          match nth_error (list_sort l) (length l / 2) with
          | Some m => Res (VNum m)
          | None => Err IndexError
          end
        else Res VNone
    | VNum _ => Err TypeError
    | VNone => Res VNone
    end
  else Res VNone.

(** ** Dicts *)

Definition dict (V : Type) : Type := list (string * V).

Fixpoint dict_get {V} (d : dict V) (k : string) : option V :=
  match d with
  | [] => None
  | (k', v) :: d' => if String.eqb k k' then Some v else dict_get d' k
  end.

(** [d[k] = v] and [d.update({k: v})]: replace in place, or add at the end. *)
Fixpoint dict_set {V} (d : dict V) (k : string) (v : V) : dict V :=
  match d with
  | [] => [(k, v)]
  | (k', v') :: d' =>
      if String.eqb k k' then (k', v) :: d' else (k', v') :: dict_set d' k v
  end.

(** ** Sensors, hardware and effects *)

Inductive sensor_class : Type :=
| cls_Camera | cls_TEMP_AHT21 | cls_CO2_ENS160
| cls_RGB_TCS34725 | cls_IR_MLX90614 | cls_UV_LTR390.

Definition class_eqb (a b : sensor_class) : bool :=
  match a, b with
  | cls_Camera, cls_Camera | cls_TEMP_AHT21, cls_TEMP_AHT21
  | cls_CO2_ENS160, cls_CO2_ENS160 | cls_RGB_TCS34725, cls_RGB_TCS34725
  | cls_IR_MLX90614, cls_IR_MLX90614 | cls_UV_LTR390, cls_UV_LTR390 => true
  | _, _ => false
  end.

Definition class_name (c : sensor_class) : string :=
  match c with
  | cls_Camera => "Camera"
  | cls_TEMP_AHT21 => "TEMP_AHT21"
  | cls_CO2_ENS160 => "CO2_ENS160"
  | cls_RGB_TCS34725 => "RGB_TCS34725"
  | cls_IR_MLX90614 => "IR_MLX90614"
  | cls_UV_LTR390 => "UV_LTR390"
  end.

(** What the driver answers to one property read. *)
Inductive hwres : Type :=
| HVal (v : Z)
| HFault (e : exn).

(** What the program does to the outside, in the order it does it. *)
Inductive event : Type :=
| EvRead (c : sensor_class) (attr : string) (v : Z)
| EvSleep
| EvCollect (c : sensor_class) (comp : option (Z * Z))
| EvCapture (ok : bool)
| EvAwaitSleep (seconds : Z).

Record world : Type := mkWorld {
  hw_read : sensor_class -> string -> nat -> hwres;
  hw_capture : nat -> option exn;
  tick : nat;
  trace : list event
}.

Definition log (ev : event) (w : world) : world :=
  mkWorld (hw_read w) (hw_capture w) (tick w) (trace w ++ [ev]).

Definition advance (w : world) : world :=
  mkWorld (hw_read w) (hw_capture w) (S (tick w)) (trace w).

Inductive outcome (A : Type) : Type :=
| Ok (a : A) (w : world)
| Raise (e : exn) (w : world).
Arguments Ok {A} a w.
Arguments Raise {A} e w.

Definition M (A : Type) : Type := world -> outcome A.

Definition ret {A} (a : A) : M A := fun w => Ok a w.

Definition raise {A} (e : exn) : M A := fun w => Raise e w.

Definition bind {A B} (c : M A) (k : A -> M B) : M B :=
  fun w => match c w with
           | Ok a w' => k a w'
           | Raise e w' => Raise e w'
           end.

Notation "x <- c ;; k" := (bind c (fun x => k))
  (at level 61, c at next level, right associativity).
Notation "c ;;; k" := (bind c (fun _ => k))
  (at level 61, right associativity).

Definition lift {A} (r : result A) : M A :=
  match r with
  | Res a => ret a
  | Err e => raise e
  end.

Definition emit (ev : event) : M unit := fun w => Ok tt (log ev w).

(** [getattr(self, key)]: one property read on the bus. *)
Definition getattr (c : sensor_class) (key : string) : M Z :=
  fun w => match hw_read w c key (tick w) with
           | HVal v => Ok v (log (EvRead c key v) (advance w))
           | HFault e => Raise e (advance w)
           end.

(** [time.sleep(config.TIME_BETWEEN_READINGS)] *)
Definition sleep : M unit := emit EvSleep.

(** A sensor object: its class, its private data dict and, for the CO2
    sensor, the two compensation properties (no other class reads or writes
    them). *)
Record sensor : Type := mkSensor {
  cls : sensor_class;
  data : dict pyval;
  temperature_compensation : Z;
  humidity_compensation : Z
}.

Definition set_data (s : sensor) (d : dict pyval) : sensor :=
  mkSensor (cls s) d (temperature_compensation s) (humidity_compensation s).

Definition set_temperature_compensation (s : sensor) (t : Z) : sensor :=
  mkSensor (cls s) (data s) t (humidity_compensation s).

Definition set_humidity_compensation (s : sensor) (h : Z) : sensor :=
  mkSensor (cls s) (data s) (temperature_compensation s) h.

(** The dict literal of each class's [reset_sensor_data]. *)
Definition fresh_data (c : sensor_class) : dict pyval :=
  match c with
  | cls_Camera => []
  | cls_TEMP_AHT21 =>
      [("temperature", VList []); ("relative_humidity", VList [])]
  | cls_CO2_ENS160 => [("AQI", VList []); ("TVOC", VList []); ("eCO2", VList [])]
  | cls_RGB_TCS34725 =>
      [("color", VList []); ("color_temperature", VList []);
       ("lux", VList []); ("color_rgb_bytes", VList [])]
  | cls_IR_MLX90614 =>
      [("ambient_temperature", VList []); ("object_temperature", VList [])]
  | cls_UV_LTR390 =>
      [("uvi", VList []); ("lux", VList []); ("light", VList []); ("uvs", VList [])]
  end.

Definition reset_sensor_data (s : sensor) : sensor := set_data s (fresh_data (cls s)).

(** [for key in d.keys(): d[key].append(getattr(self, key))], the body of
    [collect_data_for_median] of TEMP_AHT21, RGB_TCS34725, IR_MLX90614 and
    UV_LTR390.  The method [append] is looked up before the argument is
    evaluated: a value that is no list raises before the bus is read. *)
Fixpoint append_samples (c : sensor_class) (d : dict pyval) : M (dict pyval) :=
  match d with
  | [] => ret []
  | (key, v) :: d' =>
      match v with
      | VList l =>
          reading <- getattr c key ;;
          d'' <- append_samples c d' ;;
          ret ((key, VList (l ++ [reading])) :: d'')
      | _ => raise AttributeError
      end
  end.

(** [for key in d.keys(): d[key] = find_median_data(d[key])], stopping at
    the first exception: the dict as far as it was rewritten, and the
    exception if there was one. *)
Fixpoint reduce_all (d : dict pyval) : dict pyval * option exn :=
  match d with
  | [] => ([], None)
  | (key, v) :: d' =>
      match find_median_data v with
      | Res r => let (d'', e) := reduce_all d' in ((key, r) :: d'', e)
      | Err e => ((key, v) :: d', Some e)
      end
  end.

(** The property [_read] of every sensor class: only [RuntimeError] is
    caught (UV_LTR390 then returns [None], which is as falsy as [False]). *)
Definition _read (s : sensor) : result (bool * sensor) :=
  match reduce_all (data s) with
  | (d, None) => Res (true, set_data s d)
  | (d, Some RuntimeError) => Res (false, set_data s d)
  | (d, Some e) => Err e
  end.

(** [package] of TEMP_AHT21, RGB_TCS34725, IR_MLX90614 and UV_LTR390: the
    returned dict has the one key that is the class name.  Its value is
    the sensor's own dict; the reset that follows a returned Reading gives
    the sensor a new dict, so the Reading is never changed afterwards. *)
Definition package_plain (s : sensor) : result (option (dict (dict pyval)) * sensor) :=
  match _read s with
  | Err e => Err e
  | Res (true, s') =>
      let s'' := set_data s' (dict_set (data s') "Node" (VNum config.NODE)) in
      Res (Some [(class_name (cls s), data s'')], s'')
  | Res (false, s') => Res (None, s')
  end.

(** An object of class [c] whose constructor has just called
    [self.reset_sensor_data()]. *)
Definition fresh_sensor (c : sensor_class) : sensor :=
  reset_sensor_data (mkSensor c [] 0 0).

(** ** class TEMP_AHT21 (utils.py 381-419) *)

Module TEMP_AHT21.

Definition __init__ : sensor := fresh_sensor cls_TEMP_AHT21.

(** [d[key][0]] *)
Definition first_of (d : dict pyval) (key : string) : result Z :=
  match dict_get d key with
  | None => Err KeyError
  | Some (VList (x :: _)) => Res x
  | Some (VList []) => Err IndexError
  | Some _ => Err TypeError
  end.

Definition get_temperature (s : sensor) : result Z :=
  match first_of (data s) "temperature" with
  | Res temp => Res (if truthy (VNum temp) then temp else 25%Z)
  | Err e => Err e
  end.

Definition get_humidity (s : sensor) : result Z :=
  match first_of (data s) "relative_humidity" with
  | Res humidity => Res (if truthy (VNum humidity) then humidity else 50%Z)
  | Err e => Err e
  end.

End TEMP_AHT21.

(** ** class CO2_ENS160 (utils.py 421-463) *)

Module CO2_ENS160.

Definition __init__ : sensor :=
  let s := fresh_sensor cls_CO2_ENS160 in
  set_humidity_compensation (set_temperature_compensation s 25) 50.

(** The inner loop [for _ in range(config.CO2_ATTEMPTS)] for one key, with
    [n] attempts left and [v] the value stored under the key. *)
Fixpoint attempts (n : nat) (key : string) (v : pyval) : M pyval :=
  match n with
  | O => ret v
  | S n' =>
      reading <- getattr cls_CO2_ENS160 key ;;
      if Z.eqb reading 0 then
        sleep ;;; attempts n' key v
      else
        match v with
        | VList l => ret (VList (l ++ [reading]))
        | _ => raise AttributeError
        end
  end.

Fixpoint collect_keys (d : dict pyval) : M (dict pyval) :=
  match d with
  | [] => ret []
  | (key, v) :: d' =>
      v' <- attempts config.CO2_ATTEMPTS key v ;;
      d'' <- collect_keys d' ;;
      ret ((key, v') :: d'')
  end.

Definition collect_data_for_median (s : sensor) : M sensor :=
  d <- collect_keys (data s) ;;
  ret (set_data s d).

(** [all(d[key] for key in d.keys())] *)
Definition all_truthy (d : dict pyval) : bool :=
  forallb (fun kv => truthy (snd kv)) d.

Definition package (s : sensor) : result (option (dict (dict pyval)) * sensor) :=
  match _read s with
  | Err e => Err e
  | Res (ok, s') =>
      if ok && all_truthy (data s') then
        let s'' := set_data s' (dict_set (data s') "Node" (VNum config.NODE)) in
        Res (Some [(class_name cls_CO2_ENS160, data s'')], s'')
      else Res (None, s')
  end.

End CO2_ENS160.

(** ** class Camera (utils.py 238-293) *)

Module Camera.

(** The calls of the camera driver on one side of the pause of line 278:
    [create_still_configuration], [configure] and [start] before it,
    [capture_file] and [stop] after it.  Each side is one answer of the
    oracle: [false] is a [RuntimeError], which the method catches; any
    other exception goes on. *)
Definition driver : M bool :=
  fun w => match hw_capture w (tick w) with
           | None => Ok true (advance w)
           | Some RuntimeError => Ok false (advance w)
           | Some e => Raise e (advance w)
           end.

(** [capture_image]: whether a path is returned.  Between the start of
    the camera and the capture the method awaits [asyncio.sleep(2.0)]. *)
Definition capture_image : M bool :=
  started <- driver ;;
  if started then
    emit (EvAwaitSleep 2) ;;;
    captured <- driver ;;
    emit (EvCapture captured) ;;;
    ret captured
  else
    emit (EvCapture false) ;;;
    ret false.

End Camera.

(** The compensation a sensor is sampled under, as the trace records it. *)
Definition comp_of (s : sensor) : option (Z * Z) :=
  match cls s with
  | cls_CO2_ENS160 => Some (temperature_compensation s, humidity_compensation s)
  | _ => None
  end.

(** Method dispatch on the object's class; each call of
    [collect_data_for_median] is marked in the trace, for the CO2 sensor
    with the compensation it is sampled under.  The camera has none of
    these methods; the controller never calls them on it. *)
Definition collect_data_for_median (s : sensor) : M sensor :=
  emit (EvCollect (cls s) (comp_of s)) ;;;
  match cls s with
  | cls_Camera => raise AttributeError
  | cls_CO2_ENS160 => CO2_ENS160.collect_data_for_median s
  | c => d <- append_samples c (data s) ;; ret (set_data s d)
  end.

Definition package (s : sensor) : result (option (dict (dict pyval)) * sensor) :=
  match cls s with
  | cls_Camera => Err AttributeError
  | cls_CO2_ENS160 => CO2_ENS160.package s
  | _ => package_plain s
  end.

(** ** class Controller (utils.py 29-214) *)

Record datetime : Type := mkDatetime { hour : Z; minute : Z; second : Z }.

Record controller : Type := mkController {
  current_objects : list sensor;
  last_data : option (dict (dict pyval))
}.

(** The local variables of [_gather_sensor_data]; [None] is unbound. *)
Record locals : Type := mkLocals {
  aht21_exists : bool;
  co2_exists : bool;
  aht21_index : option nat;
  co2_index : option nat;
  aht21_temperature : option Z;
  aht21_humidity : option Z
}.

(** The locals on entry: line 111 binds the two flags, nothing else. *)
Definition entry_locals : locals := mkLocals false false None None None None.

(** [l.pop(i)] *)
Fixpoint list_pop {A} (l : list A) (i : nat) : option (A * list A) :=
  match l, i with
  | [], _ => None
  | x :: l', O => Some (x, l')
  | x :: l', S i' =>
      match list_pop l' i' with
      | Some (y, l'') => Some (y, x :: l'')
      | None => None
      end
  end.

(** [sensor_data.update(data)] *)
Definition dict_update {V} (d upd : dict V) : dict V :=
  fold_left (fun acc kv => dict_set acc (fst kv) (snd kv)) upd d.

Module Controller.

Definition STAGGER_INTERVAL : Z := 20.

(** [_create_objects]: one object per configured name, in the order of the
    dict's keys; [ctor c] is the exception the driver's constructor raises
    for class [c], if any.  UV_LTR390's constructor names an unbound
    variable. *)
Definition construct (ctor : sensor_class -> option exn) (c : sensor_class) : result sensor :=
  match c with
  | cls_UV_LTR390 => Err NameError
  | _ =>
      match ctor c with
      | Some e => Err e
      | None =>
          Res (match c with
               | cls_CO2_ENS160 => CO2_ENS160.__init__
               | cls_TEMP_AHT21 => TEMP_AHT21.__init__
               | _ => fresh_sensor c
               end)
      end
  end.

Fixpoint _create_objects (ctor : sensor_class -> option exn)
    (sensor_list : list sensor_class) : result (list sensor) :=
  match sensor_list with
  | [] => Res []
  | name :: rest =>
      match construct ctor name with
      | Res obj =>
          match _create_objects ctor rest with
          | Res objs => Res (obj :: objs)
          | Err e => Err e
          end
      | Err RuntimeError => _create_objects ctor rest
      | Err e => Err e
      end
  end.

(** The first loop of [_gather_sensor_data] from position [i] on.  With
    STORE_LOCAL and SCP_COPY both off the image is copied nowhere. *)
Fixpoint scan (objs : list sensor) (i : nat) (lc : locals) : M locals :=
  match objs with
  | [] => ret lc
  | s :: rest =>
      let lc1 :=
        if class_eqb (cls s) cls_TEMP_AHT21
        then mkLocals true (co2_exists lc) (Some i) (co2_index lc)
                      (aht21_temperature lc) (aht21_humidity lc)
        else lc in
      let lc2 :=
        if class_eqb (cls s) cls_CO2_ENS160
        then mkLocals (aht21_exists lc1) true (aht21_index lc1) (Some i)
                      (aht21_temperature lc1) (aht21_humidity lc1)
        else lc1 in
      (if class_eqb (cls s) cls_Camera
       then Camera.capture_image ;;; ret tt
       else ret tt) ;;;
      scan rest (S i) lc2
  end.

(** Lines 125-127: the CO2 sensor goes to the end when it comes first. *)
Definition reorder (objs : list sensor) (lc : locals) : result (list sensor) :=
  if aht21_exists lc && co2_exists lc then
    match co2_index lc, aht21_index lc with
    | Some ci, Some ai =>
        if Nat.ltb ci ai then
          match list_pop objs ci with
          | Some (s, objs') => Res (objs' ++ [s])
          | None => Err IndexError
          end
        else Res objs
    | _, _ => Err UnboundLocalError
    end
  else Res objs.

(** The body of the inner loop of lines 130-149 for one sensor. *)
Definition sample (lc : locals) (s : sensor) : M (sensor * locals) :=
  match cls s with
  | cls_Camera => ret (s, lc)
  | cls_TEMP_AHT21 =>
      if co2_exists lc then
        s' <- collect_data_for_median s ;;
        t <- lift (TEMP_AHT21.get_temperature s') ;;
        h <- lift (TEMP_AHT21.get_humidity s') ;;
        ret (s', mkLocals (aht21_exists lc) (co2_exists lc) (aht21_index lc)
                          (co2_index lc) (Some t) (Some h))
      else
        s' <- collect_data_for_median s ;;
        ret (s', lc)
  | cls_CO2_ENS160 =>
      if aht21_exists lc then
        match aht21_temperature lc with
        | None => raise UnboundLocalError
        | Some t =>
            match aht21_humidity lc with
            | None => raise UnboundLocalError
            | Some h =>
                s' <- collect_data_for_median
                        (set_humidity_compensation (set_temperature_compensation s t) h) ;;
                ret (s', lc)
            end
        end
      else
        s' <- collect_data_for_median s ;;
        ret (s', lc)
  | _ =>
      s' <- collect_data_for_median s ;;
      ret (s', lc)
  end.

(** One round: [for sensor in self.__current_objects]. *)
Fixpoint sample_all (objs : list sensor) (lc : locals) : M (list sensor * locals) :=
  match objs with
  | [] => ret ([], lc)
  | s :: rest =>
      r <- sample lc s ;;
      r' <- sample_all rest (snd r) ;;
      ret (fst r :: fst r', snd r')
  end.

(** [for _ in range(n)]: a round, then the sleep between rounds. *)
Fixpoint rounds (n : nat) (objs : list sensor) (lc : locals) : M (list sensor * locals) :=
  match n with
  | O => ret (objs, lc)
  | S n' =>
      r <- sample_all objs lc ;;
      sleep ;;;
      rounds n' (fst r) (snd r)
  end.

Definition _gather_sensor_data (c : controller) : M controller :=
  lc <- scan (current_objects c) 0 entry_locals ;;
  objs <- lift (reorder (current_objects c) lc) ;;
  r <- rounds config.NUM_READINGS objs lc ;;
  ret (mkController (fst r) (last_data c)).

(** Lines 158-165: package every sensor but the camera; a sensor is reset
    where its package is not [None]. *)
Fixpoint package_all (objs : list sensor) (sensor_data : dict (dict pyval))
    : result (list sensor * dict (dict pyval)) :=
  match objs with
  | [] => Res ([], sensor_data)
  | s :: rest =>
      if class_eqb (cls s) cls_Camera then
        match package_all rest sensor_data with
        | Res (rest', sd) => Res (s :: rest', sd)
        | Err e => Err e
        end
      else
        match package s with
        | Err e => Err e
        | Res (Some d, s') =>
            match package_all rest (dict_update sensor_data d) with
            | Res (rest', sd) => Res (reset_sensor_data s' :: rest', sd)
            | Err e => Err e
            end
        | Res (None, s') =>
            match package_all rest sensor_data with
            | Res (rest', sd) => Res (s' :: rest', sd)
            | Err e => Err e
            end
        end
  end.

(** [_calc_next_reading] at wall-clock time [current_time]. *)
Definition _calc_next_reading (current_time : datetime) : Z :=
  let minutes_next :=
    (STAGGER_INTERVAL - (minute current_time mod STAGGER_INTERVAL))%Z in
  (minutes_next * 60 + second current_time)%Z.

(** One turn of the [while True] of [get_data]; [now] is the wall clock
    when the delay is computed.  The turn ends in the sleep until the next
    one. *)
Definition get_data_cycle (now : datetime) (c : controller) : M controller :=
  c1 <- _gather_sensor_data c ;;
  r <- lift (package_all (current_objects c1) []) ;;
  let next_reading := _calc_next_reading now in
  emit (EvAwaitSleep next_reading) ;;;
  ret (mkController (fst r) (Some (snd r))).

(** [get_data] for its first [n] turns; [clock i] is the wall clock at the
    end of turn [i]. *)
Fixpoint get_data (n : nat) (clock : nat -> datetime) (c : controller) : M controller :=
  match n with
  | O => ret c
  | S n' =>
      c' <- get_data_cycle (clock O) c ;;
      get_data n' (fun i => clock (S i)) c'
  end.

Definition get_last_data (c : controller) : option (dict (dict pyval)) := last_data c.

End Controller.

(** ** The stagger grid (spec 4.4) *)

Definition seconds_of_day (t : datetime) : Z :=
  ((hour t * 60 + minute t) * 60 + second t)%Z.

Definition stagger_seconds : Z := (Controller.STAGGER_INTERVAL * 60)%Z.

(** After the spec's words: the number of seconds remaining until the wall
    clock next reaches a multiple of the stagger interval. *)
Definition seconds_to_boundary (t : datetime) : Z :=
  (stagger_seconds - seconds_of_day t mod stagger_seconds)%Z.

Definition wellformed_time (t : datetime) : Prop :=
  (0 <= hour t < 24 /\ 0 <= minute t < 60 /\ 0 <= second t < 60)%Z.

(** ** Traces *)

(** World [w'] comes after [w] by the events [evs]. *)
Definition emits (w w' : world) (evs : list event) : Prop :=
  trace w' = trace w ++ evs.

(** The events between world [w] and a later world [w']. *)
Definition events_since (w w' : world) : list event :=
  skipn (length (trace w)) (trace w').

(** Events that touch neither the temperature/humidity nor the CO2 sensor. *)
Definition foreign (e : event) : Prop :=
  match e with
  | EvRead c _ _ => c <> cls_TEMP_AHT21 /\ c <> cls_CO2_ENS160
  | EvCollect c _ => c <> cls_TEMP_AHT21 /\ c <> cls_CO2_ENS160
  | _ => True
  end.

(** Events of the sampling of one sensor of class [c]: reads of [c] and
    the sleeps between the attempts. *)
Definition sampling_of (c : sensor_class) (e : event) : Prop :=
  match e with
  | EvRead c' _ _ => c' = c
  | EvSleep => True
  | _ => False
  end.

(** [i] attempts that read zero: each is followed by its sleep. *)
Definition zero_attempts (key : string) (i : nat) : list event :=
  concat (repeat [EvRead cls_CO2_ENS160 key 0%Z; EvSleep] i).

(** The compensation every collection of the CO2 sensor was made under. *)
Fixpoint co2_collects (tr : list event) : list (Z * Z) :=
  match tr with
  | [] => []
  | EvCollect cls_CO2_ENS160 (Some comp) :: tr' => comp :: co2_collects tr'
  | _ :: tr' => co2_collects tr'
  end.

(** The values the temperature/humidity sensor answered for [key]. *)
Fixpoint aht21_reads (key : string) (tr : list event) : list Z :=
  match tr with
  | [] => []
  | EvRead cls_TEMP_AHT21 key' v :: tr' =>
      if String.eqb key' key then v :: aht21_reads key tr' else aht21_reads key tr'
  | _ :: tr' => aht21_reads key tr'
  end.

(** The classes of the sensors sampled, in the order of the calls. *)
Fixpoint collect_order (tr : list event) : list sensor_class :=
  match tr with
  | [] => []
  | EvCollect c _ :: tr' => c :: collect_order tr'
  | _ :: tr' => collect_order tr'
  end.

(** ** Scripted hardware *)

(** What the CO2 sensor will answer to the read made [i] reads from now. *)
Definition read_at (key : string) (w : world) (i : nat) : hwres :=
  hw_read w cls_CO2_ENS160 key (tick w + i).

(** A bus that answers every read at tick [n] with the [n]th number of the
    script, and with [dflt] after its end; the camera works. *)
Definition scripted (script : list Z) (dflt : Z) : world :=
  mkWorld (fun _ _ n => HVal (nth n script dflt)) (fun _ => None) 0 [].

(** A bus on which class [c] answers the reads of [key] with [r] and every
    other read is answered with 1; the camera works. *)
Definition bus_with (c : sensor_class) (key : string) (r : hwres) : world :=
  mkWorld (fun c' key' _ =>
             if class_eqb c' c && String.eqb key' key then r else HVal 1%Z)
          (fun _ => None) 0 [].

(** A bus that answers the read at tick [n] with [n + 1]; the camera works. *)
Definition ticking : world :=
  mkWorld (fun _ _ n => HVal (Z.of_nat n + 1)) (fun _ => None) 0 [].

(** ** The answers of the CO2 sensor to the attempts for one key *)

(** What the bus answers to the attempts for one key, from the read made
    [off] reads from now: [Some (i, r)] is [i] zeros within the budget and
    then [r], which is not zero; [None] is a zero for every attempt of the
    budget. *)
Definition answered (key : string) (w : world) (off : nat) (a : option (nat * Z)) : Prop :=
  match a with
  | Some (i, r) =>
      (i < config.CO2_ATTEMPTS)%nat /\
      (forall j, (j < i)%nat -> read_at key w (off + j) = HVal 0%Z) /\
      read_at key w (off + i) = HVal r /\ r <> 0%Z
  | None =>
      forall j, (j < config.CO2_ATTEMPTS)%nat -> read_at key w (off + j) = HVal 0%Z
  end.

(** The reads these answers take: the zeros and the reading accepted, or
    all of the budget. *)
Definition reads_of (a : option (nat * Z)) : nat :=
  match a with
  | Some (i, _) => S i
  | None => config.CO2_ATTEMPTS
  end.

(** The accumulator after the attempts. *)
Definition accepted (l : list Z) (a : option (nat * Z)) : list Z :=
  match a with
  | Some (_, r) => l ++ [r]
  | None => l
  end.

(** The events of the attempts: a sleep after every zero. *)
Definition attempt_events (key : string) (a : option (nat * Z)) : list event :=
  match a with
  | Some (i, r) => zero_attempts key i ++ [EvRead cls_CO2_ENS160 key r]
  | None => zero_attempts key config.CO2_ATTEMPTS
  end.

(** ** Sensor states *)

(** What [find_median_data] makes of an accumulator that is a list. *)
Definition reduced (l : list Z) : pyval :=
  match find_median_data (VList l) with
  | Res r => r
  | Err _ => VNone
  end.

(** [v if v else dflt] *)
Definition or_default (dflt v : Z) : Z := if Z.eqb v 0 then dflt else v.

Definition co2_sensor (aqi tvoc eco2 : pyval) (tc hc : Z) : sensor :=
  mkSensor cls_CO2_ENS160 [("AQI", aqi); ("TVOC", tvoc); ("eCO2", eco2)] tc hc.

Definition aht21_sensor (temperature relative_humidity : pyval) : sensor :=
  mkSensor cls_TEMP_AHT21
    [("temperature", temperature); ("relative_humidity", relative_humidity)] 0 0.

(** The data dict of the temperature/humidity sensor with the two
    accumulators [ts] and [hs]. *)
Definition aht21_data (ts hs : list Z) : dict pyval :=
  [("temperature", VList ts); ("relative_humidity", VList hs)].

(** One more sample in the accumulator of a key. *)
Definition grown (kv kv' : string * pyval) : Prop :=
  fst kv' = fst kv /\
  exists l r, snd kv = VList l /\ snd kv' = VList (l ++ [r]).

(** Every accumulator of the dict is a list of [k] samples. *)
Definition acc_len (k : nat) (d : dict pyval) : Prop :=
  Forall (fun kv => exists l, snd kv = VList l /\ length l = k) d.

(** The reduction of the sensor succeeds: at reduction time every one of
    its accumulators holds exactly NUM_READINGS samples. *)
Definition full (s : sensor) : Prop := acc_len config.NUM_READINGS (data s).

(** The dict after [_read] has gone through all its keys. *)
Definition medians (d : dict pyval) : dict pyval :=
  map (fun kv => (fst kv, match find_median_data (snd kv) with
                          | Res r => r
                          | Err _ => snd kv
                          end)) d.

(** The Reading a sensor packages from the data it holds at reduction time. *)
Definition reading_of (s : sensor) : dict pyval :=
  dict_set (medians (data s)) "Node" (VNum config.NODE).

(** A Reading without holes: every value is a number. *)
Definition all_numbers (rd : dict pyval) : Prop :=
  Forall (fun kv => exists z, snd kv = VNum z) rd.

(** What [k] rounds do to one sensor. *)
Definition stepped (k : nat) (s s' : sensor) : Prop :=
  cls s' = cls s /\
  (cls s = cls_Camera -> s' = s) /\
  (cls s <> cls_Camera -> cls s <> cls_CO2_ENS160 ->
   forall j, acc_len j (data s) -> acc_len (j + k) (data s')).

(** A sensor at reduction time, after the rounds of a cycle that started
    from [ready]: the camera holds no data, and every sensor but the CO2
    sensor has all its accumulators full. *)
Definition gathered (s : sensor) : Prop :=
  (cls s = cls_Camera -> data s = []) /\
  (cls s <> cls_Camera -> cls s <> cls_CO2_ENS160 -> full s).

(** The class and the compensation of a sensor stay. *)
Definition keep (s s' : sensor) : Prop :=
  cls s' = cls s /\
  temperature_compensation s' = temperature_compensation s /\
  humidity_compensation s' = humidity_compensation s.

(** ** Sensor lists and the node of main.py *)

Definition not_camera (c : sensor_class) : bool := negb (class_eqb c cls_Camera).

(** Sensors that are neither the temperature/humidity nor the CO2 sensor. *)
Definition neutral (l : list sensor) : Prop :=
  Forall (fun s => cls s <> cls_TEMP_AHT21 /\ cls s <> cls_CO2_ENS160) l.

(** The position of the first object of class [c]. *)
Fixpoint index_of (c : sensor_class) (l : list sensor) : option nat :=
  match l with
  | [] => None
  | s :: l' =>
      if class_eqb (cls s) c then Some 0%nat
      else match index_of c l' with
           | Some i => Some (S i)
           | None => None
           end
  end.

(** A sensor list with the temperature/humidity sensor somewhere before the
    CO2 sensor and no second one of either class: the first holds the
    accumulators [ts] and [hs], the second the compensation [tc], [hc]. *)
Definition paired (objs : list sensor) (ts hs : list Z) (tc hc : Z) : Prop :=
  exists A temp B co2 C,
    objs = A ++ temp :: B ++ co2 :: C /\
    neutral A /\ neutral B /\ neutral C /\
    cls temp = cls_TEMP_AHT21 /\ data temp = aht21_data ts hs /\
    cls co2 = cls_CO2_ENS160 /\
    temperature_compensation co2 = tc /\ humidity_compensation co2 = hc.

(** A sensor list with a CO2 sensor and no temperature/humidity sensor. *)
Definition co2_only (objs : list sensor) (tc hc : Z) : Prop :=
  exists A co2 C,
    objs = A ++ co2 :: C /\ neutral A /\ neutral C /\
    cls co2 = cls_CO2_ENS160 /\
    temperature_compensation co2 = tc /\ humidity_compensation co2 = hc.

(** The sensor list at the start of a cycle: each class once, and every
    sensor but the CO2 sensor as its reset leaves it. *)
Definition ready (objs : list sensor) : Prop :=
  NoDup (map cls objs) /\
  Forall (fun s => cls s <> cls_CO2_ENS160 -> data s = fresh_data (cls s)) objs.

(** The keys of [sensor_pin_map] in main.py, in their order. *)
Definition main_sensor_list : list sensor_class :=
  [cls_Camera; cls_RGB_TCS34725; cls_IR_MLX90614; cls_TEMP_AHT21; cls_CO2_ENS160].

(** The objects of a sensor list when no constructor fails. *)
Definition objects_of (sensor_list : list sensor_class) : list sensor :=
  match Controller._create_objects (fun _ => None) sensor_list with
  | Res objs => objs
  | Err _ => []
  end.

Definition main_controller : controller := mkController (objects_of main_sensor_list) None.

(** ** Counting samples *)

(** How many samples of the list are at most, and at least, [m]. *)
Definition count_le (m : Z) (l : list Z) : nat :=
  length (filter (fun x => Z.leb x m) l).

Definition count_ge (m : Z) (l : list Z) : nat :=
  length (filter (fun x => Z.leb m x) l).

(** ** class LCD (utils.py 295-379): the countdown and the pages *)

Module LCD.

(** Line 361 of [_write_to_screen], at wall-clock time [current_time]. *)
Definition time_until_next_reading (current_time : datetime) : Z :=
  ((20 - (minute current_time mod 20)) * 60 + (60 - second current_time))%Z.

(** What is written on the display: a string, or the first eight
    characters of a key with the number stored under it (how the number is
    formatted is left out). *)
Inductive text : Type :=
| Plain (s : string)
| Labelled (label : string) (value : Z).

(** What the program does to the display, and its sleeps in between. *)
Inductive op : Type :=
| Clear
| CursorPos (row : nat) (col : Z)
| WriteString (t : text)
| Sleep.

(** [(20 - len(sensor)) // 2] *)
Definition column (sensor : string) : Z :=
  ((20 - Z.of_nat (String.length sensor)) / 2)%Z.

(** Lines 325-329, and again 346-348: the display is cleared and the name
    of the sensor written in the top row. *)
Definition header (sensor : string) : list op :=
  [Clear; CursorPos 0 (column sensor); WriteString (Plain sensor)].

(** The loop of lines 332-348 with the local [row]: what is done, and the
    exception the loop ends in, if any.  The cursor is set before the
    value is formatted; [None] and a list have no format [.2f]. *)
Fixpoint display_rows (sensor : string) (data : dict pyval) (row : nat)
    : list op * option exn :=
  match data with
  | [] => ([], None)
  | (reading, v) :: rest =>
      if String.eqb reading "Node" then display_rows sensor rest row
      else
        match v with
        | VNum z =>
            let line :=
              [CursorPos row 0; WriteString (Labelled (substring 0 8 reading) z)] in
            if Nat.eqb (row + 1) 4 then
              let (ops, e) := display_rows sensor rest 1 in
              (line ++ Sleep :: header sensor ++ ops, e)
            else
              let (ops, e) := display_rows sensor rest (row + 1) in
              (line ++ ops, e)
        | _ => ([CursorPos row 0], Some TypeError)
        end
  end.

Definition _display_sensor_data (sensor : string) (data : dict pyval)
    : list op * option exn :=
  let (ops, e) := display_rows sensor data 1 in
  (header sensor ++ ops, e).

(** The display after a run of operations: what was written, and where
    the cursor had been put for it, since the display was last cleared. *)
Fixpoint run (ops : list op) (cur : nat * Z) (scr : list (nat * Z * text))
    : list (nat * Z * text) :=
  match ops with
  | [] => scr
  | Clear :: r => run r (0%nat, 0%Z) []
  | CursorPos row col :: r => run r (row, col) scr
  | WriteString t :: r => run r cur (scr ++ [(cur, t)])
  | Sleep :: r => run r cur scr
  end.

Definition shown (ops : list op) : list (nat * Z * text) := run ops (0%nat, 0%Z) [].

(** How many times the display is left as it is for LCD_DISPLAY_TIME. *)
Definition sleeps (ops : list op) : nat :=
  length (filter (fun o => match o with Sleep => true | _ => false end) ops).

(** The cursor is put within the four rows and twenty columns of the
    display (what the driver does with a position outside is not
    modelled). *)
Definition on_display (o : op) : Prop :=
  match o with
  | CursorPos row col => (row < 4)%nat /\ (0 <= col < 20)%Z
  | _ => True
  end.

(** The name of the sensor in the top row. *)
Definition title (sensor : string) : nat * Z * text :=
  ((0%nat, column sensor), Plain sensor).

(** The values of a Reading, one a row from row [row] on. *)
Fixpoint page_lines (row : nat) (readings : dict pyval) : list (nat * Z * text) :=
  match readings with
  | [] => []
  | (reading, VNum z) :: r =>
      ((row, 0%Z), Labelled (substring 0 8 reading) z) :: page_lines (S row) r
  | _ :: r => page_lines (S row) r
  end.

(** The entries of a Reading that are shown: all but the node identifier. *)
Definition readings_of (data : dict pyval) : dict pyval :=
  filter (fun kv => negb (String.eqb (fst kv) "Node")) data.

(** The argument of [display_messages]: a string or a tuple of strings.
    (For a value of another type the method clears the display and raises
    [ValueError]; no caller in the repository passes one.) *)
Inductive messages : Type :=
| MStr (s : string)
| MTuple (l : list string).

(** The loop of lines 372-376 from row [row] on. *)
Fixpoint write_messages (l : list string) (row : nat) : list op :=
  match l with
  | [] => []
  | message :: r =>
      CursorPos row (column message) :: WriteString (Plain message)
      :: write_messages r (S row)
  end.

Definition display_messages (m : messages) : list op :=
  Clear ::
  match m with
  | MStr s => [CursorPos 0 0; WriteString (Plain s)]
  | MTuple l => write_messages l 0 ++ [Sleep]
  end.

(** Lines 355-357: every Reading of the Snapshot in turn, each left on the
    display for LCD_DISPLAY_TIME. *)
Fixpoint display_all (last_data : dict (dict pyval)) : list op * option exn :=
  match last_data with
  | [] => ([], None)
  | (sensor, data) :: rest =>
      match _display_sensor_data sensor data with
      | (ops, Some e) => (ops, Some e)
      | (ops, None) =>
          let (ops', e) := display_all rest in
          (ops ++ Sleep :: ops', e)
      end
  end.

(** [_write_to_screen] on the Snapshot [last_data] that [get_last_data]
    returned, at wall-clock time [current_time]; [format_2f] stands for
    the formatting of a number with [.2f]. *)
Definition _write_to_screen (format_2f : Z -> string)
    (last_data : option (dict (dict pyval))) (current_time : datetime)
    : list op * option exn :=
  match last_data with
  | None => ([], None)
  | Some snap =>
      match display_all snap with
      | (ops, Some e) => (ops, Some e)
      | (ops, None) =>
          (ops ++ display_messages
                    (MTuple ["Next Reading";
                             String.append "in "
                               (format_2f (time_until_next_reading current_time));
                             "seconds"]),
           None)
      end
  end.

(** The sleeps of one pass over a Snapshot: one for every full page of
    every Reading, one after every Reading. *)
Definition pass_sleeps (snap : dict (dict pyval)) : nat :=
  list_sum (map (fun kv => (length (readings_of (snd kv)) / 3 + 1)%nat) snap).

End LCD.

(** ** What the accumulators hold *)

(** No accumulator of the dict holds a zero. *)
Definition no_zero (d : dict pyval) : Prop :=
  Forall (fun kv => forall l, snd kv = VList l -> ~ In 0%Z l) d.

(** One key after one [collect_data_for_median] of the CO2 sensor: the
    value is as before, or a list with one more sample that is not zero. *)
Definition co2_grown (kv kv' : string * pyval) : Prop :=
  fst kv' = fst kv /\
  (snd kv' = snd kv \/
   exists l r, snd kv = VList l /\ snd kv' = VList (l ++ [r]) /\ r <> 0%Z).

(** The values a dict holds after [_read]: numbers and [None]. *)
Definition reduced_values (d : dict pyval) : Prop :=
  Forall (fun kv => snd kv = VNone \/ exists z, snd kv = VNum z) d.

(** The names whose constructor does not raise. *)
Definition constructible (ctor : sensor_class -> option exn) (c : sensor_class) : bool :=
  match ctor c with
  | None => true
  | Some _ => false
  end.

(** ** A CO2 sensor whose Reading was dropped *)

(** The dict of a CO2 sensor has the property [P]. *)
Definition co2_holds (P : dict pyval -> Prop) (s : sensor) : Prop :=
  cls s = cls_CO2_ENS160 -> P (data s).

(** A CO2 sensor holds a dict with keys. *)
Definition keyed (s : sensor) : Prop :=
  cls s = cls_CO2_ENS160 -> data s <> [].

(** A CO2 sensor that was reduced and not reset: where its accumulators
    were, its dict holds numbers and [None]. *)
Definition stale (s : sensor) : Prop :=
  cls s = cls_CO2_ENS160 -> data s <> [] /\ reduced_values (data s).

(** ** Hardware that answers *)

(** From now on the bus answers every read with a value, the CO2 sensor
    never with zero, and the camera raises nothing but [RuntimeError]. *)
Definition healthy (w : world) : Prop :=
  (forall c key n, (tick w <= n)%nat ->
                   exists v, hw_read w c key n = HVal v /\
                             (c = cls_CO2_ENS160 -> v <> 0%Z)) /\
  (forall n, (tick w <= n)%nat ->
             hw_capture w n = None \/ hw_capture w n = Some RuntimeError).

(** A sensor [j] rounds into a cycle: its dict has the keys of its class,
    each with a list of [j] samples, and the lists of the CO2 sensor hold
    no zero. *)
Definition sampled (j : nat) (s : sensor) : Prop :=
  map fst (data s) = map fst (fresh_data (cls s)) /\
  acc_len j (data s) /\
  (cls s = cls_CO2_ENS160 -> no_zero (data s)).

(** Whether [aht21_temperature] and [aht21_humidity] are bound. *)
Definition is_bound (lc : locals) : bool :=
  match aht21_temperature lc, aht21_humidity lc with
  | Some _, Some _ => true
  | _, _ => false
  end.

(** Going through the classes of the sensor list with both flags set,
    every CO2 sensor is met with the two values bound; [b] says whether
    they are bound at the start. *)
Fixpoint served (b : bool) (l : list sensor_class) : bool :=
  match l with
  | [] => true
  | cls_TEMP_AHT21 :: r => served true r
  | cls_CO2_ENS160 :: r => b && served b r
  | _ :: r => served b r
  end.

(** The locals let a round over the list [l] go through. *)
Definition in_order (l : list sensor) (lc : locals) : Prop :=
  (In cls_CO2_ENS160 (map cls l) -> co2_exists lc = true) /\
  (aht21_exists lc = true -> served (is_bound lc) (map cls l) = true).

(** ** The sleeps between the cycles *)

(** The delays [get_data] slept for, in the order of the trace. *)
Fixpoint await_sleeps (tr : list event) : list Z :=
  match tr with
  | [] => []
  | EvAwaitSleep seconds :: tr' => seconds :: await_sleeps tr'
  | _ :: tr' => await_sleeps tr'
  end.

(** Events of the sampling: everything but an awaited sleep. *)
Definition in_cycle (e : event) : Prop :=
  match e with
  | EvAwaitSleep _ => False
  | _ => True
  end.

(** How many camera objects the list holds. *)
Definition cameras (l : list sensor) : nat :=
  length (filter (fun c => class_eqb c cls_Camera) (map cls l)).

(** The awaited sleeps of a run of cycles: in each cycle the pauses of two
    seconds of its captures, [pauses] says how many, and then the delay
    until the next cycle. *)
Fixpoint run_sleeps (pauses : list nat) (delays : list Z) : list Z :=
  match pauses, delays with
  | k :: pauses', d :: delays' => repeat 2%Z k ++ d :: run_sleeps pauses' delays'
  | _, _ => []
  end.

(** * Properties *)

(** ** The median reduction *)

Lemma insert_sorted_perm (x : Z) (l : list Z) :
  Permutation (insert_sorted x l) (x :: l).
Proof.
  induction l as [|y l IH]; simpl.
  - apply Permutation_refl.
  - destruct (Z.leb x y).
    + apply Permutation_refl.
    + eapply perm_trans; [apply perm_skip, IH | apply perm_swap].
Qed.

Lemma list_sort_perm (l : list Z) : Permutation (list_sort l) l.
Proof.
  induction l as [|x l IH]; simpl.
  - constructor.
  - eapply perm_trans; [apply insert_sorted_perm | apply perm_skip, IH].
Qed.

Lemma list_sort_length (l : list Z) : length (list_sort l) = length l.
Proof. apply Permutation_length, list_sort_perm. Qed.

Lemma insert_sorted_sorted (x : Z) (l : list Z) :
  Sorted Z.le l -> Sorted Z.le (insert_sorted x l).
Proof.
  induction l as [|y l IH]; simpl; intros Hs.
  - repeat constructor.
  - destruct (Z.leb x y) eqn:E.
    + apply Z.leb_le in E. constructor; [assumption | constructor; assumption].
    + apply Z.leb_gt in E. inversion Hs as [|? ? Hl Hhd]; subst.
      constructor; [apply IH; assumption |].
      destruct l as [|z l]; simpl.
      * constructor. lia.
      * destruct (Z.leb x z); constructor; [lia |].
        inversion Hhd; subst. assumption.
Qed.

Lemma list_sort_sorted (l : list Z) : Sorted Z.le (list_sort l).
Proof.
  induction l as [|x l IH]; simpl.
  - constructor.
  - apply insert_sorted_sorted, IH.
Qed.

(** A list of numbers has one sorted rearrangement only. *)
Lemma sorted_perm_unique (l1 : list Z) :
  forall l2, StronglySorted Z.le l1 -> StronglySorted Z.le l2 ->
             Permutation l1 l2 -> l1 = l2.
Proof.
  induction l1 as [|x l1 IH]; intros l2 H1 H2 HP.
  - apply Permutation_nil in HP. congruence.
  - destruct l2 as [|y l2].
    + apply Permutation_sym, Permutation_nil in HP. discriminate.
    + inversion H1 as [|? ? S1 F1]; subst. inversion H2 as [|? ? S2 F2]; subst.
      assert (Hxy : x = y).
      { assert (Hx : In x (y :: l2))
          by (eapply Permutation_in; [exact HP | left; reflexivity]).
        assert (Hy : In y (x :: l1))
          by (eapply Permutation_in; [apply Permutation_sym; exact HP | left; reflexivity]).
        rewrite Forall_forall in F1, F2.
        destruct Hx as [->|Hx]; [reflexivity |].
        destruct Hy as [->|Hy]; [reflexivity |].
        specialize (F1 _ Hy). specialize (F2 _ Hx). lia. }
      subst y. f_equal. apply IH; try assumption.
      eapply Permutation_cons_inv; exact HP.
Qed.

Lemma sorted_is_list_sort (s l : list Z) :
  Permutation s l -> Sorted Z.le s -> s = list_sort l.
Proof.
  intros HP HS.
  apply sorted_perm_unique.
  - apply Sorted_StronglySorted; [intros a b c; apply Z.le_trans | exact HS].
  - apply Sorted_StronglySorted; [intros a b c; apply Z.le_trans | apply list_sort_sorted].
  - eapply perm_trans; [exact HP | apply Permutation_sym, list_sort_perm].
Qed.

(** C1. With exactly NUM_READINGS values in the list, [find_median_data]
    returns the element at index NUM_READINGS/2 (rounded down) of the sorted
    list, whichever way the list was ordered: the upper median, 6 for the
    numbers 1 to 10.  With any other length it returns [None]. *)
Theorem find_median_data_upper_median (l : list Z) :
  (length l = config.NUM_READINGS ->
   exists m, find_median_data (VList l) = Res (VNum m) /\
             forall s, Permutation s l -> Sorted Z.le s ->
                       nth_error s (config.NUM_READINGS / 2) = Some m) /\
  (length l <> config.NUM_READINGS -> find_median_data (VList l) = Res VNone) /\
  find_median_data (VList [1; 2; 3; 4; 5; 6; 7; 8; 9; 10]%Z) = Res (VNum 6).
Proof.
  split; [| split; [| reflexivity]].
  - intros Hlen.
    assert (Hin : (length l / 2 < length (list_sort l))%nat).
    { rewrite list_sort_length, Hlen. unfold config.NUM_READINGS. simpl. lia. }
    apply nth_error_Some in Hin.
    destruct (nth_error (list_sort l) (length l / 2)) as [m|] eqn:E; [| congruence].
    exists m. split.
    + unfold find_median_data. simpl truthy.
      rewrite Hlen. simpl negb. cbv iota.
      rewrite Nat.eqb_refl. rewrite <- Hlen at 1. rewrite E. reflexivity.
    + intros s HP HS. rewrite (sorted_is_list_sort s l HP HS), <- Hlen. exact E.
  - intros Hlen. unfold find_median_data. simpl truthy.
    destruct (negb (length l =? 0)%nat); [| reflexivity].
    apply Nat.eqb_neq in Hlen. rewrite Hlen. reflexivity.
Qed.

Lemma find_median_data_upper_median_witness :
  find_median_data (VList [30; 10; 20; 50; 40; 60; 100; 80; 90; 70]%Z) = Res (VNum 60) /\
  find_median_data (VList [1; 2; 3; 4; 5; 6; 7; 8; 9]%Z) = Res VNone /\
  find_median_data (VList [1; 2; 3; 4; 5; 6; 7; 8; 9; 10; 11]%Z) = Res VNone.
Proof.
  split; [| split].
  - destruct (find_median_data_upper_median
                [30; 10; 20; 50; 40; 60; 100; 80; 90; 70]%Z) as [H _].
    destruct (H eq_refl) as [m [Hm _]].
    rewrite Hm. vm_compute in Hm. symmetry. exact Hm.
  - apply (find_median_data_upper_median [1; 2; 3; 4; 5; 6; 7; 8; 9]%Z).
    vm_compute. discriminate.
  - apply (find_median_data_upper_median [1; 2; 3; 4; 5; 6; 7; 8; 9; 10; 11]%Z).
    vm_compute. discriminate.
Defined.

(** ** The scheduler *)

(** [seconds_to_boundary] is the least positive wait that ends on the grid. *)
Lemma seconds_to_boundary_least (t : datetime) :
  let d := seconds_to_boundary t in
  (0 < d /\ (seconds_of_day t + d) mod stagger_seconds = 0 /\
   forall d', 0 < d' -> (seconds_of_day t + d') mod stagger_seconds = 0 -> d <= d')%Z.
Proof.
  unfold seconds_to_boundary, stagger_seconds, Controller.STAGGER_INTERVAL.
  set (s := seconds_of_day t). change (20 * 60)%Z with 1200%Z.
  assert (Hm := Z.mod_pos_bound s 1200 ltac:(lia)).
  assert (Hd := Z.div_mod s 1200 ltac:(lia)).
  split; [lia | split].
  - replace (s + (1200 - s mod 1200))%Z with ((s / 1200 + 1) * 1200)%Z by lia.
    apply Z.mod_mul. lia.
  - intros d' Hpos H0.
    apply Z.mod_divide in H0; [| lia]. destruct H0 as [q Hq].
    assert (s / 1200 < q)%Z by nia. nia.
Qed.

(** What the code computes is the wait to the boundary plus twice the
    seconds of the current minute: it is the wait to the boundary only at
    second 0. *)
Lemma calc_next_reading_excess (t : datetime) :
  wellformed_time t ->
  Controller._calc_next_reading t = (seconds_to_boundary t + 2 * second t)%Z.
Proof.
  intros (Hh & Hmi & Hs).
  unfold Controller._calc_next_reading, seconds_to_boundary, stagger_seconds,
    seconds_of_day, Controller.STAGGER_INTERVAL.
  change (20 * 60)%Z with 1200%Z.
  assert (Hmod : (((hour t * 60 + minute t) * 60 + second t) mod 1200
                  = (minute t mod 20) * 60 + second t)%Z).
  { assert (Hb := Z.mod_pos_bound (minute t) 20 ltac:(lia)).
    assert (Hd := Z.div_mod (minute t) 20 ltac:(lia)).
    symmetry.
    apply (Z.mod_unique _ _ (hour t * 3 + minute t / 20)%Z); lia. }
  rewrite Hmod. lia.
Qed.

(** C2 (the code at the spec's own example).  A cycle that completes at
    10:47:30 is 750 seconds before the boundary 11:00:00; the code computes
    810 seconds, and the next cycle starts at 11:01:00, off the grid. *)
Theorem calc_next_reading_minute_47 :
  let t := mkDatetime 10 47 30 in
  Controller._calc_next_reading t = 810%Z /\
  seconds_to_boundary t = 750%Z /\
  (seconds_of_day t + Controller._calc_next_reading t
   = seconds_of_day (mkDatetime 11 1 0))%Z /\
  ((seconds_of_day t + Controller._calc_next_reading t) mod stagger_seconds <> 0)%Z.
Proof.
  repeat split; vm_compute; discriminate.
Qed.

(** ** The CO2 retry policy *)

Section Retry.

Variable key : string.

Lemma attempts_first_nonzero (n i : nat) (r : Z) (l : list Z) :
  forall w,
    (i < n)%nat ->
    (forall j, (j < i)%nat -> read_at key w j = HVal 0%Z) ->
    read_at key w i = HVal r -> r <> 0%Z ->
    exists w',
      CO2_ENS160.attempts n key (VList l) w = Ok (VList (l ++ [r])) w' /\
      tick w' = (tick w + i + 1)%nat /\
      hw_read w' = hw_read w /\ hw_capture w' = hw_capture w /\
      trace w' = trace w ++ zero_attempts key i ++ [EvRead cls_CO2_ENS160 key r].
Proof.
  unfold read_at. revert i.
  induction n as [|n IH]; intros i w Hi Hz Hr Hnz; [lia |].
  destruct i as [|i].
  - rewrite Nat.add_0_r in Hr.
    simpl. unfold bind, getattr. rewrite Hr.
    apply Z.eqb_neq in Hnz. rewrite Hnz.
    eexists. split; [reflexivity |]. simpl. repeat split. lia.
  - assert (H0 := Hz 0%nat ltac:(lia)). simpl in H0. rewrite Nat.add_0_r in H0.
    simpl. unfold bind at 1. unfold getattr. rewrite H0. simpl Z.eqb. cbv iota.
    unfold bind at 1. unfold sleep, emit.
    destruct (IH i (log EvSleep (log (EvRead cls_CO2_ENS160 key 0) (advance w))))
      as (w' & Hrun & Ht & Hh & Hc & Htr).
    + lia.
    + intros j Hj. simpl. rewrite <- (Hz (S j)) by lia. f_equal. lia.
    + simpl. rewrite <- Hr. f_equal. lia.
    + exact Hnz.
    + exists w'. split; [exact Hrun |]. simpl in *.
      repeat split; try assumption; [lia |].
      rewrite Htr, <- !app_assoc. reflexivity.
Qed.

Lemma attempts_all_zero (n : nat) (v : pyval) :
  forall w,
    (forall j, (j < n)%nat -> read_at key w j = HVal 0%Z) ->
    exists w',
      CO2_ENS160.attempts n key v w = Ok v w' /\
      tick w' = (tick w + n)%nat /\
      hw_read w' = hw_read w /\ hw_capture w' = hw_capture w /\
      trace w' = trace w ++ zero_attempts key n.
Proof.
  unfold read_at.
  induction n as [|n IH]; intros w Hz.
  - exists w. simpl. unfold ret. repeat split; [lia |].
    unfold zero_attempts. simpl. rewrite app_nil_r. reflexivity.
  - assert (H0 := Hz 0%nat ltac:(lia)). simpl in H0. rewrite Nat.add_0_r in H0.
    simpl. unfold bind at 1. unfold getattr. rewrite H0. simpl Z.eqb. cbv iota.
    unfold bind at 1. unfold sleep, emit.
    destruct (IH (log EvSleep (log (EvRead cls_CO2_ENS160 key 0) (advance w))))
      as (w' & Hrun & Ht & Hh & Hc & Htr).
    + intros j Hj. simpl. rewrite <- (Hz (S j)) by lia. f_equal. lia.
    + exists w'. split; [exact Hrun |]. simpl in *.
      repeat split; try assumption; [lia |].
      rewrite Htr, <- !app_assoc. reflexivity.
Qed.

End Retry.

(** The attempts for one key, on what the bus answers from the read made
    [off] reads after [w0]. *)
Lemma attempts_answered (key : string) (l : list Z) (a : option (nat * Z))
    (w0 w : world) (off : nat) :
  answered key w0 off a ->
  tick w = (tick w0 + off)%nat -> hw_read w = hw_read w0 ->
  exists w',
    CO2_ENS160.attempts config.CO2_ATTEMPTS key (VList l) w
    = Ok (VList (accepted l a)) w' /\
    tick w' = (tick w0 + (off + reads_of a))%nat /\
    hw_read w' = hw_read w0 /\
    trace w' = trace w ++ attempt_events key a.
Proof.
  intros Ha Ht Hh.
  assert (Hat : forall j, read_at key w j = read_at key w0 (off + j)).
  { intros j. unfold read_at. rewrite Hh, Ht, Nat.add_assoc. reflexivity. }
  destruct a as [[i r]|]; simpl in Ha.
  - destruct Ha as (Hi & Hz & Hr & Hnz).
    destruct (attempts_first_nonzero key config.CO2_ATTEMPTS i r l w Hi)
      as (w' & H1 & H2 & H3 & _ & H4); [| | exact Hnz |].
    + intros j Hj. rewrite Hat. apply Hz. exact Hj.
    + rewrite Hat. exact Hr.
    + exists w'. split; [exact H1 |]. simpl.
      split; [lia |]. split; [congruence | exact H4].
  - destruct (attempts_all_zero key config.CO2_ATTEMPTS (VList l) w)
      as (w' & H1 & H2 & H3 & _ & H4).
    + intros j Hj. rewrite Hat. apply Ha. exact Hj.
    + exists w'. split; [exact H1 |]. simpl.
      split; [lia |]. split; [congruence | exact H4].
Qed.

(** C3 (amended).  One [collect_data_for_median] of the CO2 sensor goes
    through its three attributes in turn; for each the sensor is read up to
    CO2_ATTEMPTS times, with a sleep after every attempt that reads zero.
    The first reading that is not zero is appended to the accumulator of
    the attribute and ends its attempts; when all CO2_ATTEMPTS attempts
    read zero the accumulator is left as it was, nothing is appended, and
    the method goes on to the next attribute. *)
Theorem co2_attempts_accept_first_nonzero
    (aqi tvoc eco2 : list Z) (tc hc : Z) (w : world)
    (a1 a2 a3 : option (nat * Z)) :
  answered "AQI" w 0 a1 ->
  answered "TVOC" w (reads_of a1) a2 ->
  answered "eCO2" w (reads_of a1 + reads_of a2) a3 ->
  exists w',
    collect_data_for_median
      (co2_sensor (VList aqi) (VList tvoc) (VList eco2) tc hc) w
    = Ok (co2_sensor (VList (accepted aqi a1)) (VList (accepted tvoc a2))
                     (VList (accepted eco2 a3)) tc hc) w' /\
    tick w' = (tick w + (reads_of a1 + reads_of a2 + reads_of a3))%nat /\
    trace w'
    = trace w
      ++ EvCollect cls_CO2_ENS160 (Some (tc, hc))
         :: attempt_events "AQI" a1 ++ attempt_events "TVOC" a2
            ++ attempt_events "eCO2" a3.
Proof.
  intros H1 H2 H3.
  destruct (attempts_answered "AQI" aqi a1 w
              (log (EvCollect cls_CO2_ENS160 (Some (tc, hc))) w) 0 H1)
    as (w1 & R1 & T1 & Hw1 & E1); [simpl; lia | reflexivity |].
  destruct (attempts_answered "TVOC" tvoc a2 w w1 (reads_of a1) H2)
    as (w2 & R2 & T2 & Hw2 & E2); [exact T1 | exact Hw1 |].
  destruct (attempts_answered "eCO2" eco2 a3 w w2 (reads_of a1 + reads_of a2) H3)
    as (w3 & R3 & T3 & Hw3 & E3); [exact T2 | exact Hw2 |].
  exists w3. split; [| split].
  - unfold collect_data_for_median, co2_sensor.
    cbn [cls data comp_of temperature_compensation humidity_compensation].
    unfold CO2_ENS160.collect_data_for_median.
    cbn [data CO2_ENS160.collect_keys].
    unfold bind, emit. cbv beta iota.
    rewrite R1. cbv beta iota. rewrite R2. cbv beta iota. rewrite R3.
    reflexivity.
  - rewrite T3. lia.
  - rewrite E3, E2, E1. simpl. rewrite <- !app_assoc. reflexivity.
Qed.

(** The spec's example: the attempts for AQI read 0, 0, 0, 7 and the 7 is
    accepted after three sleeps, the fifth attempt is not made; the first
    attempt for TVOC reads 120; the five attempts for eCO2 read zero and
    leave its accumulator empty. *)
Lemma co2_attempts_accept_first_nonzero_witness :
  exists w',
    collect_data_for_median CO2_ENS160.__init__
      (scripted [0; 0; 0; 7; 120; 0; 0; 0; 0; 0]%Z 1)
    = Ok (co2_sensor (VList [7%Z]) (VList [120%Z]) (VList []) 25 50) w' /\
    tick w' = 10%nat /\
    trace w' = [EvCollect cls_CO2_ENS160 (Some (25, 50)%Z);
                EvRead cls_CO2_ENS160 "AQI" 0; EvSleep;
                EvRead cls_CO2_ENS160 "AQI" 0; EvSleep;
                EvRead cls_CO2_ENS160 "AQI" 0; EvSleep;
                EvRead cls_CO2_ENS160 "AQI" 7;
                EvRead cls_CO2_ENS160 "TVOC" 120;
                EvRead cls_CO2_ENS160 "eCO2" 0; EvSleep;
                EvRead cls_CO2_ENS160 "eCO2" 0; EvSleep;
                EvRead cls_CO2_ENS160 "eCO2" 0; EvSleep;
                EvRead cls_CO2_ENS160 "eCO2" 0; EvSleep;
                EvRead cls_CO2_ENS160 "eCO2" 0; EvSleep].
Proof.
  apply (co2_attempts_accept_first_nonzero [] [] [] 25 50
           (scripted [0; 0; 0; 7; 120; 0; 0; 0; 0; 0]%Z 1)
           (Some (3%nat, 7%Z)) (Some (0%nat, 120%Z)) None).
  - simpl. split; [unfold config.CO2_ATTEMPTS; lia |].
    split; [| split; [reflexivity | discriminate]].
    intros j Hj. unfold read_at.
    destruct j as [|[|[|j]]]; try reflexivity. lia.
  - simpl. split; [unfold config.CO2_ATTEMPTS; lia |].
    split; [| split; [reflexivity | discriminate]].
    intros j Hj. lia.
  - simpl. intros j Hj. unfold read_at. unfold config.CO2_ATTEMPTS in Hj.
    destruct j as [|[|[|[|[|j]]]]]; try reflexivity. lia.
Defined.

(** C3 as stated fails: with five zero attempts for every attribute a round
    of [collect_data_for_median] leaves every accumulator empty; no zero
    is accepted into it. *)
Lemma co2_all_zero_attempts_append_nothing :
  exists s' w',
    collect_data_for_median CO2_ENS160.__init__ (scripted [] 0) = Ok s' w' /\
    data s' = [("AQI", VList []); ("TVOC", VList []); ("eCO2", VList [])] /\
    dict_get (data s') "AQI" <> Some (VList [0%Z]) /\
    tick w' = 15%nat.
Proof.
  eexists. eexists. split; [vm_compute; reflexivity |].
  split; [reflexivity |]. split; [discriminate | reflexivity].
Qed.

(** ** Packaging of the CO2 sensor *)

Lemma find_median_data_list (l : list Z) :
  find_median_data (VList l) = Res (reduced l) /\
  (reduced l = VNone \/ exists m, reduced l = VNum m).
Proof.
  unfold reduced, find_median_data. simpl truthy.
  destruct (negb (length l =? 0)%nat) eqn:Hne; [| auto].
  destruct (length l =? config.NUM_READINGS)%nat eqn:Hn; [| auto].
  destruct (nth_error (list_sort l) (length l / 2)) as [m|] eqn:E; [eauto |].
  exfalso. apply nth_error_None in E. rewrite list_sort_length in E.
  apply Nat.eqb_eq in Hn. rewrite Hn in E. unfold config.NUM_READINGS in E.
  simpl in E. lia.
Qed.

Lemma reduce_all_co2 (a t e : list Z) :
  reduce_all [("AQI", VList a); ("TVOC", VList t); ("eCO2", VList e)]
  = ([("AQI", reduced a); ("TVOC", reduced t); ("eCO2", reduced e)], None).
Proof.
  simpl.
  rewrite (proj1 (find_median_data_list a)), (proj1 (find_median_data_list t)),
    (proj1 (find_median_data_list e)).
  reflexivity.
Qed.

(** C9. The CO2 sensor's [package] returns a Reading when each of the
    reduced AQI, TVOC and eCO2 values is a number other than zero, and
    returns [None] as soon as one of them is zero or [None]; the reduced
    values stay in the sensor either way. *)
Theorem co2_package_needs_all_truthy (a t e : list Z) (tc hc : Z) :
  let s := co2_sensor (VList a) (VList t) (VList e) tc hc in
  let rd := [("AQI", reduced a); ("TVOC", reduced t); ("eCO2", reduced e)] in
  ((forall r, In r [reduced a; reduced t; reduced e] ->
              exists z, r = VNum z /\ z <> 0%Z) ->
   CO2_ENS160.package s
   = Res (Some [("CO2_ENS160", rd ++ [("Node", VNum config.NODE)])],
          set_data s (rd ++ [("Node", VNum config.NODE)]))) /\
  ((exists r, In r [reduced a; reduced t; reduced e] /\
              (r = VNone \/ r = VNum 0%Z)) ->
   CO2_ENS160.package s = Res (None, set_data s rd)).
Proof.
  intros s rd.
  assert (Hread : _read s = Res (true, set_data s rd)).
  { unfold _read, s, co2_sensor. simpl data. rewrite reduce_all_co2. reflexivity. }
  unfold CO2_ENS160.package. rewrite Hread.
  simpl data. unfold rd, CO2_ENS160.all_truthy. simpl forallb. simpl andb.
  split.
  - intros Hall.
    destruct (Hall (reduced a)) as (za & -> & Ha); [simpl; auto |].
    destruct (Hall (reduced t)) as (zt & -> & Ht); [simpl; auto |].
    destruct (Hall (reduced e)) as (ze & -> & He); [simpl; auto |].
    simpl truthy.
    apply Z.eqb_neq in Ha, Ht, He. rewrite Ha, Ht, He. reflexivity.
  - intros (r & Hin & Hr).
    assert (Hf : truthy r = false) by (destruct Hr; subst r; reflexivity).
    simpl in Hin.
    destruct Hin as [<-|[<-|[<-|[]]]]; rewrite Hf;
      rewrite ?andb_false_r; reflexivity.
Qed.

Lemma co2_package_needs_all_truthy_witness :
  (exists rd,
      CO2_ENS160.package
        (co2_sensor (VList [4; 2; 3; 1; 5; 9; 8; 7; 6; 10]%Z)
                    (VList [40; 20; 30; 10; 50; 90; 80; 70; 60; 100]%Z)
                    (VList [400; 400; 400; 400; 400; 400; 400; 400; 400; 400]%Z)
                    25 50)
      = Res (Some [("CO2_ENS160",
                    [("AQI", VNum 6); ("TVOC", VNum 60); ("eCO2", VNum 400);
                     ("Node", VNum 69)])], rd)) /\
  (exists rd,
      CO2_ENS160.package
        (co2_sensor (VList [4; 2; 3; 1; 5; 9; 8; 7; 6; 10]%Z)
                    (VList [40; 20; 30; 10; 50; 90; 80; 70; 60]%Z)
                    (VList [400; 400; 400; 400; 400; 400; 400; 400; 400; 400]%Z)
                    25 50)
      = Res (None, rd)) /\
  (exists rd,
      CO2_ENS160.package
        (co2_sensor (VList [0; 0; 3; 1; 0; 0; 0; 7; 0; 0]%Z)
                    (VList [40; 20; 30; 10; 50; 90; 80; 70; 60; 100]%Z)
                    (VList [400; 400; 400; 400; 400; 400; 400; 400; 400; 400]%Z)
                    25 50)
      = Res (None, rd)).
Proof.
  split; [| split]; eexists.
  - apply (co2_package_needs_all_truthy
             [4; 2; 3; 1; 5; 9; 8; 7; 6; 10]%Z
             [40; 20; 30; 10; 50; 90; 80; 70; 60; 100]%Z
             [400; 400; 400; 400; 400; 400; 400; 400; 400; 400]%Z 25 50).
    intros r Hin. vm_compute in Hin.
    destruct Hin as [<-|[<-|[<-|[]]]]; eexists; (split; [reflexivity | discriminate]).
  - apply (co2_package_needs_all_truthy
             [4; 2; 3; 1; 5; 9; 8; 7; 6; 10]%Z
             [40; 20; 30; 10; 50; 90; 80; 70; 60]%Z
             [400; 400; 400; 400; 400; 400; 400; 400; 400; 400]%Z 25 50).
    exists VNone. split; [vm_compute; auto | auto].
  - apply (co2_package_needs_all_truthy
             [0; 0; 3; 1; 0; 0; 0; 7; 0; 0]%Z
             [40; 20; 30; 10; 50; 90; 80; 70; 60; 100]%Z
             [400; 400; 400; 400; 400; 400; 400; 400; 400; 400]%Z 25 50).
    exists (VNum 0). split; [vm_compute; auto | auto].
Defined.

(** ** Effectful code: inversion of a successful run *)

Lemma bind_ok {A B} (c : M A) (k : A -> M B) (w : world) (b : B) (w' : world) :
  bind c k w = Ok b w' -> exists a w1, c w = Ok a w1 /\ k a w1 = Ok b w'.
Proof. unfold bind. destruct (c w); [eauto | discriminate]. Qed.

Lemma ret_ok {A} (a b : A) (w w' : world) : ret a w = Ok b w' -> a = b /\ w = w'.
Proof. unfold ret. intros H. inversion H. auto. Qed.

Lemma lift_ok {A} (r : result A) (a : A) (w w' : world) :
  lift r w = Ok a w' -> r = Res a /\ w = w'.
Proof. destruct r; simpl; unfold ret, raise; intros H; inversion H; auto. Qed.

Lemma emit_ok (ev : event) (u : unit) (w w' : world) :
  emit ev w = Ok u w' -> emits w w' [ev].
Proof. unfold emit, emits. intros H. inversion H. reflexivity. Qed.

Lemma emits_refl (w : world) : emits w w [].
Proof. unfold emits. rewrite app_nil_r. reflexivity. Qed.

Lemma emits_trans (w w1 w2 : world) (e1 e2 : list event) :
  emits w w1 e1 -> emits w1 w2 e2 -> emits w w2 (e1 ++ e2).
Proof. unfold emits. intros H1 H2. rewrite H2, H1, app_assoc. reflexivity. Qed.

Ltac invert_run H :=
  match type of H with
  | bind _ _ _ = Ok _ _ =>
      let a := fresh "a" in let w1 := fresh "w" in
      let H1 := fresh "Hrun" in let H2 := fresh "Hrun" in
      apply bind_ok in H; destruct H as (a & w1 & H1 & H2);
      try invert_run H1; try invert_run H2
  | ret _ _ = Ok _ _ =>
      let E := fresh "E" in
      apply ret_ok in H; destruct H as [E ?]; try subst
  | lift _ _ = Ok _ _ =>
      let E := fresh "E" in
      apply lift_ok in H; destruct H as [E ?]; try subst
  | raise _ _ = Ok _ _ => discriminate H
  end.

(** ** The scan and the reordering *)

Lemma class_eqb_eq (a b : sensor_class) : class_eqb a b = true <-> a = b.
Proof. destruct a, b; simpl; split; intros H; try reflexivity; discriminate. Qed.

Lemma class_eqb_neq (a b : sensor_class) : class_eqb a b = false <-> a <> b.
Proof. destruct a, b; simpl; split; intros H; try congruence; discriminate. Qed.

Lemma driver_ok (b : bool) (w w' : world) :
  Camera.driver w = Ok b w' -> w' = advance w.
Proof.
  unfold Camera.driver.
  destruct (hw_capture w (tick w)) as [[]|]; intros H; inversion H; reflexivity.
Qed.

Lemma capture_image_ok (b : bool) (w w' : world) :
  Camera.capture_image w = Ok b w' ->
  emits w w' [EvCapture b] \/ emits w w' [EvAwaitSleep 2; EvCapture b].
Proof.
  unfold Camera.capture_image. intros H.
  apply bind_ok in H. destruct H as (started & w1 & Hd & H).
  apply driver_ok in Hd. subst w1. destruct started.
  - apply bind_ok in H. destruct H as ([] & w2 & Hs & H).
    apply emit_ok in Hs.
    apply bind_ok in H. destruct H as (captured & w3 & Hd & H).
    apply driver_ok in Hd. subst w3.
    apply bind_ok in H. destruct H as ([] & w4 & Hc & H).
    apply emit_ok in Hc. apply ret_ok in H. destruct H as [<- <-].
    right. unfold emits in *. simpl in *. rewrite Hc, Hs, <- app_assoc. reflexivity.
  - apply bind_ok in H. destruct H as ([] & w2 & Hc & H).
    apply emit_ok in Hc. apply ret_ok in H. destruct H as [<- <-].
    left. unfold emits in *. simpl in *. exact Hc.
Qed.

Lemma scan_emits (l : list sensor) :
  forall i lc w lc' w',
    Controller.scan l i lc w = Ok lc' w' ->
    exists evs, emits w w' evs /\ Forall foreign evs.
Proof.
  induction l as [|s l IH]; intros i lc w lc' w' H; simpl in H.
  - invert_run H. exists []. split; [apply emits_refl | constructor].
  - apply bind_ok in H. destruct H as ([] & w1 & H1 & H2).
    apply IH in H2. destruct H2 as (evs & He & Hf).
    destruct (class_eqb (cls s) cls_Camera).
    + apply bind_ok in H1. destruct H1 as (b & w0 & Hc & Hr).
      invert_run Hr. apply capture_image_ok in Hc. destruct Hc as [Hc | Hc].
      * exists ([EvCapture b] ++ evs). split; [eapply emits_trans; eassumption |].
        constructor; [exact I | assumption].
      * exists ([EvAwaitSleep 2; EvCapture b] ++ evs).
        split; [eapply emits_trans; eassumption |].
        constructor; [exact I |]. constructor; [exact I | assumption].
    + invert_run H1. exists evs. auto.
Qed.

Lemma scan_app (a b : list sensor) :
  forall i lc w lc' w',
    Controller.scan (a ++ b) i lc w = Ok lc' w' ->
    exists lc1 w1,
      Controller.scan a i lc w = Ok lc1 w1 /\
      Controller.scan b (i + length a) lc1 w1 = Ok lc' w'.
Proof.
  induction a as [|s a IH]; intros i lc w lc' w' H; simpl in *.
  - exists lc, w. rewrite Nat.add_0_r. auto.
  - apply bind_ok in H. destruct H as ([] & w1 & H1 & H2).
    apply IH in H2. destruct H2 as (lc1 & w2 & Ha & Hb).
    exists lc1, w2. split.
    + unfold bind at 1. rewrite H1. exact Ha.
    + rewrite <- Nat.add_succ_comm. exact Hb.
Qed.

Lemma scan_neutral (l : list sensor) :
  forall i lc w lc' w',
    neutral l -> Controller.scan l i lc w = Ok lc' w' -> lc' = lc.
Proof.
  induction l as [|s l IH]; intros i lc w lc' w' Hn H; simpl in H.
  - invert_run H. reflexivity.
  - inversion Hn as [|? ? [Ht Hc] Hn']; subst.
    apply class_eqb_neq in Ht, Hc. rewrite Ht, Hc in H.
    apply bind_ok in H. destruct H as ([] & w1 & _ & H2).
    eapply IH; eassumption.
Qed.

Lemma scan_cons (s : sensor) (l : list sensor) (i : nat) (lc lc' : locals) (w w' : world) :
  cls s <> cls_Camera ->
  Controller.scan (s :: l) i lc w = Ok lc' w' ->
  (cls s = cls_TEMP_AHT21 ->
   Controller.scan l (S i)
     (mkLocals true (co2_exists lc) (Some i) (co2_index lc)
               (aht21_temperature lc) (aht21_humidity lc)) w = Ok lc' w') /\
  (cls s = cls_CO2_ENS160 ->
   Controller.scan l (S i)
     (mkLocals (aht21_exists lc) true (aht21_index lc) (Some i)
               (aht21_temperature lc) (aht21_humidity lc)) w = Ok lc' w').
Proof.
  intros Hcam H. simpl in H.
  apply class_eqb_neq in Hcam. rewrite Hcam in H.
  apply bind_ok in H. destruct H as ([] & w1 & H1 & H2). invert_run H1.
  split; intros Hc; rewrite Hc in H2; simpl in H2; exact H2.
Qed.

Lemma list_pop_app {A} (a : list A) (x : A) (r : list A) :
  list_pop (a ++ x :: r) (length a) = Some (x, a ++ r).
Proof.
  induction a as [|y a IH]; simpl; [reflexivity | rewrite IH; reflexivity].
Qed.

Lemma index_of_app (c : sensor_class) (a : list sensor) (s : sensor) (r : list sensor) :
  Forall (fun x => cls x <> c) a -> cls s = c ->
  index_of c (a ++ s :: r) = Some (length a).
Proof.
  intros Ha Hs. induction Ha as [|x a Hx Ha IH]; simpl.
  - rewrite Hs. destruct c; reflexivity.
  - apply class_eqb_neq in Hx. rewrite Hx, IH. reflexivity.
Qed.

Lemma neutral_not_class (l : list sensor) :
  neutral l ->
  Forall (fun x => cls x <> cls_TEMP_AHT21) l /\
  Forall (fun x => cls x <> cls_CO2_ENS160) l.
Proof.
  intros H. split; (eapply Forall_impl; [| exact H]); simpl; intros x [? ?]; assumption.
Qed.

(** The locals after the scan of a list with the CO2 sensor first. *)
Lemma scan_co2_first (A B C : list sensor) (co2 temp : sensor) (w w' : world) (lc : locals) :
  cls co2 = cls_CO2_ENS160 -> cls temp = cls_TEMP_AHT21 ->
  neutral A -> neutral B -> neutral C ->
  Controller.scan (A ++ co2 :: B ++ temp :: C) 0 entry_locals w = Ok lc w' ->
  lc = mkLocals true true (Some (length A + S (length B))) (Some (length A)) None None.
Proof.
  intros Hco2 Htemp HA HB HC H.
  apply scan_app in H. destruct H as (lc1 & w1 & H1 & H2).
  apply (scan_neutral _ _ _ _ _ _ HA) in H1. subst lc1.
  apply scan_cons in H2; [| rewrite Hco2; discriminate].
  destruct H2 as [_ H2]. specialize (H2 Hco2). simpl in H2.
  apply scan_app in H2. destruct H2 as (lc2 & w2 & H2 & H3).
  apply (scan_neutral _ _ _ _ _ _ HB) in H2. subst lc2.
  apply scan_cons in H3; [| rewrite Htemp; discriminate].
  destruct H3 as [H3 _]. specialize (H3 Htemp). simpl in H3.
  apply (scan_neutral _ _ _ _ _ _ HC) in H3. subst lc.
  simpl. rewrite ?Nat.add_succ_r. reflexivity.
Qed.

(** The locals after the scan of a list with the CO2 sensor second. *)
Lemma scan_temp_first (A B C : list sensor) (co2 temp : sensor) (w w' : world) (lc : locals) :
  cls co2 = cls_CO2_ENS160 -> cls temp = cls_TEMP_AHT21 ->
  neutral A -> neutral B -> neutral C ->
  Controller.scan (A ++ temp :: B ++ co2 :: C) 0 entry_locals w = Ok lc w' ->
  lc = mkLocals true true (Some (length A)) (Some (length A + S (length B))) None None.
Proof.
  intros Hco2 Htemp HA HB HC H.
  apply scan_app in H. destruct H as (lc1 & w1 & H1 & H2).
  apply (scan_neutral _ _ _ _ _ _ HA) in H1. subst lc1.
  apply scan_cons in H2; [| rewrite Htemp; discriminate].
  destruct H2 as [H2 _]. specialize (H2 Htemp). simpl in H2.
  apply scan_app in H2. destruct H2 as (lc2 & w2 & H2 & H3).
  apply (scan_neutral _ _ _ _ _ _ HB) in H2. subst lc2.
  apply scan_cons in H3; [| rewrite Hco2; discriminate].
  destruct H3 as [_ H3]. specialize (H3 Hco2). simpl in H3.
  apply (scan_neutral _ _ _ _ _ _ HC) in H3. subst lc.
  simpl. rewrite ?Nat.add_succ_r. reflexivity.
Qed.

Lemma reorder_co2_first (A B C : list sensor) (co2 temp : sensor) :
  Controller.reorder (A ++ co2 :: B ++ temp :: C)
    (mkLocals true true (Some (length A + S (length B))) (Some (length A)) None None)
  = Res (A ++ B ++ temp :: C ++ [co2]).
Proof.
  unfold Controller.reorder. simpl.
  assert (Hlt : (length A <? length A + S (length B))%nat = true)
    by (apply Nat.ltb_lt; lia).
  rewrite Hlt, list_pop_app, <- !app_assoc. reflexivity.
Qed.

Lemma reorder_temp_first (l : list sensor) (a b : nat) :
  Controller.reorder l (mkLocals true true (Some a) (Some (a + S b)) None None) = Res l.
Proof.
  unfold Controller.reorder. simpl.
  assert (Hlt : (a + S b <? a)%nat = false) by (apply Nat.ltb_ge; lia).
  rewrite Hlt. reflexivity.
Qed.

(** ** Faults and resets in the acquisition loop *)

(** C7 (the code on a hardware read error).  On the node of main.py, when
    the temperature read of the AHT21 raises an exception, [RuntimeError]
    or any other, the first turn of [get_data] raises it too: the loop
    ends there, whatever the number of turns asked for, and no Snapshot is
    published, not even with the Readings of the other sensors, which had
    been sampled. *)
Theorem hardware_fault_ends_get_data (e : exn) (n : nat) (clock : nat -> datetime) :
  exists w',
    Controller.get_data (S n) clock main_controller
      (bus_with cls_TEMP_AHT21 "temperature" (HFault e))
    = Raise e w' /\
    trace w' = [EvAwaitSleep 2; EvCapture true; EvCollect cls_RGB_TCS34725 None;
                EvRead cls_RGB_TCS34725 "color" 1;
                EvRead cls_RGB_TCS34725 "color_temperature" 1;
                EvRead cls_RGB_TCS34725 "lux" 1;
                EvRead cls_RGB_TCS34725 "color_rgb_bytes" 1;
                EvCollect cls_IR_MLX90614 None;
                EvRead cls_IR_MLX90614 "ambient_temperature" 1;
                EvRead cls_IR_MLX90614 "object_temperature" 1;
                EvCollect cls_TEMP_AHT21 None].
Proof.
  eexists. split.
  - simpl Controller.get_data. unfold bind at 1.
    unfold Controller.get_data_cycle. unfold bind at 1.
    vm_compute. reflexivity.
  - reflexivity.
Qed.

(** C8 (the code when the CO2 Reading is dropped).  On the node of
    main.py, when every AQI read answers zero, the AQI accumulator stays
    empty, the CO2 sensor's [package] returns [None] and the sensor is not
    reset: the next turn starts with the reduced values, not with empty
    accumulators, in the CO2 sensor's data, and ends in [AttributeError] at
    the first append. *)
Theorem dropped_co2_reading_skips_reset (clock : nat -> datetime) :
  exists c1 w1 co2,
    Controller.get_data 1 clock main_controller
      (bus_with cls_CO2_ENS160 "AQI" (HVal 0%Z)) = Ok c1 w1 /\
    Controller.get_last_data c1
    = Some [("RGB_TCS34725",
             [("color", VNum 1); ("color_temperature", VNum 1); ("lux", VNum 1);
              ("color_rgb_bytes", VNum 1); ("Node", VNum 69)]);
            ("IR_MLX90614",
             [("ambient_temperature", VNum 1); ("object_temperature", VNum 1);
              ("Node", VNum 69)]);
            ("TEMP_AHT21",
             [("temperature", VNum 1); ("relative_humidity", VNum 1);
              ("Node", VNum 69)])] /\
    nth_error (current_objects c1) 4 = Some co2 /\
    cls co2 = cls_CO2_ENS160 /\
    data co2 = [("AQI", VNone); ("TVOC", VNum 1); ("eCO2", VNum 1)] /\
    data co2 <> fresh_data cls_CO2_ENS160 /\
    exists w2,
      Controller.get_data 2 clock main_controller
        (bus_with cls_CO2_ENS160 "AQI" (HVal 0%Z)) = Raise AttributeError w2.
Proof.
  eexists. eexists. eexists.
  split; [vm_compute; reflexivity |].
  split; [reflexivity |].
  split; [reflexivity |].
  split; [reflexivity |].
  split; [reflexivity |].
  split; [discriminate |].
  eexists. vm_compute. reflexivity.
Qed.

(** ** One sample of one sensor *)

Lemma getattr_ok (c : sensor_class) (key : string) (v : Z) (w w' : world) :
  getattr c key w = Ok v w' -> emits w w' [EvRead c key v].
Proof.
  unfold getattr, emits.
  destruct (hw_read w c key (tick w)); intros H; inversion H. reflexivity.
Qed.

Lemma append_samples_ok (c : sensor_class) (d : dict pyval) :
  forall w d' w',
    append_samples c d w = Ok d' w' ->
    exists evs, emits w w' evs /\ Forall (sampling_of c) evs /\ Forall2 grown d d'.
Proof.
  induction d as [|[key v] d IH]; intros w d' w' H; simpl in H.
  - invert_run H. exists []. split; [apply emits_refl | split; constructor].
  - destruct v as [l| |]; try discriminate H.
    apply bind_ok in H. destruct H as (r & w1 & Hr & H).
    apply bind_ok in H. destruct H as (d1 & w2 & Hd & H).
    invert_run H. apply getattr_ok in Hr.
    apply IH in Hd. destruct Hd as (evs & He & Hs & Hg).
    exists ([EvRead c key r] ++ evs).
    split; [eapply emits_trans; eassumption |].
    split; [constructor; [reflexivity | assumption] |].
    constructor; [| assumption].
    split; [reflexivity |]. exists l, r. auto.
Qed.

Lemma attempts_ok (n : nat) (key : string) (v : pyval) :
  forall w v' w',
    CO2_ENS160.attempts n key v w = Ok v' w' ->
    exists evs, emits w w' evs /\ Forall (sampling_of cls_CO2_ENS160) evs.
Proof.
  induction n as [|n IH]; intros w v' w' H; simpl in H.
  - invert_run H. exists []. split; [apply emits_refl | constructor].
  - apply bind_ok in H. destruct H as (r & w1 & Hr & H).
    apply getattr_ok in Hr.
    destruct (Z.eqb r 0).
    + apply bind_ok in H. destruct H as ([] & w2 & Hs & H).
      apply emit_ok in Hs. apply IH in H. destruct H as (evs & He & Hf).
      exists ([EvRead cls_CO2_ENS160 key r] ++ [EvSleep] ++ evs).
      split; [eapply emits_trans; [eassumption | eapply emits_trans; eassumption] |].
      constructor; [reflexivity | constructor; [exact I | assumption]].
    + destruct v; try discriminate H. invert_run H.
      exists [EvRead cls_CO2_ENS160 key r].
      split; [assumption | constructor; [reflexivity | constructor]].
Qed.

Lemma collect_keys_ok (d : dict pyval) :
  forall w d' w',
    CO2_ENS160.collect_keys d w = Ok d' w' ->
    exists evs, emits w w' evs /\ Forall (sampling_of cls_CO2_ENS160) evs.
Proof.
  induction d as [|[key v] d IH]; intros w d' w' H;
    cbn [CO2_ENS160.collect_keys] in H.
  - invert_run H. exists []. split; [apply emits_refl | constructor].
  - apply bind_ok in H. destruct H as (v1 & w1 & Hv & H).
    apply bind_ok in H. destruct H as (d1 & w2 & Hd & H).
    invert_run H. apply attempts_ok in Hv. destruct Hv as (e1 & He1 & Hf1).
    apply IH in Hd. destruct Hd as (e2 & He2 & Hf2).
    exists (e1 ++ e2). split; [eapply emits_trans; eassumption |].
    apply Forall_app. auto.
Qed.

(** What a successful [collect_data_for_median] does: the call is marked in
    the trace, the bus is read for this sensor only, the class and the
    compensation stay, and for a sensor other than the CO2 sensor every
    accumulator has one sample more. *)
Lemma collect_ok (s s' : sensor) (w w' : world) :
  collect_data_for_median s w = Ok s' w' ->
  cls s' = cls s /\
  temperature_compensation s' = temperature_compensation s /\
  humidity_compensation s' = humidity_compensation s /\
  (cls s <> cls_CO2_ENS160 -> Forall2 grown (data s) (data s')) /\
  exists evs,
    emits w w' (EvCollect (cls s) (comp_of s) :: evs) /\
    Forall (sampling_of (cls s)) evs.
Proof.
  unfold collect_data_for_median. intros H.
  apply bind_ok in H. destruct H as ([] & w1 & He & H).
  apply emit_ok in He.
  assert (Hplain :
    forall c, cls s = c -> c <> cls_CO2_ENS160 ->
      (d <- append_samples c (data s) ;; ret (set_data s d)) w1 = Ok s' w' ->
      cls s' = cls s /\
      temperature_compensation s' = temperature_compensation s /\
      humidity_compensation s' = humidity_compensation s /\
      (cls s <> cls_CO2_ENS160 -> Forall2 grown (data s) (data s')) /\
      exists evs,
        emits w w' (EvCollect (cls s) (comp_of s) :: evs) /\
        Forall (sampling_of (cls s)) evs).
  { intros c Hc Hne Hrun.
    apply bind_ok in Hrun. destruct Hrun as (d & w2 & Hd & Hrun). invert_run Hrun.
    apply append_samples_ok in Hd. destruct Hd as (evs & Hev & Hf & Hg).
    repeat split; try reflexivity; [intros _; exact Hg |].
    exists evs. split; [exact (emits_trans _ _ _ _ _ He Hev) | exact Hf]. }
  destruct (cls s) eqn:Hc;
    try (apply (Hplain _ eq_refl); [discriminate | exact H]).
  - discriminate H.
  - unfold CO2_ENS160.collect_data_for_median in H.
    apply bind_ok in H. destruct H as (d & w2 & Hd & H). invert_run H.
    apply collect_keys_ok in Hd. destruct Hd as (evs & Hev & Hf).
    repeat split; try reflexivity; try exact Hc;
      try (intros Hn; exfalso; apply Hn; reflexivity).
    exists evs. split; [exact (emits_trans _ _ _ _ _ He Hev) | exact Hf].
Qed.

Lemma sampling_foreign (c : sensor_class) (evs : list event) :
  c <> cls_TEMP_AHT21 -> c <> cls_CO2_ENS160 ->
  Forall (sampling_of c) evs -> Forall foreign evs.
Proof.
  intros Ht Hc H. eapply Forall_impl; [| exact H].
  intros [c' k v| | | |]; simpl; intros Hs; try exact I; try contradiction.
  subst c'. auto.
Qed.

Lemma sample_neutral (lc lc' : locals) (s s' : sensor) (w w' : world) :
  cls s <> cls_TEMP_AHT21 -> cls s <> cls_CO2_ENS160 ->
  Controller.sample lc s w = Ok (s', lc') w' ->
  lc' = lc /\ cls s' = cls s /\
  (cls s <> cls_Camera -> Forall2 grown (data s) (data s')) /\
  (cls s = cls_Camera -> s' = s) /\
  exists evs, emits w w' evs /\ Forall foreign evs.
Proof.
  intros Ht Hc H. unfold Controller.sample in H.
  assert (Hplain :
    (s1 <- collect_data_for_median s ;; ret (s1, lc)) w = Ok (s', lc') w' ->
    lc' = lc /\ cls s' = cls s /\
    (cls s <> cls_Camera -> Forall2 grown (data s) (data s')) /\
    (cls s = cls_Camera -> s' = s) /\
    exists evs, emits w w' evs /\ Forall foreign evs).
  { intros Hrun. apply bind_ok in Hrun. destruct Hrun as (s1 & w1 & Hcol & Hret).
    apply ret_ok in Hret. destruct Hret as [E ->]. inversion E; subst s1 lc'.
    assert (Hcam : cls s <> cls_Camera).
    { intros Hcam. unfold collect_data_for_median in Hcol.
      apply bind_ok in Hcol. destruct Hcol as (? & ? & _ & Hcol).
      rewrite Hcam in Hcol. discriminate Hcol. }
    apply collect_ok in Hcol.
    destruct Hcol as (Hcls & _ & _ & Hg & evs & Hev & Hf).
    split; [reflexivity |]. split; [assumption |].
    split; [intros _; apply Hg; assumption |].
    split; [intros Hcam'; contradiction |].
    eexists. split; [exact Hev |].
    constructor; [simpl; auto | eapply sampling_foreign; eassumption]. }
  destruct (cls s) eqn:Hcls; try congruence; try (apply Hplain; exact H).
  apply ret_ok in H. destruct H as [E ->]. inversion E; subst.
  split; [reflexivity |]. split; [assumption |].
  split; [intros Hn; contradiction |]. split; [reflexivity |].
  exists []. split; [apply emits_refl | constructor].
Qed.

Lemma first_of_app (key : string) (d : dict pyval) (t : Z) (ts : list Z) :
  dict_get d key = Some (VList (ts ++ [t])) ->
  TEMP_AHT21.first_of d key = Res (hd t ts).
Proof.
  unfold TEMP_AHT21.first_of. intros ->. destruct ts; reflexivity.
Qed.

Lemma or_default_truthy (dflt v : Z) :
  (if truthy (VNum v) then v else dflt) = or_default dflt v.
Proof. unfold or_default. simpl. destruct (Z.eqb v 0); reflexivity. Qed.

(** The temperature/humidity sensor's turn in a round when there is a CO2
    sensor: one read per accumulator, then the locals take the first
    accumulated samples, with the defaults for zeros. *)
Lemma sample_temp (lc lc' : locals) (s s' : sensor) (w w' : world) (ts hs : list Z) :
  cls s = cls_TEMP_AHT21 -> data s = aht21_data ts hs -> co2_exists lc = true ->
  Controller.sample lc s w = Ok (s', lc') w' ->
  exists t h,
    cls s' = cls_TEMP_AHT21 /\ data s' = aht21_data (ts ++ [t]) (hs ++ [h]) /\
    lc' = mkLocals (aht21_exists lc) true (aht21_index lc) (co2_index lc)
                   (Some (or_default 25 (hd t ts))) (Some (or_default 50 (hd h hs))) /\
    emits w w' [EvCollect cls_TEMP_AHT21 None;
                EvRead cls_TEMP_AHT21 "temperature" t;
                EvRead cls_TEMP_AHT21 "relative_humidity" h].
Proof.
  intros Hcls Hdata Hco2 H. unfold Controller.sample in H.
  rewrite Hcls, Hco2 in H.
  apply bind_ok in H. destruct H as (s1 & w1 & Hcol & H).
  apply bind_ok in H. destruct H as (t' & w2 & Ht & H).
  apply bind_ok in H. destruct H as (h' & w3 & Hh & H).
  apply lift_ok in Ht. destruct Ht as [Ht ->].
  apply lift_ok in Hh. destruct Hh as [Hh ->].
  apply ret_ok in H. destruct H as [E ->]. inversion E; subst s1 lc'. clear E.
  unfold collect_data_for_median in Hcol.
  apply bind_ok in Hcol. destruct Hcol as ([] & w0 & He & Hcol).
  apply emit_ok in He. unfold comp_of in He. rewrite Hcls in He, Hcol.
  apply bind_ok in Hcol. destruct Hcol as (d & w4 & Hd & Hret).
  apply ret_ok in Hret. destruct Hret as [<- ->].
  rewrite Hdata in Hd. unfold aht21_data in Hd. simpl in Hd.
  apply bind_ok in Hd. destruct Hd as (t & w5 & Hrt & Hd).
  apply bind_ok in Hd. destruct Hd as (d1 & w6 & Hd & Hret).
  apply bind_ok in Hd. destruct Hd as (h & w7 & Hrh & Hd).
  apply bind_ok in Hd. destruct Hd as (d2 & w8 & Hnil & Hd).
  apply ret_ok in Hnil. destruct Hnil as [<- ->].
  apply ret_ok in Hd. destruct Hd as [<- ->].
  apply ret_ok in Hret. destruct Hret as [<- ->].
  apply getattr_ok in Hrt, Hrh.
  exists t, h. simpl cls. simpl data.
  unfold TEMP_AHT21.get_temperature in Ht. unfold TEMP_AHT21.get_humidity in Hh.
  simpl data in Ht, Hh.
  rewrite (first_of_app "temperature" _ t ts) in Ht by reflexivity.
  rewrite (first_of_app "relative_humidity" _ h hs) in Hh by reflexivity.
  rewrite or_default_truthy in Ht, Hh.
  inversion Ht; inversion Hh; subst t' h'.
  split; [assumption |]. split; [reflexivity |]. split; [reflexivity |].
  unfold emits in *. rewrite Hrh, Hrt, He, <- !app_assoc. reflexivity.
Qed.

(** The CO2 sensor's turn when there is a temperature/humidity sensor: the
    compensation is set from the locals, then the sensor is sampled. *)
Lemma sample_co2 (lc lc' : locals) (s s' : sensor) (w w' : world) (t h : Z) :
  cls s = cls_CO2_ENS160 -> aht21_exists lc = true ->
  aht21_temperature lc = Some t -> aht21_humidity lc = Some h ->
  Controller.sample lc s w = Ok (s', lc') w' ->
  lc' = lc /\ cls s' = cls_CO2_ENS160 /\
  temperature_compensation s' = t /\ humidity_compensation s' = h /\
  exists evs,
    emits w w' (EvCollect cls_CO2_ENS160 (Some (t, h)) :: evs) /\
    Forall (sampling_of cls_CO2_ENS160) evs.
Proof.
  intros Hcls Hex Ht Hh H. unfold Controller.sample in H.
  rewrite Hcls, Hex, Ht, Hh in H.
  apply bind_ok in H. destruct H as (s1 & w1 & Hcol & H).
  apply ret_ok in H. destruct H as [E ->]. inversion E; subst s1 lc'. clear E.
  apply collect_ok in Hcol.
  destruct Hcol as (Hc & Htc & Hhc & _ & evs & Hev & Hf).
  simpl in Hc, Htc, Hhc. unfold comp_of in Hev. simpl in Hev, Hf.
  rewrite Hcls in Hev, Hf, Hc.
  split; [reflexivity |]. split; [assumption |].
  split; [assumption |]. split; [assumption |].
  exists evs. auto.
Qed.

(** The CO2 sensor's turn when there is no temperature/humidity sensor:
    it is sampled with the compensation it has. *)
Lemma sample_co2_alone (lc lc' : locals) (s s' : sensor) (w w' : world) :
  cls s = cls_CO2_ENS160 -> aht21_exists lc = false ->
  Controller.sample lc s w = Ok (s', lc') w' ->
  lc' = lc /\ cls s' = cls_CO2_ENS160 /\
  temperature_compensation s' = temperature_compensation s /\
  humidity_compensation s' = humidity_compensation s /\
  exists evs,
    emits w w'
      (EvCollect cls_CO2_ENS160
         (Some (temperature_compensation s, humidity_compensation s)) :: evs) /\
    Forall (sampling_of cls_CO2_ENS160) evs.
Proof.
  intros Hcls Hex H. unfold Controller.sample in H.
  rewrite Hcls, Hex in H.
  apply bind_ok in H. destruct H as (s1 & w1 & Hcol & H).
  apply ret_ok in H. destruct H as [E ->]. inversion E; subst s1 lc'. clear E.
  apply collect_ok in Hcol.
  destruct Hcol as (Hc & Htc & Hhc & _ & evs & Hev & Hf).
  unfold comp_of in Hev. rewrite Hcls in Hev, Hf, Hc.
  split; [reflexivity |]. split; [assumption |].
  split; [assumption |]. split; [assumption |].
  exists evs. auto.
Qed.

(** ** What the trace shows *)

Lemma co2_collects_app (a b : list event) :
  co2_collects (a ++ b) = co2_collects a ++ co2_collects b.
Proof.
  induction a as [|e a IH]; simpl; [reflexivity |].
  destruct e as [| |c [comp|]| |]; try exact IH; destruct c; try exact IH.
  simpl. rewrite IH. reflexivity.
Qed.

Lemma aht21_reads_app (key : string) (a b : list event) :
  aht21_reads key (a ++ b) = aht21_reads key a ++ aht21_reads key b.
Proof.
  induction a as [|e a IH]; simpl; [reflexivity |].
  destruct e as [c k v| | | |]; try exact IH; destruct c; try exact IH.
  destruct (String.eqb k key); [simpl; rewrite IH; reflexivity | exact IH].
Qed.

Lemma foreign_quiet (evs : list event) :
  Forall foreign evs ->
  co2_collects evs = [] /\ forall key, aht21_reads key evs = [].
Proof.
  induction 1 as [|e evs He _ [IH1 IH2]]; [split; reflexivity |].
  destruct e as [c k v| |c comp| |]; simpl in *; auto;
    destruct He as [Ht Hc]; destruct c; try congruence; auto.
Qed.

Lemma sampling_co2_quiet (evs : list event) :
  Forall (sampling_of cls_CO2_ENS160) evs ->
  co2_collects evs = [] /\ forall key, aht21_reads key evs = [].
Proof.
  induction 1 as [|e evs He _ [IH1 IH2]]; [split; reflexivity |].
  destruct e as [c k v| |c comp| |]; simpl in *; auto; try contradiction.
  subst c. auto.
Qed.

(** ** One round over the sensor list *)

Lemma sample_all_cons (s : sensor) (rest objs' : list sensor)
    (lc lc' : locals) (w w' : world) :
  Controller.sample_all (s :: rest) lc w = Ok (objs', lc') w' ->
  exists s' lc1 w1 rest',
    Controller.sample lc s w = Ok (s', lc1) w1 /\
    Controller.sample_all rest lc1 w1 = Ok (rest', lc') w' /\
    objs' = s' :: rest'.
Proof.
  simpl. intros H.
  apply bind_ok in H. destruct H as ([s' lc1] & w1 & Hs & H).
  apply bind_ok in H. destruct H as ([rest' lc2] & w2 & Hr & H).
  apply ret_ok in H. destruct H as [E ->]. simpl in *. inversion E; subst.
  exists s', lc1, w1, rest'. auto.
Qed.

Lemma sample_all_app (a : list sensor) :
  forall b objs' lc lc' w w',
    Controller.sample_all (a ++ b) lc w = Ok (objs', lc') w' ->
    exists a' b' lc1 w1,
      Controller.sample_all a lc w = Ok (a', lc1) w1 /\
      Controller.sample_all b lc1 w1 = Ok (b', lc') w' /\
      objs' = a' ++ b'.
Proof.
  induction a as [|s a IH]; intros b objs' lc lc' w w' H.
  - exists [], objs', lc, w. simpl. auto.
  - rewrite <- app_comm_cons in H. apply sample_all_cons in H.
    destruct H as (s' & lc1 & w1 & rest' & Hs & Hr & ->).
    apply IH in Hr. destruct Hr as (a' & b' & lc2 & w2 & Ha & Hb & ->).
    exists (s' :: a'), b', lc2, w2. split; [| auto].
    simpl. unfold bind at 1. rewrite Hs. simpl.
    unfold bind at 1. rewrite Ha. reflexivity.
Qed.

Lemma sample_all_neutral (l : list sensor) :
  forall l' lc lc' w w',
    neutral l ->
    Controller.sample_all l lc w = Ok (l', lc') w' ->
    lc' = lc /\ neutral l' /\ exists evs, emits w w' evs /\ Forall foreign evs.
Proof.
  induction l as [|s l IH]; intros l' lc lc' w w' Hn H.
  - simpl in H. apply ret_ok in H. destruct H as [E ->]. inversion E; subst.
    split; [reflexivity |]. split; [constructor |].
    exists []. split; [apply emits_refl | constructor].
  - inversion Hn as [|? ? [Ht Hc] Hn']; subst.
    apply sample_all_cons in H.
    destruct H as (s' & lc1 & w1 & rest' & Hs & Hr & ->).
    apply sample_neutral in Hs; try assumption.
    destruct Hs as (-> & Hcls & _ & _ & e1 & He1 & Hf1).
    apply IH in Hr; [| assumption].
    destruct Hr as (-> & Hn'' & e2 & He2 & Hf2).
    split; [reflexivity |].
    split; [constructor; [rewrite Hcls; auto | assumption] |].
    exists (e1 ++ e2). split; [eapply emits_trans; eassumption |].
    apply Forall_app. auto.
Qed.

Lemma round_paired (objs objs' : list sensor) (lc lc' : locals) (w w' : world)
    (ts hs : list Z) (tc hc : Z) :
  paired objs ts hs tc hc ->
  aht21_exists lc = true -> co2_exists lc = true ->
  Controller.sample_all objs lc w = Ok (objs', lc') w' ->
  exists t h evs,
    paired objs' (ts ++ [t]) (hs ++ [h])
      (or_default 25 (hd t ts)) (or_default 50 (hd h hs)) /\
    aht21_exists lc' = true /\ co2_exists lc' = true /\
    emits w w' evs /\
    co2_collects evs = [(or_default 25 (hd t ts), or_default 50 (hd h hs))] /\
    aht21_reads "temperature" evs = [t] /\
    aht21_reads "relative_humidity" evs = [h].
Proof.
  intros (A & temp & B & co2 & C & -> & HA & HB & HC & Htemp & Hdata & Hco2 & _ & _)
    Hae Hce H.
  apply sample_all_app in H. destruct H as (A' & R1 & lc1 & w1 & H1 & H & ->).
  apply sample_all_neutral in H1; [| assumption].
  destruct H1 as (-> & HA' & e1 & He1 & Hf1).
  apply sample_all_cons in H. destruct H as (temp' & lc2 & w2 & R2 & H2 & H & ->).
  apply (sample_temp _ _ _ _ _ _ ts hs Htemp Hdata Hce) in H2.
  destruct H2 as (t & h & Htemp' & Hdata' & -> & He2).
  apply sample_all_app in H. destruct H as (B' & R3 & lc3 & w3 & H3 & H & ->).
  apply sample_all_neutral in H3; [| assumption].
  destruct H3 as (-> & HB' & e3 & He3 & Hf3).
  apply sample_all_cons in H. destruct H as (co2' & lc4 & w4 & C' & H4 & H & ->).
  eapply sample_co2 in H4; [| exact Hco2 | exact Hae | reflexivity | reflexivity].
  destruct H4 as (-> & Hco2' & Htc & Hhc & e4 & He4 & Hf4).
  apply sample_all_neutral in H; [| assumption].
  destruct H as (-> & HC' & e5 & He5 & Hf5).
  exists t, h. eexists.
  split; [exists A', temp', B', co2', C'; repeat split; assumption |].
  split; [exact Hae |]. split; [reflexivity |].
  split.
  { eapply emits_trans; [exact He1 |].
    eapply emits_trans; [exact He2 |].
    eapply emits_trans; [exact He3 |].
    eapply emits_trans; [exact He4 | exact He5]. }
  destruct (foreign_quiet _ Hf1) as [Q1 Q1'].
  destruct (foreign_quiet _ Hf3) as [Q3 Q3'].
  destruct (foreign_quiet _ Hf5) as [Q5 Q5'].
  destruct (sampling_co2_quiet _ Hf4) as [Q4 Q4'].
  rewrite !co2_collects_app, !aht21_reads_app.
  simpl. rewrite Q1, Q3, Q4, Q5, !Q1', !Q3', !Q4', !Q5'.
  repeat split.
Qed.

Lemma round_co2_only (objs objs' : list sensor) (lc lc' : locals) (w w' : world)
    (tc hc : Z) :
  co2_only objs tc hc -> aht21_exists lc = false ->
  Controller.sample_all objs lc w = Ok (objs', lc') w' ->
  exists evs,
    co2_only objs' tc hc /\ lc' = lc /\
    emits w w' evs /\ co2_collects evs = [(tc, hc)].
Proof.
  intros (A & co2 & C & -> & HA & HC & Hco2 & Htc & Hhc) Hae H.
  apply sample_all_app in H. destruct H as (A' & R1 & lc1 & w1 & H1 & H & ->).
  apply sample_all_neutral in H1; [| assumption].
  destruct H1 as (-> & HA' & e1 & He1 & Hf1).
  apply sample_all_cons in H. destruct H as (co2' & lc2 & w2 & C' & H2 & H & ->).
  apply sample_co2_alone in H2; try assumption.
  destruct H2 as (-> & Hco2' & Htc' & Hhc' & e2 & He2 & Hf2).
  apply sample_all_neutral in H; [| assumption].
  destruct H as (-> & HC' & e3 & He3 & Hf3).
  eexists.
  split; [exists A', co2', C'; repeat split; congruence |].
  split; [reflexivity |].
  split.
  { eapply emits_trans; [exact He1 |]. eapply emits_trans; [exact He2 | exact He3]. }
  destruct (foreign_quiet _ Hf1) as [Q1 _].
  destruct (foreign_quiet _ Hf3) as [Q3 _].
  destruct (sampling_co2_quiet _ Hf2) as [Q2 _].
  rewrite !co2_collects_app. simpl. rewrite Q1, Q2, Q3, Htc, Hhc. reflexivity.
Qed.

(** ** The order of a round *)

Lemma collect_order_app (a b : list event) :
  collect_order (a ++ b) = collect_order a ++ collect_order b.
Proof.
  induction a as [|e a IH]; simpl; [reflexivity |].
  destruct e; simpl; rewrite ?IH; reflexivity.
Qed.

Lemma sampling_no_collect (c : sensor_class) (evs : list event) :
  Forall (sampling_of c) evs -> collect_order evs = [].
Proof.
  induction 1 as [|e evs He _ IH]; [reflexivity |].
  destruct e; simpl in *; try contradiction; assumption.
Qed.

Lemma sample_order (lc lc' : locals) (s s' : sensor) (w w' : world) :
  Controller.sample lc s w = Ok (s', lc') w' ->
  exists evs,
    emits w w' evs /\
    collect_order evs = if not_camera (cls s) then [cls s] else [].
Proof.
  intros H.
  assert (Hgen : forall s0 w1 s1,
             cls s0 = cls s -> cls s <> cls_Camera ->
             collect_data_for_median s0 w = Ok s1 w1 ->
             exists evs,
               emits w w1 evs /\
               collect_order evs = if not_camera (cls s) then [cls s] else []).
  { intros s0 w1 s1 Hc Hcam Hcol. apply collect_ok in Hcol.
    destruct Hcol as (_ & _ & _ & _ & evs & Hev & Hf).
    eexists. split; [exact Hev |]. simpl.
    rewrite (sampling_no_collect _ _ Hf), Hc.
    apply class_eqb_neq in Hcam. unfold not_camera. rewrite Hcam. reflexivity. }
  unfold Controller.sample in H.
  destruct (cls s) eqn:Hcls.
  - apply ret_ok in H. destruct H as [_ <-].
    exists []. split; [apply emits_refl | reflexivity].
  - destruct (co2_exists lc).
    + apply bind_ok in H. destruct H as (s1 & w1 & Hcol & H).
      apply bind_ok in H. destruct H as (t & w2 & Ht & H).
      apply bind_ok in H. destruct H as (h & w3 & Hh & H).
      apply lift_ok in Ht. destruct Ht as [_ <-].
      apply lift_ok in Hh. destruct Hh as [_ <-].
      apply ret_ok in H. destruct H as [_ <-].
      eapply Hgen; [| discriminate | exact Hcol]. assumption.
    + apply bind_ok in H. destruct H as (s1 & w1 & Hcol & H).
      apply ret_ok in H. destruct H as [_ <-].
      eapply Hgen; [| discriminate | exact Hcol]. assumption.
  - assert (Hco2 : forall s0,
               cls s0 = cls_CO2_ENS160 ->
               (s2 <- collect_data_for_median s0 ;; ret (s2, lc)) w = Ok (s', lc') w' ->
               exists evs,
                 emits w w' evs /\ collect_order evs = [cls_CO2_ENS160]).
    { intros s0 Hc Hrun.
      apply bind_ok in Hrun. destruct Hrun as (s2 & w2 & Hcol & Hrun).
      apply ret_ok in Hrun. destruct Hrun as [_ <-].
      eapply Hgen; [| discriminate | exact Hcol]. assumption. }
    destruct (aht21_exists lc).
    + destruct (aht21_temperature lc); [| discriminate H].
      destruct (aht21_humidity lc); [| discriminate H].
      eapply Hco2; [| exact H]. simpl. assumption.
    + eapply Hco2; [| exact H]. assumption.
  - apply bind_ok in H. destruct H as (s1 & w1 & Hcol & H).
    apply ret_ok in H. destruct H as [_ <-].
    eapply Hgen; [| discriminate | exact Hcol]. assumption.
  - apply bind_ok in H. destruct H as (s1 & w1 & Hcol & H).
    apply ret_ok in H. destruct H as [_ <-].
    eapply Hgen; [| discriminate | exact Hcol]. assumption.
  - apply bind_ok in H. destruct H as (s1 & w1 & Hcol & H).
    apply ret_ok in H. destruct H as [_ <-].
    eapply Hgen; [| discriminate | exact Hcol]. assumption.
Qed.

(** A round samples the sensors other than the camera in list order. *)
Lemma sample_all_order (l : list sensor) :
  forall l' lc lc' w w',
    Controller.sample_all l lc w = Ok (l', lc') w' ->
    exists evs,
      emits w w' evs /\ collect_order evs = filter not_camera (map cls l).
Proof.
  induction l as [|s l IH]; intros l' lc lc' w w' H.
  - simpl in H. apply ret_ok in H. destruct H as [_ <-].
    exists []. split; [apply emits_refl | reflexivity].
  - apply sample_all_cons in H.
    destruct H as (s' & lc1 & w1 & rest' & Hs & Hr & _).
    apply sample_order in Hs. destruct Hs as (e1 & He1 & Ho1).
    apply IH in Hr. destruct Hr as (e2 & He2 & Ho2).
    exists (e1 ++ e2). split; [eapply emits_trans; eassumption |].
    rewrite collect_order_app, Ho1, Ho2. simpl.
    destruct (not_camera (cls s)); reflexivity.
Qed.

Lemma events_since_emits (w w' : world) (evs : list event) :
  emits w w' evs -> events_since w w' = evs.
Proof.
  unfold emits, events_since. intros ->.
  rewrite skipn_app, skipn_all, Nat.sub_diag. reflexivity.
Qed.

(** ** The rounds of a cycle *)

Lemma rounds_succ (n : nat) (objs objs' : list sensor) (lc lc' : locals) (w w' : world) :
  Controller.rounds (S n) objs lc w = Ok (objs', lc') w' ->
  exists objs1 lc1 w1 w2,
    Controller.sample_all objs lc w = Ok (objs1, lc1) w1 /\
    emits w1 w2 [EvSleep] /\
    Controller.rounds n objs1 lc1 w2 = Ok (objs', lc') w'.
Proof.
  simpl. intros H.
  apply bind_ok in H. destruct H as ([objs1 lc1] & w1 & H1 & H).
  apply bind_ok in H. destruct H as ([] & w2 & Hs & H).
  apply emit_ok in Hs. exists objs1, lc1, w1, w2. auto.
Qed.

Lemma hd_app_cons (d t : Z) (ts ts' : list Z) :
  hd d (ts ++ t :: ts') = hd t ts.
Proof. destruct ts; reflexivity. Qed.

Lemma rounds_paired (n : nat) :
  forall objs objs' lc lc' w w' ts hs tc hc,
    paired objs ts hs tc hc ->
    aht21_exists lc = true -> co2_exists lc = true ->
    Controller.rounds n objs lc w = Ok (objs', lc') w' ->
    exists ts' hs' tc' hc' evs,
      paired objs' (ts ++ ts') (hs ++ hs') tc' hc' /\
      length ts' = n /\ length hs' = n /\
      emits w w' evs /\
      aht21_reads "temperature" evs = ts' /\
      aht21_reads "relative_humidity" evs = hs' /\
      co2_collects evs
      = repeat (or_default 25 (hd 0%Z (ts ++ ts')), or_default 50 (hd 0%Z (hs ++ hs'))) n /\
      (n <> 0%nat ->
       tc' = or_default 25 (hd 0%Z (ts ++ ts')) /\
       hc' = or_default 50 (hd 0%Z (hs ++ hs'))) /\
      (n = 0%nat -> tc' = tc /\ hc' = hc).
Proof.
  induction n as [|n IH]; intros objs objs' lc lc' w w' ts hs tc hc Hp Hae Hce H.
  - simpl in H. apply ret_ok in H. destruct H as [E ->]. inversion E; subst.
    exists [], [], tc, hc, []. rewrite !app_nil_r.
    split; [assumption |]. repeat (split; [reflexivity |]).
    split; [apply emits_refl |]. repeat (split; [reflexivity |]).
    split; [intros Hn; contradiction | intros _; split; reflexivity].
  - apply rounds_succ in H.
    destruct H as (objs1 & lc1 & w1 & w2 & H1 & Hs & H).
    destruct (round_paired _ _ _ _ _ _ _ _ _ _ Hp Hae Hce H1)
      as (t & h & e1 & Hp1 & Hae1 & Hce1 & He1 & Hc1 & Ht1 & Hh1).
    destruct (IH _ _ _ _ _ _ _ _ _ _ Hp1 Hae1 Hce1 H)
      as (ts2 & hs2 & tc2 & hc2 & e2 & Hp2 & Hl1 & Hl2 & He2 & Ht2 & Hh2 & Hc2 & Hnz & Hz).
    rewrite <- !app_assoc in Hp2, Hc2, Hnz. simpl in Hp2, Hc2, Hnz.
    exists (t :: ts2), (h :: hs2), tc2, hc2, (e1 ++ [EvSleep] ++ e2).
    split; [exact Hp2 |].
    split; [simpl; congruence |]. split; [simpl; congruence |].
    split; [eapply emits_trans; [exact He1 | eapply emits_trans; eassumption] |].
    rewrite !aht21_reads_app, !co2_collects_app, Ht1, Hh1, Hc1, Ht2, Hh2, Hc2.
    rewrite !hd_app_cons.
    repeat (split; [reflexivity |]).
    split; [| intros Hn; discriminate Hn].
    intros _. destruct n as [|n].
    + destruct (Hz eq_refl) as [-> ->]. split; reflexivity.
    + destruct Hnz as [-> ->]; [discriminate |]. rewrite !hd_app_cons.
      split; reflexivity.
Qed.

Lemma rounds_co2_only (n : nat) :
  forall objs objs' lc lc' w w' tc hc,
    co2_only objs tc hc -> aht21_exists lc = false ->
    Controller.rounds n objs lc w = Ok (objs', lc') w' ->
    exists evs,
      co2_only objs' tc hc /\ emits w w' evs /\
      co2_collects evs = repeat (tc, hc) n.
Proof.
  induction n as [|n IH]; intros objs objs' lc lc' w w' tc hc Hp Hae H.
  - simpl in H. apply ret_ok in H. destruct H as [E ->]. inversion E; subst.
    exists []. split; [assumption |]. split; [apply emits_refl | reflexivity].
  - apply rounds_succ in H.
    destruct H as (objs1 & lc1 & w1 & w2 & H1 & Hs & H).
    destruct (round_co2_only _ _ _ _ _ _ _ _ Hp Hae H1) as (e1 & Hp1 & -> & He1 & Hc1).
    destruct (IH _ _ _ _ _ _ _ _ Hp1 Hae H) as (e2 & Hp2 & He2 & Hc2).
    exists (e1 ++ [EvSleep] ++ e2).
    split; [exact Hp2 |].
    split; [eapply emits_trans; [exact He1 | eapply emits_trans; eassumption] |].
    rewrite !co2_collects_app, Hc1, Hc2. reflexivity.
Qed.

(** ** Sensor lists with each class once *)

Lemma classes_apart (L R : list sensor) (x : sensor) :
  NoDup (map cls (L ++ x :: R)) ->
  Forall (fun s => cls s <> cls x) L /\ Forall (fun s => cls s <> cls x) R.
Proof.
  rewrite map_app. simpl. intros H. apply NoDup_remove_2 in H.
  rewrite <- map_app in H.
  assert (Hall : Forall (fun s => cls s <> cls x) (L ++ R)).
  { apply Forall_forall. intros s Hs Heq. apply H. rewrite <- Heq.
    apply in_map. exact Hs. }
  apply Forall_app in Hall. exact Hall.
Qed.

Lemma split_both (objs : list sensor) (temp co2 : sensor) :
  NoDup (map cls objs) -> In temp objs -> In co2 objs ->
  cls temp = cls_TEMP_AHT21 -> cls co2 = cls_CO2_ENS160 ->
  (exists A B C, objs = A ++ temp :: B ++ co2 :: C /\
                 neutral A /\ neutral B /\ neutral C) \/
  (exists A B C, objs = A ++ co2 :: B ++ temp :: C /\
                 neutral A /\ neutral B /\ neutral C).
Proof.
  intros Hnd Htin Hcin Ht Hc.
  apply in_split in Htin. destruct Htin as (L & R & ->).
  apply in_elt_inv in Hcin. destruct Hcin as [E | Hcin]; [congruence |].
  apply in_app_or in Hcin. destruct Hcin as [Hcin | Hcin];
    apply in_split in Hcin; destruct Hcin as (X & Y & ->).
  - right. exists X, Y, R. rewrite <- app_assoc. simpl.
    split; [reflexivity |].
    destruct (classes_apart _ _ _ Hnd) as [H1 H2]. rewrite Ht in H1, H2.
    rewrite <- app_assoc in Hnd. simpl in Hnd.
    destruct (classes_apart _ _ _ Hnd) as [H3 H4]. rewrite Hc in H3, H4.
    apply Forall_app in H1. destruct H1 as [H1 H1'].
    apply Forall_app in H4. destruct H4 as [H4 H4'].
    inversion H1'; subst. inversion H4'; subst.
    unfold neutral. repeat split; apply Forall_and; assumption.
  - left. exists L, X, Y. split; [reflexivity |].
    destruct (classes_apart _ _ _ Hnd) as [H1 H2]. rewrite Ht in H1, H2.
    change (L ++ temp :: X ++ co2 :: Y) with (L ++ (temp :: X) ++ co2 :: Y) in Hnd.
    rewrite app_assoc in Hnd.
    destruct (classes_apart _ _ _ Hnd) as [H3 H4]. rewrite Hc in H3, H4.
    apply Forall_app in H2. destruct H2 as [H2 H2'].
    apply Forall_app in H3. destruct H3 as [H3 H3'].
    inversion H2'; subst. inversion H3'; subst.
    unfold neutral. repeat split; apply Forall_and; assumption.
Qed.

Lemma split_co2_only (objs : list sensor) (co2 : sensor) :
  NoDup (map cls objs) -> In co2 objs -> cls co2 = cls_CO2_ENS160 ->
  (forall s, In s objs -> cls s <> cls_TEMP_AHT21) ->
  co2_only objs (temperature_compensation co2) (humidity_compensation co2).
Proof.
  intros Hnd Hin Hc Hno.
  apply in_split in Hin. destruct Hin as (L & R & ->).
  exists L, co2, R. split; [reflexivity |].
  destruct (classes_apart _ _ _ Hnd) as [H1 H2]. rewrite Hc in H1, H2.
  assert (Ht : Forall (fun s => cls s <> cls_TEMP_AHT21) (L ++ co2 :: R))
    by (apply Forall_forall; exact Hno).
  apply Forall_app in Ht. destruct Ht as [Ht1 Ht2]. inversion Ht2; subst.
  unfold neutral. repeat split; try apply Forall_and; assumption.
Qed.

Lemma scan_co2_only (A C : list sensor) (co2 : sensor) (w w' : world) (lc : locals) :
  cls co2 = cls_CO2_ENS160 -> neutral A -> neutral C ->
  Controller.scan (A ++ co2 :: C) 0 entry_locals w = Ok lc w' ->
  lc = mkLocals false true None (Some (length A)) None None.
Proof.
  intros Hco2 HA HC H.
  apply scan_app in H. destruct H as (lc1 & w1 & H1 & H2).
  apply (scan_neutral _ _ _ _ _ _ HA) in H1. subst lc1.
  apply scan_cons in H2; [| rewrite Hco2; discriminate].
  destruct H2 as [_ H2]. specialize (H2 Hco2). simpl in H2.
  apply (scan_neutral _ _ _ _ _ _ HC) in H2. subst lc. reflexivity.
Qed.

(** ** The whole of [_gather_sensor_data] *)

Lemma gather_ok (c c' : controller) (w w' : world) :
  Controller._gather_sensor_data c w = Ok c' w' ->
  exists lc w1 objs1 objs2 lc2,
    Controller.scan (current_objects c) 0 entry_locals w = Ok lc w1 /\
    Controller.reorder (current_objects c) lc = Res objs1 /\
    Controller.rounds config.NUM_READINGS objs1 lc w1 = Ok (objs2, lc2) w' /\
    c' = mkController objs2 (last_data c).
Proof.
  unfold Controller._gather_sensor_data. intros H.
  apply bind_ok in H. destruct H as (lc & w1 & Hscan & H).
  apply bind_ok in H. destruct H as (objs1 & w2 & Hre & H).
  apply lift_ok in Hre. destruct Hre as [Hre ->].
  apply bind_ok in H. destruct H as ([objs2 lc2] & w3 & Hr & H).
  apply ret_ok in H. destruct H as [<- ->].
  exists lc, w2, objs1, objs2, lc2. auto.
Qed.

(** With both sensors in the list, whichever comes first, the rounds run
    on a list with the temperature/humidity sensor before the CO2 sensor. *)
Lemma gather_paired (c c' : controller) (w w' : world) (temp co2 : sensor) (ts hs : list Z) :
  NoDup (map cls (current_objects c)) ->
  In temp (current_objects c) -> In co2 (current_objects c) ->
  cls temp = cls_TEMP_AHT21 -> cls co2 = cls_CO2_ENS160 ->
  data temp = aht21_data ts hs ->
  Controller._gather_sensor_data c w = Ok c' w' ->
  exists objs1 objs2 lc lc2 w1 e1,
    paired objs1 ts hs (temperature_compensation co2) (humidity_compensation co2) /\
    aht21_exists lc = true /\ co2_exists lc = true /\
    emits w w1 e1 /\ Forall foreign e1 /\
    Controller.rounds config.NUM_READINGS objs1 lc w1 = Ok (objs2, lc2) w' /\
    current_objects c' = objs2.
Proof.
  intros Hnd Htin Hcin Ht Hc Hdata H.
  apply gather_ok in H.
  destruct H as (lc & w1 & objs1 & objs2 & lc2 & Hscan & Hre & Hr & ->).
  destruct (scan_emits _ _ _ _ _ _ Hscan) as (e1 & He1 & Hf1).
  destruct (split_both _ _ _ Hnd Htin Hcin Ht Hc)
    as [(A & B & C & E & HA & HB & HC) | (A & B & C & E & HA & HB & HC)];
    rewrite E in Hscan, Hre.
  - rewrite (scan_temp_first A B C co2 temp w w1 lc Hc Ht HA HB HC Hscan) in *.
    rewrite reorder_temp_first in Hre. inversion Hre; subst objs1.
    match type of Hr with
    | Controller.rounds _ ?o ?l _ = _ => exists o, objs2, l, lc2, w1, e1
    end.
    split; [exists A, temp, B, co2, C; repeat split; assumption |].
    repeat split; assumption.
  - rewrite (scan_co2_first A B C co2 temp w w1 lc Hc Ht HA HB HC Hscan) in *.
    rewrite reorder_co2_first in Hre. inversion Hre; subst objs1.
    match type of Hr with
    | Controller.rounds _ ?o ?l _ = _ => exists o, objs2, l, lc2, w1, e1
    end.
    split.
    { exists (A ++ B), temp, C, co2, []. rewrite <- app_assoc.
      repeat split; try assumption; try constructor.
      apply Forall_app. split; assumption. }
    repeat split; assumption.
Qed.

(** ** The accumulators through a cycle *)

Lemma grown_acc_len (d d' : dict pyval) (j : nat) :
  Forall2 grown d d' -> acc_len j d -> acc_len (S j) d'.
Proof.
  unfold acc_len. induction 1 as [|kv kv' d d' Hg _ IH]; intros Ha.
  - constructor.
  - inversion Ha as [|? ? (l & Hl & Hlen) Ha']; subst.
    constructor; [| apply IH; assumption].
    destruct Hg as (_ & l0 & r & H0 & H1). rewrite Hl in H0. inversion H0; subst l0.
    exists (l ++ [r]). split; [assumption |]. rewrite length_app. simpl. lia.
Qed.

Lemma sample_any (lc lc' : locals) (s s' : sensor) (w w' : world) :
  Controller.sample lc s w = Ok (s', lc') w' -> stepped 1 s s'.
Proof.
  intros H.
  assert (Hgen : forall s0 w0 w1 s1,
             cls s0 = cls s -> data s0 = data s ->
             collect_data_for_median s0 w0 = Ok s1 w1 -> cls s <> cls_Camera ->
             stepped 1 s s1).
  { intros s0 w0 w1 s1 Hc Hd Hcol Hcam. apply collect_ok in Hcol.
    destruct Hcol as (Hcls & _ & _ & Hg & _).
    split; [congruence |]. split; [intros; contradiction |].
    intros _ Hco2 j Ha. rewrite Nat.add_1_r.
    apply (grown_acc_len (data s)); [| assumption].
    rewrite <- Hd. apply Hg. congruence. }
  unfold Controller.sample in H.
  destruct (cls s) eqn:Hcls.
  - apply ret_ok in H. destruct H as [E _]. inversion E; subst.
    split; [reflexivity |]. split; [reflexivity |]. intros Hn. congruence.
  - destruct (co2_exists lc).
    + apply bind_ok in H. destruct H as (s1 & w1 & Hcol & H).
      apply bind_ok in H. destruct H as (t & w2 & _ & H).
      apply bind_ok in H. destruct H as (h & w3 & _ & H).
      apply ret_ok in H. destruct H as [E _]. inversion E; subst.
      eapply Hgen; try eassumption; try reflexivity.
      discriminate.
    + apply bind_ok in H. destruct H as (s1 & w1 & Hcol & H).
      apply ret_ok in H. destruct H as [E _]. inversion E; subst.
      eapply Hgen; try eassumption; try reflexivity.
      discriminate.
  - assert (Hco2 : forall s0 w0 w1 s1,
               cls s0 = cls s ->
               (s2 <- collect_data_for_median s0 ;; ret (s2, lc)) w0 = Ok (s1, lc') w1 ->
               stepped 1 s s1).
    { intros s0 w0 w1 s1 Hc Hrun.
      apply bind_ok in Hrun. destruct Hrun as (s2 & w2 & Hcol & Hrun).
      apply ret_ok in Hrun. destruct Hrun as [E _]. inversion E; subst.
      apply collect_ok in Hcol. destruct Hcol as (Hc' & _).
      split; [congruence |]. split; [intros; congruence |]. intros _ Hn. congruence. }
    destruct (aht21_exists lc).
    + destruct (aht21_temperature lc); [| discriminate H].
      destruct (aht21_humidity lc); [| discriminate H].
      eapply Hco2; [| exact H]. reflexivity.
    + eapply Hco2; [| exact H]. reflexivity.
  - apply bind_ok in H. destruct H as (s1 & w1 & Hcol & H).
    apply ret_ok in H. destruct H as [E _]. inversion E; subst.
    eapply Hgen; try eassumption; try reflexivity.
    discriminate.
  - apply bind_ok in H. destruct H as (s1 & w1 & Hcol & H).
    apply ret_ok in H. destruct H as [E _]. inversion E; subst.
    eapply Hgen; try eassumption; try reflexivity.
    discriminate.
  - apply bind_ok in H. destruct H as (s1 & w1 & Hcol & H).
    apply ret_ok in H. destruct H as [E _]. inversion E; subst.
    eapply Hgen; try eassumption; try reflexivity.
    discriminate.
Qed.

Lemma sample_all_any (l : list sensor) :
  forall l' lc lc' w w',
    Controller.sample_all l lc w = Ok (l', lc') w' -> Forall2 (stepped 1) l l'.
Proof.
  induction l as [|s l IH]; intros l' lc lc' w w' H.
  - simpl in H. apply ret_ok in H. destruct H as [E _]. inversion E. constructor.
  - apply sample_all_cons in H.
    destruct H as (s' & lc1 & w1 & rest' & Hs & Hr & ->).
    constructor; [eapply sample_any; eassumption | eapply IH; eassumption].
Qed.

Lemma stepped_trans (a b : nat) (s s1 s2 : sensor) :
  stepped a s s1 -> stepped b s1 s2 -> stepped (a + b) s s2.
Proof.
  intros (Hc1 & Hcam1 & Hacc1) (Hc2 & Hcam2 & Hacc2).
  split; [congruence |]. split.
  - intros Hcam. rewrite <- (Hcam1 Hcam). apply Hcam2.
    rewrite (Hcam1 Hcam). assumption.
  - intros Hn1 Hn2 j Ha. rewrite Nat.add_assoc.
    apply Hacc2; [congruence | congruence |]. apply Hacc1; assumption.
Qed.

Lemma stepped_zero (s : sensor) : stepped 0 s s.
Proof.
  split; [reflexivity |]. split; [reflexivity |].
  intros _ _ j Ha. rewrite Nat.add_0_r. assumption.
Qed.

Lemma Forall2_stepped_trans (a b : nat) (l : list sensor) :
  forall l1 l2,
    Forall2 (stepped a) l l1 -> Forall2 (stepped b) l1 l2 ->
    Forall2 (stepped (a + b)) l l2.
Proof.
  induction l as [|s l IH]; intros l1 l2 H1 H2.
  - inversion H1; subst. inversion H2; subst. constructor.
  - inversion H1; subst. inversion H2; subst.
    constructor; [eapply stepped_trans; eassumption | eapply IH; eassumption].
Qed.

Lemma rounds_any (n : nat) :
  forall objs objs' lc lc' w w',
    Controller.rounds n objs lc w = Ok (objs', lc') w' ->
    Forall2 (stepped n) objs objs'.
Proof.
  induction n as [|n IH]; intros objs objs' lc lc' w w' H.
  - simpl in H. apply ret_ok in H. destruct H as [E _]. inversion E; subst.
    clear. induction objs'; constructor; [apply stepped_zero | assumption].
  - apply rounds_succ in H.
    destruct H as (objs1 & lc1 & w1 & w2 & H1 & _ & H).
    change (S n) with (1 + n)%nat.
    eapply Forall2_stepped_trans; [eapply sample_all_any; eassumption |].
    eapply IH; eassumption.
Qed.

Lemma list_pop_perm {A} (l : list A) :
  forall i x l', list_pop l i = Some (x, l') -> Permutation l (x :: l').
Proof.
  induction l as [|y l IH]; intros i x l' H; [discriminate H |].
  destruct i as [|i]; simpl in H.
  - inversion H; subst. apply Permutation_refl.
  - destruct (list_pop l i) as [[z l'']|] eqn:E; [| discriminate H].
    inversion H; subst.
    eapply perm_trans; [apply perm_skip, (IH _ _ _ E) | apply perm_swap].
Qed.

Lemma reorder_perm (objs objs' : list sensor) (lc : locals) :
  Controller.reorder objs lc = Res objs' -> Permutation objs objs'.
Proof.
  unfold Controller.reorder. intros H.
  destruct (aht21_exists lc && co2_exists lc);
    [| inversion H; apply Permutation_refl].
  destruct (co2_index lc) as [ci|]; [| discriminate H].
  destruct (aht21_index lc) as [ai|]; [| discriminate H].
  destruct (ci <? ai)%nat; [| inversion H; apply Permutation_refl].
  destruct (list_pop objs ci) as [[x l']|] eqn:E; [| discriminate H].
  inversion H; subst.
  eapply perm_trans; [apply (list_pop_perm _ _ _ _ E) |].
  apply Permutation_cons_append.
Qed.

Lemma acc_len_fresh (c : sensor_class) : acc_len 0 (fresh_data c).
Proof.
  destruct c; repeat constructor; eexists; split; reflexivity.
Qed.

Lemma stepped_classes (k : nat) (l l' : list sensor) :
  Forall2 (stepped k) l l' -> map cls l' = map cls l.
Proof.
  induction 1 as [|s s' l l' (Hc & _) _ IH]; simpl; [reflexivity | congruence].
Qed.

(** At reduction time, in a cycle that started from [ready]. *)
Lemma gather_gathered (c c1 : controller) (w w1 : world) :
  ready (current_objects c) ->
  Controller._gather_sensor_data c w = Ok c1 w1 ->
  NoDup (map cls (current_objects c1)) /\
  Permutation (map cls (current_objects c)) (map cls (current_objects c1)) /\
  Forall gathered (current_objects c1) /\
  last_data c1 = last_data c.
Proof.
  intros [Hnd Hfresh] H. apply gather_ok in H.
  destruct H as (lc & w0 & objs1 & objs2 & lc2 & _ & Hre & Hr & ->). simpl.
  apply reorder_perm in Hre. apply rounds_any in Hr.
  assert (Hp : Permutation (map cls (current_objects c)) (map cls objs2)).
  { rewrite (stepped_classes _ _ _ Hr). apply Permutation_map. exact Hre. }
  split; [eapply Permutation_NoDup; eassumption |].
  split; [exact Hp |]. split; [| reflexivity].
  assert (Hfresh1 : Forall (fun s => cls s <> cls_CO2_ENS160 ->
                                     data s = fresh_data (cls s)) objs1).
  { rewrite Forall_forall in *. intros s Hs. apply Hfresh.
    eapply Permutation_in; [apply Permutation_sym; exact Hre | exact Hs]. }
  clear - Hr Hfresh1.
  induction Hr as [|s s' l l' (Hc & Hcam & Hacc) _ IH]; [constructor |].
  inversion Hfresh1 as [|? ? Hs Hl]; subst.
  constructor; [| apply IH; assumption].
  split.
  - intros Hcam'. rewrite Hc in Hcam'. rewrite (Hcam Hcam').
    rewrite Hs; [rewrite Hcam'; reflexivity | rewrite Hcam'; discriminate].
  - intros Hn1 Hn2. rewrite Hc in Hn1, Hn2.
    apply (Hacc Hn1 Hn2 0%nat). rewrite (Hs Hn2). apply acc_len_fresh.
Qed.

(** ** Reduction and packaging of one sensor *)

Lemma find_median_data_full (l : list Z) :
  length l = config.NUM_READINGS -> exists m, find_median_data (VList l) = Res (VNum m).
Proof.
  intros Hlen. unfold find_median_data. simpl truthy. rewrite Hlen. simpl.
  destruct (nth_error (list_sort l) (length l / 2)) as [m|] eqn:E.
  - rewrite Hlen in E. simpl in E. rewrite E. eauto.
  - apply nth_error_None in E. rewrite list_sort_length, Hlen in E.
    simpl in E. unfold config.NUM_READINGS in E. lia.
Qed.

Lemma find_median_data_number (v : pyval) (m : Z) :
  find_median_data v = Res (VNum m) ->
  exists l, v = VList l /\ length l = config.NUM_READINGS.
Proof.
  unfold find_median_data.
  destruct v as [l|z|]; simpl truthy.
  - destruct (negb (length l =? 0)%nat); [| discriminate].
    destruct (length l =? config.NUM_READINGS)%nat eqn:E; [| discriminate].
    intros _. exists l. apply Nat.eqb_eq in E. auto.
  - destruct (negb (z =? 0)%Z); discriminate.
  - discriminate.
Qed.

Lemma find_median_data_res (v r : pyval) :
  find_median_data v = Res r -> r = VNone \/ exists m, r = VNum m.
Proof.
  unfold find_median_data.
  destruct (truthy v); [| intros H; inversion H; auto].
  destruct v as [l|z|].
  - destruct (length l =? config.NUM_READINGS)%nat; [| intros H; inversion H; auto].
    destruct (nth_error (list_sort l) (length l / 2)); intros H; inversion H; eauto.
  - discriminate.
  - intros H; inversion H; auto.
Qed.

Lemma reduce_all_none (d : dict pyval) :
  forall d', reduce_all d = (d', None) ->
             d' = medians d /\
             Forall (fun kv => exists r, find_median_data (snd kv) = Res r) d.
Proof.
  induction d as [|[key v] d IH]; intros d' H; simpl in H.
  - inversion H. split; [reflexivity | constructor].
  - destruct (find_median_data v) as [r|e] eqn:E; [| discriminate H].
    destruct (reduce_all d) as [d1 e1]. inversion H; subst.
    destruct (IH d1 eq_refl) as [-> Hall].
    split; [simpl; rewrite E; reflexivity |].
    constructor; [simpl; eauto | assumption].
Qed.

Lemma reduce_all_full (d : dict pyval) :
  acc_len config.NUM_READINGS d ->
  reduce_all d = (medians d, None) /\ all_numbers (medians d).
Proof.
  unfold acc_len, all_numbers.
  induction 1 as [|[key v] d (l & Hv & Hlen) _ [IH1 IH2]]; simpl.
  - split; [reflexivity | constructor].
  - simpl in Hv. subst v.
    destruct (find_median_data_full l Hlen) as (m & Hm).
    rewrite Hm, IH1. split; [reflexivity |].
    constructor; [simpl; eauto | assumption].
Qed.

Lemma dict_set_numbers (d : dict pyval) (k : string) (z : Z) :
  all_numbers d -> all_numbers (dict_set d k (VNum z)).
Proof.
  unfold all_numbers. induction 1 as [|[k' v] d Hv Hd IH]; simpl.
  - constructor; [simpl; eauto | constructor].
  - destruct (String.eqb k k'); constructor; simpl; eauto.
Qed.

Lemma reading_of_full (s : sensor) : full s -> all_numbers (reading_of s).
Proof.
  intros Hf. apply dict_set_numbers, reduce_all_full, Hf.
Qed.

Lemma all_truthy_full (d : dict pyval) :
  Forall (fun kv => exists r, find_median_data (snd kv) = Res r) d ->
  CO2_ENS160.all_truthy (medians d) = true ->
  acc_len config.NUM_READINGS d.
Proof.
  unfold CO2_ENS160.all_truthy, acc_len.
  induction 1 as [|[key v] d (r & Hr) _ IH]; simpl; intros Ht; [constructor |].
  apply andb_true_iff in Ht. destruct Ht as [Ht1 Ht2].
  constructor; [| apply IH; assumption].
  simpl in *. rewrite Hr in Ht1.
  destruct (find_median_data_res _ _ Hr) as [-> | (m & ->)]; [discriminate Ht1 |].
  apply (find_median_data_number _ _ Hr).
Qed.

(** What [package] has done when it returns a Reading. *)
Lemma package_some (s s' : sensor) (d : dict (dict pyval)) :
  package s = Res (Some d, s') ->
  cls s <> cls_Camera /\
  d = [(class_name (cls s), reading_of s)] /\
  (cls s = cls_CO2_ENS160 -> full s) /\
  s' = set_data s (reading_of s).
Proof.
  unfold package.
  assert (Hplain : cls s <> cls_Camera -> cls s <> cls_CO2_ENS160 ->
                   package_plain s = Res (Some d, s') ->
                   cls s <> cls_Camera /\
                   d = [(class_name (cls s), reading_of s)] /\
                   (cls s = cls_CO2_ENS160 -> full s) /\
                   s' = set_data s (reading_of s)).
  { intros Hcam Hco2. unfold package_plain, _read.
    destruct (reduce_all (data s)) as [d1 [e|]] eqn:E.
    - destruct e; discriminate.
    - destruct (reduce_all_none _ _ E) as [-> _]. simpl.
      intros H. inversion H; subst.
      split; [assumption |]. split; [reflexivity |].
      split; [intros; contradiction | reflexivity]. }
  destruct (cls s) eqn:Hcls; try (apply Hplain; discriminate).
  - discriminate.
  - unfold CO2_ENS160.package, _read.
    destruct (reduce_all (data s)) as [d1 [e|]] eqn:E.
    + destruct e; discriminate.
    + destruct (reduce_all_none _ _ E) as [-> Hall]. simpl.
      destruct (CO2_ENS160.all_truthy (medians (data s))) eqn:Ht; [| discriminate].
      intros H. inversion H; subst.
      split; [discriminate |]. split; [reflexivity |].
      split; [intros _; apply all_truthy_full; assumption | reflexivity].
Qed.

(** [package] leaves the class of the sensor, and the data of a camera. *)
Lemma package_class (s s' : sensor) (o : option (dict (dict pyval))) :
  package s = Res (o, s') -> cls s' = cls s.
Proof.
  unfold package, package_plain, CO2_ENS160.package, _read.
  destruct (cls s) eqn:Hcls; try discriminate;
    destruct (reduce_all (data s)) as [d1 [[]|]]; simpl; try discriminate;
    try (intros H; inversion H; subst; simpl; assumption).
  destruct (CO2_ENS160.all_truthy d1); intros H; inversion H; subst; simpl; assumption.
Qed.

(** A sensor that is not the CO2 sensor and whose accumulators are full
    always packages a Reading. *)
Lemma package_plain_full (s s' : sensor) (o : option (dict (dict pyval))) :
  cls s <> cls_Camera -> cls s <> cls_CO2_ENS160 -> full s ->
  package s = Res (o, s') -> o = Some [(class_name (cls s), reading_of s)].
Proof.
  intros Hcam Hco2 Hfull. unfold package.
  assert (Hp : package_plain s = Res (o, s') ->
               o = Some [(class_name (cls s), reading_of s)]).
  { unfold package_plain, _read.
    rewrite (proj1 (reduce_all_full _ Hfull)). simpl.
    intros H. inversion H. reflexivity. }
  destruct (cls s); try exact Hp; congruence.
Qed.

(** ** The Snapshot of a cycle *)

Lemma in_dict_set {V} (d : dict V) (k k0 : string) (v v0 : V) :
  In (k0, v0) (dict_set d k v) -> (k0 = k /\ v0 = v) \/ In (k0, v0) d.
Proof.
  induction d as [|[k' v'] d IH]; simpl.
  - intros [E|[]]. inversion E. auto.
  - destruct (String.eqb k k') eqn:Ek.
    + apply String.eqb_eq in Ek. subst k'.
      intros [E|Hin]; [inversion E; auto | auto].
    + intros [E|Hin]; [auto |]. destruct (IH Hin); auto.
Qed.

Lemma dict_get_set_other {V} (d : dict V) (k k0 : string) (v : V) :
  k <> k0 -> dict_get (dict_set d k v) k0 = dict_get d k0.
Proof.
  intros Hne. induction d as [|[k' v'] d IH]; simpl.
  - destruct (String.eqb k0 k) eqn:E; [| reflexivity].
    apply String.eqb_eq in E. congruence.
  - destruct (String.eqb k k') eqn:Ek; simpl.
    + apply String.eqb_eq in Ek. subst k'.
      destruct (String.eqb k0 k) eqn:E; [| reflexivity].
      apply String.eqb_eq in E. congruence.
    + rewrite IH. reflexivity.
Qed.

Lemma length_dict_set {V} (d : dict V) (k : string) (v : V) :
  (length (dict_set d k v) <= S (length d))%nat.
Proof.
  induction d as [|[k' v'] d IH]; simpl; [lia |].
  destruct (String.eqb k k'); simpl; lia.
Qed.

Lemma package_all_cons (s : sensor) (rest objs' : list sensor)
    (sd sd' : dict (dict pyval)) :
  Controller.package_all (s :: rest) sd = Res (objs', sd') ->
  (cls s = cls_Camera /\
   exists rest', Controller.package_all rest sd = Res (rest', sd') /\ objs' = s :: rest') \/
  (cls s <> cls_Camera /\
   exists o s1 rest',
     package s = Res (o, s1) /\
     match o with
     | Some d =>
         Controller.package_all rest (dict_update sd d) = Res (rest', sd') /\
         objs' = reset_sensor_data s1 :: rest'
     | None =>
         Controller.package_all rest sd = Res (rest', sd') /\ objs' = s1 :: rest'
     end).
Proof.
  simpl. destruct (class_eqb (cls s) cls_Camera) eqn:Ecam.
  - apply class_eqb_eq in Ecam. intros H. left. split; [assumption |].
    destruct (Controller.package_all rest sd) as [[rest' sd1]|] eqn:Er;
      [| discriminate H].
    inversion H; subst. eauto.
  - apply class_eqb_neq in Ecam. intros H. right. split; [assumption |].
    destruct (package s) as [[[d|] s1]|e]; [| | discriminate H].
    + destruct (Controller.package_all rest (dict_update sd d)) as [[rest' sd1]|] eqn:Er;
        [| discriminate H].
      inversion H; subst. exists (Some d), s1, rest'. auto.
    + destruct (Controller.package_all rest sd) as [[rest' sd1]|] eqn:Er;
        [| discriminate H].
      inversion H; subst. exists None, s1, rest'. auto.
Qed.

(** The loop of lines 159-165 on sensors at reduction time: what it adds
    to the Snapshot and how it leaves the sensors. *)
Lemma package_all_spec (objs : list sensor) :
  forall sd objs' sd',
    Forall gathered objs ->
    Controller.package_all objs sd = Res (objs', sd') ->
    (forall name rd,
        In (name, rd) sd' ->
        In (name, rd) sd \/
        exists s, In s objs /\ cls s <> cls_Camera /\ name = class_name (cls s) /\
                  full s /\ rd = reading_of s) /\
    (forall k,
        dict_get sd k = None ->
        (forall s, In s objs -> cls s <> cls_Camera -> full s -> class_name (cls s) <> k) ->
        dict_get sd' k = None) /\
    (length sd' <= length sd + length (filter not_camera (map cls objs)))%nat /\
    map cls objs' = map cls objs /\
    Forall (fun s => cls s <> cls_CO2_ENS160 -> data s = fresh_data (cls s)) objs'.
Proof.
  induction objs as [|s rest IH]; intros sd objs' sd' Hg H.
  - simpl in H. inversion H; subst.
    repeat split; auto. simpl. lia.
  - inversion Hg as [|? ? [Hgcam Hgfull] Hg']; subst.
    apply package_all_cons in H.
    destruct H as [[Hcam (rest' & Hrest & ->)] | [Hcam (o & s1 & rest' & Hpk & Ho)]].
    + destruct (IH _ _ _ Hg' Hrest) as (I1 & I2 & I3 & I4 & I5).
      split; [| split; [| split; [| split]]].
      * intros name rd Hin. destruct (I1 _ _ Hin) as [|(s0 & Hs0 & Hrest0)]; [auto |].
        right. exists s0. split; [right; assumption | assumption].
      * intros k Hk Hno. apply I2; [assumption |].
        intros s0 Hs0. apply Hno. right. assumption.
      * simpl. unfold not_camera at 1. rewrite Hcam. simpl. exact I3.
      * simpl. congruence.
      * constructor; [| assumption].
        intros _. rewrite (Hgcam Hcam), Hcam. reflexivity.
    + assert (Hcls1 := package_class _ _ _ Hpk).
      assert (Hnc : not_camera (cls s) = true)
        by (unfold not_camera; apply class_eqb_neq in Hcam; rewrite Hcam; reflexivity).
      destruct o as [d|]; destruct Ho as [Hrest ->].
      * destruct (package_some _ _ _ Hpk) as (_ & -> & Hco2 & ->).
        assert (Hfull : full s).
        { destruct (class_eqb (cls s) cls_CO2_ENS160) eqn:E.
          - apply class_eqb_eq in E. auto.
          - apply class_eqb_neq in E. auto. }
        unfold dict_update in Hrest. simpl in Hrest.
        destruct (IH _ _ _ Hg' Hrest) as (I1 & I2 & I3 & I4 & I5).
        split; [| split; [| split; [| split]]].
        -- intros name rd Hin. destruct (I1 _ _ Hin) as [Hin'|(s0 & Hs0 & Hrest0)].
           ++ apply in_dict_set in Hin'. destruct Hin' as [[-> ->]|Hin']; [| auto].
              right. exists s. split; [left; reflexivity |]. auto.
           ++ right. exists s0. split; [right; assumption | assumption].
        -- intros k Hk Hno. apply I2.
           ++ rewrite dict_get_set_other; [assumption |].
              apply Hno; [left; reflexivity | assumption | assumption].
           ++ intros s0 Hs0. apply Hno. right. assumption.
        -- simpl. rewrite Hnc. simpl.
           assert (Hl := length_dict_set sd (class_name (cls s)) (reading_of s)). lia.
        -- simpl. congruence.
        -- constructor; [intros _; reflexivity | assumption].
      * destruct (IH _ _ _ Hg' Hrest) as (I1 & I2 & I3 & I4 & I5).
        split; [| split; [| split; [| split]]].
        -- intros name rd Hin. destruct (I1 _ _ Hin) as [|(s0 & Hs0 & Hrest0)]; [auto |].
           right. exists s0. split; [right; assumption | assumption].
        -- intros k Hk Hno. apply I2; [assumption |].
           intros s0 Hs0. apply Hno. right. assumption.
        -- simpl. rewrite Hnc. simpl. lia.
        -- simpl. congruence.
        -- constructor; [| assumption].
           intros Hn. rewrite Hcls1 in Hn. exfalso.
           assert (Ho := package_plain_full _ _ _ Hcam Hn (Hgfull Hcam Hn) Hpk).
           discriminate Ho.
Qed.

(** ** Every cycle of a node *)

Lemma construct_spec (ctor : sensor_class -> option exn) (c : sensor_class) (s : sensor) :
  Controller.construct ctor c = Res s -> cls s = c /\ data s = fresh_data c.
Proof.
  unfold Controller.construct.
  destruct c; try discriminate; destruct (ctor _); try discriminate;
    intros H; inversion H; split; reflexivity.
Qed.

Lemma create_objects_spec (ctor : sensor_class -> option exn) (names : list sensor_class) :
  forall objs,
    Controller._create_objects ctor names = Res objs ->
    (forall c, In c (map cls objs) -> In c names) /\
    (NoDup names -> NoDup (map cls objs)) /\
    Forall (fun s => cls s <> cls_CO2_ENS160 -> data s = fresh_data (cls s)) objs /\
    (length (filter not_camera (map cls objs)) <= length (filter not_camera names))%nat.
Proof.
  induction names as [|name names IH]; intros objs H; simpl in H.
  - inversion H; subst. simpl. repeat split; auto; constructor.
  - assert (Hskip :
      Controller._create_objects ctor names = Res objs ->
      (forall c, In c (map cls objs) -> In c (name :: names)) /\
      (NoDup (name :: names) -> NoDup (map cls objs)) /\
      Forall (fun s => cls s <> cls_CO2_ENS160 -> data s = fresh_data (cls s)) objs /\
      (length (filter not_camera (map cls objs))
       <= length (filter not_camera (name :: names)))%nat).
    { intros H'. destruct (IH _ H') as (I1 & I2 & I3 & I4).
      split; [intros c Hc; right; auto |].
      split; [intros Hnd; inversion Hnd; auto |].
      split; [assumption |].
      simpl. destruct (not_camera name); simpl; lia. }
    destruct (Controller.construct ctor name) as [obj|e] eqn:Ec.
    + destruct (Controller._create_objects ctor names) as [objs0|] eqn:Er;
        [| discriminate H].
      inversion H; subst objs. clear H.
      destruct (construct_spec _ _ _ Ec) as [Hcls Hdata].
      destruct (IH _ eq_refl) as (I1 & I2 & I3 & I4).
      split; [| split; [| split]].
      * simpl. intros c [<-|Hc]; [left; symmetry; assumption | right; auto].
      * intros Hnd. apply NoDup_cons_iff in Hnd. destruct Hnd as [Hnin Hnd']. simpl.
        constructor; [| auto]. rewrite Hcls. intros Hin. apply Hnin. auto.
      * constructor; [intros _; rewrite Hdata, Hcls; reflexivity | assumption].
      * simpl. rewrite Hcls. destruct (not_camera name); simpl; lia.
    + destruct e; try discriminate H. apply Hskip. exact H.
Qed.

Lemma perm_filter_length {A} (f : A -> bool) (l l' : list A) :
  Permutation l l' -> length (filter f l) = length (filter f l').
Proof.
  induction 1 as [|x l l' _ IH|x y l|l l1 l2 _ IH1 _ IH2]; simpl.
  - reflexivity.
  - destruct (f x); simpl; congruence.
  - destruct (f x), (f y); reflexivity.
  - congruence.
Qed.

(** One turn from a list that is [ready]: the sensors at reduction time,
    the Snapshot that is published, and the list is [ready] once more. *)
Lemma cycle_spec (now : datetime) (c c2 : controller) (w w2 : world) :
  ready (current_objects c) ->
  Controller.get_data_cycle now c w = Ok c2 w2 ->
  exists c1 w1 snap,
    Controller._gather_sensor_data c w = Ok c1 w1 /\
    Forall gathered (current_objects c1) /\
    NoDup (map cls (current_objects c1)) /\
    Permutation (map cls (current_objects c)) (map cls (current_objects c1)) /\
    Controller.package_all (current_objects c1) [] = Res (current_objects c2, snap) /\
    last_data c2 = Some snap /\
    ready (current_objects c2) /\
    Permutation (map cls (current_objects c)) (map cls (current_objects c2)).
Proof.
  intros Hready H. unfold Controller.get_data_cycle in H.
  apply bind_ok in H. destruct H as (c1 & w1 & Hg & H).
  apply bind_ok in H. destruct H as ([objs' snap] & w3 & Hp & H).
  apply lift_ok in Hp. destruct Hp as [Hp _].
  apply bind_ok in H. destruct H as ([] & w4 & _ & H).
  apply ret_ok in H. destruct H as [<- _]. simpl.
  destruct (gather_gathered _ _ _ _ Hready Hg) as (Hnd & Hperm & Hgath & _).
  destruct (package_all_spec _ _ _ _ Hgath Hp) as (_ & _ & _ & Hcls & Hfresh).
  exists c1, w1, snap.
  repeat split; try assumption; rewrite Hcls; assumption.
Qed.

Lemma get_data_ready (n : nat) :
  forall clock c w c' w',
    ready (current_objects c) ->
    Controller.get_data n clock c w = Ok c' w' ->
    ready (current_objects c') /\
    Permutation (map cls (current_objects c)) (map cls (current_objects c')).
Proof.
  induction n as [|n IH]; intros clock c w c' w' Hready H; simpl in H.
  - apply ret_ok in H. destruct H as [<- _]. split; [assumption | apply Permutation_refl].
  - apply bind_ok in H. destruct H as (c1 & w1 & Hc & H).
    destruct (cycle_spec _ _ _ _ _ Hready Hc)
      as (_ & _ & _ & _ & _ & _ & _ & _ & _ & Hr1 & Hp1).
    destruct (IH _ _ _ _ _ Hr1 H) as [Hr2 Hp2].
    split; [assumption | eapply perm_trans; eassumption].
Qed.

Lemma class_name_inj (a b : sensor_class) : class_name a = class_name b -> a = b.
Proof. destruct a, b; simpl; intros H; try reflexivity; discriminate H. Qed.

Lemma NoDup_classes_inj (l : list sensor) (x y : sensor) :
  NoDup (map cls l) -> In x l -> In y l -> cls x = cls y -> x = y.
Proof.
  induction l as [|s l IH]; simpl; intros Hnd Hx Hy Heq; [contradiction |].
  inversion Hnd as [|? ? Hnin Hnd']; subst.
  destruct Hx as [->|Hx], Hy as [->|Hy]; auto.
  - exfalso. apply Hnin. rewrite Heq. apply in_map. assumption.
  - exfalso. apply Hnin. rewrite <- Heq. apply in_map. assumption.
Qed.

(** C4. On a node built from a configured sensor list, in every turn of
    [get_data] that publishes a Snapshot: a sensor whose reduction failed
    (at reduction time one of its accumulators did not hold exactly
    NUM_READINGS samples) has no entry in the Snapshot; every Reading in
    the Snapshot is the Reading of one of the node's sensors whose
    accumulators were all full, made of the medians and the node
    identifier, every value a number; and the Snapshot has at most as many
    Readings as sensors other than the camera are configured. *)
Theorem snapshot_has_complete_readings_only
    (ctor : sensor_class -> option exn) (sensor_list : list sensor_class)
    (objs0 : list sensor) (n : nat) (clock : nat -> datetime)
    (w0 w w2 : world) (c c2 : controller) (now : datetime) :
  NoDup sensor_list ->
  Controller._create_objects ctor sensor_list = Res objs0 ->
  Controller.get_data n clock (mkController objs0 None) w0 = Ok c w ->
  Controller.get_data_cycle now c w = Ok c2 w2 ->
  exists c1 w1 snap,
    Controller._gather_sensor_data c w = Ok c1 w1 /\
    Controller.get_last_data c2 = Some snap /\
    (forall s, In s (current_objects c1) -> ~ full s ->
               dict_get snap (class_name (cls s)) = None) /\
    (forall name rd,
        In (name, rd) snap ->
        exists s, In s (current_objects c1) /\ cls s <> cls_Camera /\
                  name = class_name (cls s) /\ full s /\
                  rd = reading_of s /\ all_numbers rd) /\
    (length snap <= length (filter not_camera sensor_list))%nat.
Proof.
  intros Hnd Hcreate Hrun Hcycle.
  destruct (create_objects_spec _ _ _ Hcreate) as (_ & Hnd0 & Hfresh0 & Hcount0).
  assert (Hready0 : ready (current_objects (mkController objs0 None)))
    by (split; [apply Hnd0; assumption | assumption]).
  destruct (get_data_ready _ _ _ _ _ _ Hready0 Hrun) as [Hready Hperm].
  destruct (cycle_spec _ _ _ _ _ Hready Hcycle)
    as (c1 & w1 & snap & Hg & Hgath & Hnd1 & Hperm1 & Hpk & Hlast & _ & _).
  destruct (package_all_spec _ _ _ _ Hgath Hpk) as (S1 & S2 & S3 & _ & _).
  exists c1, w1, snap.
  split; [assumption |]. split; [assumption |].
  split; [| split].
  - intros s Hs Hnfull. apply S2; [reflexivity |].
    intros s0 Hs0 _ Hfull0 Hname. apply class_name_inj in Hname.
    apply Hnfull. rewrite <- (NoDup_classes_inj _ _ _ Hnd1 Hs0 Hs Hname). assumption.
  - intros name rd Hin. destruct (S1 _ _ Hin) as [[]|(s & Hs & Hcam & -> & Hfull & ->)].
    exists s. repeat split; try assumption. apply reading_of_full. assumption.
  - simpl in S3.
    rewrite <- (perm_filter_length not_camera _ _ Hperm1) in S3.
    rewrite <- (perm_filter_length not_camera _ _ Hperm) in S3.
    simpl in S3. lia.
Qed.

(** On the node of main.py: a first cycle in which every AQI read answers
    zero publishes the three other Readings and no CO2 Reading; on a bus
    without zeros the second cycle publishes all four. *)
Lemma snapshot_has_complete_readings_only_witness :
  (exists c2 w2 snap,
      Controller.get_data_cycle (mkDatetime 10 40 0) main_controller
        (bus_with cls_CO2_ENS160 "AQI" (HVal 0%Z)) = Ok c2 w2 /\
      Controller.get_last_data c2 = Some snap /\
      dict_get snap "CO2_ENS160" = None /\
      (length snap <= 4)%nat) /\
  (exists c w c2 w2 snap,
      Controller.get_data 1 (fun _ => mkDatetime 10 20 0) main_controller ticking
      = Ok c w /\
      Controller.get_data_cycle (mkDatetime 10 40 0) c w = Ok c2 w2 /\
      Controller.get_last_data c2 = Some snap /\
      (forall name rd, In (name, rd) snap -> all_numbers rd)).
Proof.
  split.
  - destruct (Controller.get_data_cycle (mkDatetime 10 40 0) main_controller
                (bus_with cls_CO2_ENS160 "AQI" (HVal 0%Z)))
      as [c2 w2|e w2] eqn:Hcycle; [| vm_compute in Hcycle; discriminate Hcycle].
    destruct (snapshot_has_complete_readings_only
                (fun _ => None) main_sensor_list (objects_of main_sensor_list)
                0 (fun _ => mkDatetime 10 20 0)
                (bus_with cls_CO2_ENS160 "AQI" (HVal 0%Z))
                (bus_with cls_CO2_ENS160 "AQI" (HVal 0%Z)) w2
                main_controller c2 (mkDatetime 10 40 0))
      as (c1 & w1 & snap & Hg & Hlast & Habsent & _ & Hcount).
    + repeat constructor; simpl; intuition discriminate.
    + reflexivity.
    + reflexivity.
    + exact Hcycle.
    + exists c2, w2, snap. split; [reflexivity |]. split; [exact Hlast |].
      split; [| exact Hcount].
      vm_compute in Hg. injection Hg as Hc1 _. subst c1.
      apply (Habsent
               (mkSensor cls_CO2_ENS160
                  [("AQI", VList []);
                   ("TVOC", VList [1; 1; 1; 1; 1; 1; 1; 1; 1; 1]%Z);
                   ("eCO2", VList [1; 1; 1; 1; 1; 1; 1; 1; 1; 1]%Z)] 1 1)).
      * simpl. tauto.
      * intros Hfull. inversion Hfull as [|? ? (l & Hl & Hlen) _]; subst.
        simpl in Hl. inversion Hl; subst l. discriminate Hlen.
  - destruct (Controller.get_data 1 (fun _ => mkDatetime 10 20 0) main_controller ticking)
      as [c w|e w] eqn:Hrun; [| vm_compute in Hrun; discriminate Hrun].
    destruct (Controller.get_data_cycle (mkDatetime 10 40 0) c w)
      as [c2 w2|e w2] eqn:Hcycle.
    2:{ vm_compute in Hrun. injection Hrun as Hc Hw. subst c w.
        vm_compute in Hcycle. discriminate Hcycle. }
    destruct (snapshot_has_complete_readings_only
                (fun _ => None) main_sensor_list (objects_of main_sensor_list)
                1 (fun _ => mkDatetime 10 20 0) ticking w w2 c c2 (mkDatetime 10 40 0))
      as (c1 & w1 & snap & _ & Hlast & _ & Hall & _).
    + repeat constructor; simpl; intuition discriminate.
    + reflexivity.
    + exact Hrun.
    + exact Hcycle.
    + exists c, w, c2, w2, snap.
      split; [reflexivity |]. split; [exact Hcycle |]. split; [exact Hlast |].
      intros name rd Hin. destruct (Hall _ _ Hin) as (s & _ & _ & _ & _ & _ & Hnum).
      exact Hnum.
Defined.

(** ** The compensation through the cycles of a node *)

Lemma package_keep (s s' : sensor) (o : option (dict (dict pyval))) :
  package s = Res (o, s') -> keep s s'.
Proof.
  unfold package, package_plain, CO2_ENS160.package, _read, keep.
  destruct (cls s) eqn:Hcls; try discriminate;
    destruct (reduce_all (data s)) as [d1 [[]|]]; simpl; try discriminate;
    try solve [intros H; inversion H; subst; simpl; auto].
  destruct (CO2_ENS160.all_truthy d1); intros H; inversion H; subst; simpl; auto.
Qed.

Lemma package_all_keep (objs : list sensor) :
  forall sd objs' sd',
    Controller.package_all objs sd = Res (objs', sd') -> Forall2 keep objs objs'.
Proof.
  induction objs as [|s rest IH]; intros sd objs' sd' H.
  - simpl in H. inversion H. constructor.
  - apply package_all_cons in H.
    destruct H as [[_ (rest' & Hrest & ->)] | [_ (o & s1 & rest' & Hpk & Ho)]].
    + constructor; [repeat split | eapply IH; eassumption].
    + apply package_keep in Hpk.
      destruct o as [d|]; destruct Ho as [Hrest ->];
        (constructor; [exact Hpk | eapply IH; eassumption]).
Qed.

Lemma keep_neutral (l l' : list sensor) :
  Forall2 keep l l' -> neutral l -> neutral l'.
Proof.
  unfold neutral. induction 1 as [|s s' l l' (Hc & _) _ IH]; intros Hn.
  - constructor.
  - inversion Hn; subst. constructor; [rewrite Hc; assumption | auto].
Qed.

Lemma co2_only_keep (objs objs' : list sensor) (tc hc : Z) :
  co2_only objs tc hc -> Forall2 keep objs objs' -> co2_only objs' tc hc.
Proof.
  intros (A & co2 & C & -> & HA & HC & Hc & Htc & Hhc) Hk.
  apply Forall2_app_inv_l in Hk. destruct Hk as (A' & R & HkA & HkR & ->).
  inversion HkR as [|? co2' ? C' (Hc' & Htc' & Hhc') HkC]; subst.
  exists A', co2', C'. split; [reflexivity |].
  split; [eapply keep_neutral; eassumption |].
  split; [eapply keep_neutral; eassumption |].
  repeat split; congruence.
Qed.

Lemma gather_co2_only (c c' : controller) (w w' : world) (tc hc : Z) :
  co2_only (current_objects c) tc hc ->
  Controller._gather_sensor_data c w = Ok c' w' ->
  co2_only (current_objects c') tc hc /\
  co2_collects (events_since w w') = repeat (tc, hc) config.NUM_READINGS.
Proof.
  intros Hp H. pose proof Hp as (A & x & C & E & HA & HC & Hx & _ & _).
  apply gather_ok in H.
  destruct H as (lc & w1 & objs1 & objs2 & lc2 & Hscan & Hre & Hr & ->).
  destruct (scan_emits _ _ _ _ _ _ Hscan) as (e1 & He1 & Hf1).
  rewrite E in Hscan.
  rewrite (scan_co2_only A C x w w1 lc Hx HA HC Hscan) in *.
  unfold Controller.reorder in Hre. simpl in Hre. injection Hre as <-.
  apply (rounds_co2_only _ _ _ _ _ _ _ _ _ Hp) in Hr; [| reflexivity].
  destruct Hr as (e2 & Hp2 & He2 & Hcc).
  split; [exact Hp2 |].
  rewrite (events_since_emits _ _ (e1 ++ e2)) by (eapply emits_trans; eassumption).
  destruct (foreign_quiet _ Hf1) as [Q1 _].
  rewrite co2_collects_app, Q1, Hcc. reflexivity.
Qed.

Lemma get_data_co2_only (n : nat) :
  forall clock c w c' w' tc hc,
    co2_only (current_objects c) tc hc ->
    Controller.get_data n clock c w = Ok c' w' ->
    co2_only (current_objects c') tc hc.
Proof.
  induction n as [|n IH]; intros clock c w c' w' tc hc Hp H; simpl in H.
  - apply ret_ok in H. destruct H as [<- _]. assumption.
  - apply bind_ok in H. destruct H as (c2 & w2 & Hc & H).
    eapply IH; [| exact H].
    unfold Controller.get_data_cycle in Hc.
    apply bind_ok in Hc. destruct Hc as (c1 & w1 & Hg & Hc).
    apply bind_ok in Hc. destruct Hc as ([objs' snap] & w3 & Hpk & Hc).
    apply lift_ok in Hpk. destruct Hpk as [Hpk _].
    apply bind_ok in Hc. destruct Hc as ([] & w4 & _ & Hc).
    apply ret_ok in Hc. destruct Hc as [<- _]. simpl.
    apply (co2_only_keep (current_objects c1)).
    + apply (gather_co2_only _ _ _ _ _ _ Hp Hg).
    + eapply package_all_keep. exact Hpk.
Qed.

Lemma create_objects_defaults (ctor : sensor_class -> option exn)
    (names : list sensor_class) :
  forall objs,
    Controller._create_objects ctor names = Res objs ->
    Forall (fun s => cls s = cls_CO2_ENS160 ->
                     temperature_compensation s = 25%Z /\
                     humidity_compensation s = 50%Z) objs.
Proof.
  induction names as [|name names IH]; intros objs H; simpl in H.
  - inversion H. constructor.
  - destruct (Controller.construct ctor name) as [obj|e] eqn:Ec.
    + destruct (Controller._create_objects ctor names) as [objs0|] eqn:Er;
        [| discriminate H].
      inversion H; subst objs. constructor; [| apply IH; reflexivity].
      unfold Controller.construct in Ec.
      destruct name; try discriminate Ec; destruct (ctor _); try discriminate Ec;
        inversion Ec; subst obj; simpl; intros Hc; try discriminate Hc.
      split; reflexivity.
    + destruct e; try discriminate H. apply IH. exact H.
Qed.

(** C6 (amended).  On a node built from a configured sensor list, in every
    cycle: when both sensors are there, every one of the NUM_READINGS
    sample collections of the CO2 sensor is made with the compensation
    set from the first temperature and the first relative humidity the
    temperature/humidity sensor answered in this cycle, where a first
    sample that is zero is replaced by the default (25 for the temperature,
    50 for the humidity); these are the raw first samples, at the head of
    the accumulators, not the medians.  When the temperature/humidity
    sensor is not there, every collection of the CO2 sensor is made with
    the compensation its constructor set: 25 and 50. *)
Theorem co2_compensated_from_first_samples
    (ctor : sensor_class -> option exn) (sensor_list : list sensor_class)
    (objs0 : list sensor) (n : nat) (clock : nat -> datetime)
    (w0 w w' : world) (c c' : controller) :
  NoDup sensor_list ->
  Controller._create_objects ctor sensor_list = Res objs0 ->
  Controller.get_data n clock (mkController objs0 None) w0 = Ok c w ->
  Controller._gather_sensor_data c w = Ok c' w' ->
  let evs := events_since w w' in
  (forall temp co2,
      In temp (current_objects c) -> In co2 (current_objects c) ->
      cls temp = cls_TEMP_AHT21 -> cls co2 = cls_CO2_ENS160 ->
      exists t0 h0 ts hs temp' co2',
        aht21_reads "temperature" evs = t0 :: ts /\
        aht21_reads "relative_humidity" evs = h0 :: hs /\
        co2_collects evs
        = repeat (or_default 25 t0, or_default 50 h0) config.NUM_READINGS /\
        In temp' (current_objects c') /\ cls temp' = cls_TEMP_AHT21 /\
        data temp' = aht21_data (t0 :: ts) (h0 :: hs) /\
        In co2' (current_objects c') /\ cls co2' = cls_CO2_ENS160 /\
        temperature_compensation co2' = or_default 25 t0 /\
        humidity_compensation co2' = or_default 50 h0) /\
  (forall co2,
      In co2 (current_objects c) -> cls co2 = cls_CO2_ENS160 ->
      (forall s, In s (current_objects c) -> cls s <> cls_TEMP_AHT21) ->
      co2_collects evs = repeat (25%Z, 50%Z) config.NUM_READINGS).
Proof.
  intros Hndl Hcreate Hrun H evs.
  destruct (create_objects_spec _ _ _ Hcreate) as (_ & Hnd0 & Hfresh0 & _).
  assert (Hready0 : ready (current_objects (mkController objs0 None)))
    by (split; [apply Hnd0; assumption | assumption]).
  destruct (get_data_ready _ _ _ _ _ _ Hready0 Hrun) as [[Hnd Hfresh] Hperm].
  simpl in Hperm.
  split.
  - intros temp co2 Htin Hcin Ht Hc.
    assert (Hdata : data temp = aht21_data [] []).
    { rewrite Forall_forall in Hfresh. rewrite (Hfresh _ Htin), Ht; [reflexivity |].
      rewrite Ht. discriminate. }
    destruct (gather_paired c c' w w' temp co2 [] [] Hnd Htin Hcin Ht Hc Hdata H)
      as (objs1 & objs2 & lc & lc2 & w1 & e1 & Hp & Hae & Hce & He1 & Hf1 & Hr & Hobjs).
    destruct (rounds_paired _ _ _ _ _ _ _ _ _ _ _ Hp Hae Hce Hr)
      as (ts' & hs' & tc' & hc' & e2 & Hp2 & Hl1 & Hl2 & He2 & Hrt & Hrh & Hcc & Hnz & _).
    simpl app in *.
    destruct ts' as [|t0 ts]; [discriminate Hl1 |].
    destruct hs' as [|h0 hs]; [discriminate Hl2 |].
    simpl hd in *.
    destruct Hnz as [-> ->]; [discriminate |].
    destruct Hp2 as (A & temp' & B & co2' & C & E & _ & _ & _ & Ht' & Hd' & Hc' & Htc & Hhc).
    assert (Hevs : evs = e1 ++ e2)
      by (apply events_since_emits; eapply emits_trans; eassumption).
    destruct (foreign_quiet _ Hf1) as [Q1 Q1'].
    exists t0, h0, ts, hs, temp', co2'.
    rewrite Hevs, !aht21_reads_app, co2_collects_app, Q1, !Q1', Hrt, Hrh, Hcc.
    rewrite Hobjs, E.
    repeat split; try assumption; try reflexivity.
    + apply in_elt.
    + rewrite app_comm_cons, app_assoc. apply in_elt.
  - intros co2 Hcin Hc Hno.
    assert (Hin0 : In cls_CO2_ENS160 (map cls objs0)).
    { eapply Permutation_in; [apply Permutation_sym; exact Hperm |].
      rewrite <- Hc. apply in_map. exact Hcin. }
    apply in_map_iff in Hin0. destruct Hin0 as (s0 & Hc0 & Hs0).
    assert (Hno0 : forall s, In s objs0 -> cls s <> cls_TEMP_AHT21).
    { intros s Hs Heq.
      assert (Hin : In (cls s) (map cls (current_objects c)))
        by (eapply Permutation_in; [exact Hperm | apply in_map; exact Hs]).
      apply in_map_iff in Hin. destruct Hin as (s' & Hc' & Hs').
      apply (Hno _ Hs'). congruence. }
    assert (Hp0 := split_co2_only _ _ (Hnd0 Hndl) Hs0 Hc0 Hno0).
    pose proof (create_objects_defaults _ _ _ Hcreate) as Hdef.
    rewrite Forall_forall in Hdef. destruct (Hdef _ Hs0 Hc0) as [Htc0 Hhc0].
    rewrite Htc0, Hhc0 in Hp0.
    assert (Hp := get_data_co2_only n clock (mkController objs0 None) w0 c w _ _
                    Hp0 Hrun).
    apply (gather_co2_only _ _ _ _ _ _ Hp H).
Qed.

Lemma co2_compensated_from_first_samples_witness :
  (exists c w c' w' t0 h0 ts,
      Controller.get_data 1 (fun _ => mkDatetime 10 20 0) main_controller ticking
      = Ok c w /\
      Controller._gather_sensor_data c w = Ok c' w' /\
      aht21_reads "temperature" (events_since w w') = t0 :: ts /\
      t0 = 121%Z /\ h0 = 122%Z /\
      co2_collects (events_since w w')
      = repeat (or_default 25 t0, or_default 50 h0) config.NUM_READINGS) /\
  (exists c' w',
      Controller._gather_sensor_data
        (mkController (objects_of [cls_Camera; cls_CO2_ENS160; cls_RGB_TCS34725]) None)
        ticking = Ok c' w' /\
      co2_collects (events_since ticking w') = repeat (25%Z, 50%Z) config.NUM_READINGS).
Proof.
  split.
  - destruct (Controller.get_data 1 (fun _ => mkDatetime 10 20 0) main_controller ticking)
      as [c w|e w] eqn:Hrun; [| vm_compute in Hrun; discriminate Hrun].
    destruct (Controller._gather_sensor_data c w) as [c' w'|e w'] eqn:Hg.
    2:{ vm_compute in Hrun. injection Hrun as Hc Hw. subst c w.
        vm_compute in Hg. discriminate Hg. }
    assert (Hnd : NoDup main_sensor_list)
      by (repeat constructor; simpl; intuition discriminate).
    destruct (co2_compensated_from_first_samples
                (fun _ => None) main_sensor_list (objects_of main_sensor_list)
                1 (fun _ => mkDatetime 10 20 0) ticking w w' c c'
                Hnd eq_refl Hrun Hg) as [H _].
    vm_compute in Hrun. injection Hrun as Hc Hw. subst c w.
    destruct (H TEMP_AHT21.__init__
                (mkSensor cls_CO2_ENS160 (fresh_data cls_CO2_ENS160) 9 10))
      as (t0 & h0 & ts & hs & temp' & co2' & Hrt & Hrh & Hcc & _);
      try reflexivity; try (simpl; tauto).
    eexists. eexists. exists c', w', t0, h0, ts.
    split; [reflexivity |]. split; [exact Hg |]. split; [exact Hrt |].
    vm_compute in Hg. injection Hg as _ Hw'. subst w'.
    vm_compute in Hrt. vm_compute in Hrh.
    injection Hrt as Ht _. injection Hrh as Hh _.
    split; [symmetry; exact Ht |]. split; [symmetry; exact Hh |]. exact Hcc.
  - destruct (Controller._gather_sensor_data
                (mkController (objects_of [cls_Camera; cls_CO2_ENS160; cls_RGB_TCS34725])
                              None) ticking)
      as [c' w'|e w'] eqn:Hrun; [| vm_compute in Hrun; discriminate Hrun].
    assert (Hnd : NoDup [cls_Camera; cls_CO2_ENS160; cls_RGB_TCS34725])
      by (repeat constructor; simpl; intuition discriminate).
    destruct (co2_compensated_from_first_samples
                (fun _ => None) [cls_Camera; cls_CO2_ENS160; cls_RGB_TCS34725]
                (objects_of [cls_Camera; cls_CO2_ENS160; cls_RGB_TCS34725])
                0 (fun _ => mkDatetime 10 20 0) ticking ticking w'
                (mkController (objects_of [cls_Camera; cls_CO2_ENS160; cls_RGB_TCS34725])
                              None) c'
                Hnd eq_refl eq_refl Hrun) as [_ H].
    exists c', w'. split; [reflexivity |].
    apply (H CO2_ENS160.__init__).
    + simpl; tauto.
    + reflexivity.
    + intros s [<-|[<-|[<-|[]]]]; discriminate.
Defined.

(** C6 as stated fails: when the temperature the AHT21 reads is 0, the CO2
    sensor is compensated with 25, not with the first sample 0. *)
Lemma zero_first_sample_is_replaced :
  exists c' w',
    Controller._gather_sensor_data main_controller
      (bus_with cls_TEMP_AHT21 "temperature" (HVal 0%Z)) = Ok c' w' /\
    aht21_reads "temperature" (trace w') = repeat 0%Z 10 /\
    aht21_reads "relative_humidity" (trace w') = repeat 1%Z 10 /\
    co2_collects (trace w') = repeat (25%Z, 1%Z) 10 /\
    co2_collects (trace w') <> repeat (0%Z, 1%Z) 10.
Proof.
  eexists. eexists. split; [vm_compute; reflexivity |].
  split; [reflexivity |]. split; [reflexivity |].
  split; [reflexivity | discriminate].
Qed.

(** ** The reordering in a cycle *)

Lemma index_of_classes (c : sensor_class) (l : list sensor) :
  forall l', map cls l = map cls l' -> index_of c l = index_of c l'.
Proof.
  induction l as [|s l IH]; intros [|s' l'] H; try discriminate H; [reflexivity |].
  simpl in H. injection H as Hs Hl. simpl. rewrite Hs, (IH _ Hl). reflexivity.
Qed.

Lemma scan_no_collect (l : list sensor) :
  forall i lc w lc' w',
    Controller.scan l i lc w = Ok lc' w' ->
    exists evs, emits w w' evs /\ collect_order evs = [].
Proof.
  induction l as [|s l IH]; intros i lc w lc' w' H; simpl in H.
  - invert_run H. exists []. split; [apply emits_refl | reflexivity].
  - apply bind_ok in H. destruct H as ([] & w1 & H1 & H2).
    apply IH in H2. destruct H2 as (evs & He & Hf).
    destruct (class_eqb (cls s) cls_Camera).
    + apply bind_ok in H1. destruct H1 as (b & w0 & Hc & Hr).
      invert_run Hr. apply capture_image_ok in Hc. destruct Hc as [Hc | Hc].
      * exists ([EvCapture b] ++ evs). split; [eapply emits_trans; eassumption |].
        exact Hf.
      * exists ([EvAwaitSleep 2; EvCapture b] ++ evs).
        split; [eapply emits_trans; eassumption | exact Hf].
    + invert_run H1. exists evs. auto.
Qed.

(** Every round samples the sensors but the camera in the order of the
    list. *)
Lemma rounds_order (n : nat) :
  forall objs objs' lc lc' w w',
    Controller.rounds n objs lc w = Ok (objs', lc') w' ->
    exists evs,
      emits w w' evs /\
      collect_order evs = concat (repeat (filter not_camera (map cls objs)) n).
Proof.
  induction n as [|n IH]; intros objs objs' lc lc' w w' H.
  - simpl in H. apply ret_ok in H. destruct H as [_ <-].
    exists []. split; [apply emits_refl | reflexivity].
  - apply rounds_succ in H.
    destruct H as (objs1 & lc1 & w1 & w2 & Hs & Hsl & Hr).
    pose proof (stepped_classes _ _ _ (sample_all_any _ _ _ _ _ _ Hs)) as Hcls.
    apply sample_all_order in Hs. destruct Hs as (e1 & He1 & Ho1).
    apply IH in Hr. destruct Hr as (e2 & He2 & Ho2).
    exists (e1 ++ [EvSleep] ++ e2).
    split; [eapply emits_trans; [exact He1 | eapply emits_trans; eassumption] |].
    rewrite !collect_order_app, Ho1, Ho2, Hcls. reflexivity.
Qed.

(** C5. In a sensor list where the CO2 sensor comes before the
    temperature/humidity sensor (each class being there once, as the keys
    of the configuring dict are), [_gather_sensor_data] takes the CO2
    sensor out of its place and puts it at the end, leaving the order of
    the others, and runs its rounds on the list so reordered: the list it
    leaves has the temperature/humidity sensor before the CO2 sensor,
    which is last, and every one of the NUM_READINGS rounds samples the
    sensors in this order, the temperature/humidity sensor before the CO2
    sensor. *)
Theorem reorder_moves_co2_to_end
    (A B C : list sensor) (co2 temp : sensor) (last : option (dict (dict pyval)))
    (w w' : world) (c' : controller) :
  cls co2 = cls_CO2_ENS160 -> cls temp = cls_TEMP_AHT21 ->
  neutral A -> neutral B -> neutral C ->
  Controller._gather_sensor_data
    (mkController (A ++ co2 :: B ++ temp :: C) last) w = Ok c' w' ->
  let objs' := A ++ B ++ temp :: C ++ [co2] in
  (exists lc w1 lc2,
      Controller.scan (A ++ co2 :: B ++ temp :: C) 0 entry_locals w = Ok lc w1 /\
      Controller.reorder (A ++ co2 :: B ++ temp :: C) lc = Res objs' /\
      Controller.rounds config.NUM_READINGS objs' lc w1
      = Ok (current_objects c', lc2) w') /\
  map cls (current_objects c') = map cls objs' /\
  index_of cls_TEMP_AHT21 (current_objects c') = Some (length A + length B)%nat /\
  index_of cls_CO2_ENS160 (current_objects c')
  = Some (length (current_objects c') - 1)%nat /\
  (length A + length B < length (current_objects c') - 1)%nat /\
  collect_order (events_since w w')
  = concat (repeat (filter not_camera (map cls objs')) config.NUM_READINGS) /\
  exists X Y,
    filter not_camera (map cls objs') = X ++ cls_TEMP_AHT21 :: Y ++ [cls_CO2_ENS160].
Proof.
  intros Hco2 Htemp HA HB HC H objs'.
  apply gather_ok in H.
  destruct H as (lc & w1 & objs1 & objs2 & lc2 & Hscan & Hre & Hr & ->).
  simpl current_objects in *.
  pose proof (scan_co2_first A B C co2 temp w w1 lc Hco2 Htemp HA HB HC Hscan) as Hlc.
  rewrite Hlc, reorder_co2_first in Hre. injection Hre as <-. fold objs' in Hr.
  pose proof (stepped_classes _ _ _ (rounds_any _ _ _ _ _ _ _ Hr)) as Hcls.
  destruct (neutral_not_class _ HA) as [HAt HAc].
  destruct (neutral_not_class _ HB) as [HBt HBc].
  destruct (neutral_not_class _ HC) as [HCt HCc].
  assert (Hlen : length objs' = (length A + length B + S (length C + 1))%nat).
  { unfold objs'. rewrite !length_app. simpl. rewrite length_app. simpl. lia. }
  assert (Hlen2 : length objs2 = length objs').
  { rewrite <- (length_map cls objs2), Hcls, length_map. reflexivity. }
  split; [| split; [| split; [| split; [| split; [| split]]]]].
  - exists lc, w1, lc2. split; [exact Hscan |]. split; [| exact Hr].
    rewrite Hlc. apply reorder_co2_first.
  - exact Hcls.
  - rewrite (index_of_classes _ _ _ Hcls). unfold objs'. rewrite app_assoc.
    rewrite index_of_app; [rewrite length_app; reflexivity | | exact Htemp].
    apply Forall_app. split; assumption.
  - rewrite (index_of_classes _ _ _ Hcls), Hlen2. unfold objs' in *.
    assert (E : A ++ B ++ temp :: C ++ [co2] = (A ++ B ++ temp :: C) ++ co2 :: [])
      by (rewrite <- !app_assoc; reflexivity).
    rewrite E at 1. rewrite index_of_app; [| | exact Hco2].
    + f_equal. rewrite Hlen, !length_app. simpl. lia.
    + apply Forall_app. split; [assumption |].
      apply Forall_app. split; [assumption |].
      constructor; [rewrite Htemp; discriminate | assumption].
  - rewrite Hlen2, Hlen. lia.
  - apply scan_no_collect in Hscan. destruct Hscan as (e1 & He1 & Ho1).
    apply rounds_order in Hr. destruct Hr as (e2 & He2 & Ho2).
    rewrite (events_since_emits _ _ _ (emits_trans _ _ _ _ _ He1 He2)).
    rewrite collect_order_app, Ho1, Ho2. reflexivity.
  - unfold objs'.
    exists (filter not_camera (map cls (A ++ B))), (filter not_camera (map cls C)).
    rewrite app_assoc, !map_app, !filter_app. simpl.
    rewrite Htemp, !map_app, !filter_app. simpl.
    rewrite Hco2. reflexivity.
Qed.

Lemma reorder_moves_co2_to_end_witness :
  exists c' w',
    Controller._gather_sensor_data
      (mkController
         (objects_of [cls_Camera; cls_CO2_ENS160; cls_RGB_TCS34725;
                      cls_TEMP_AHT21; cls_IR_MLX90614]) None)
      (scripted [] 1) = Ok c' w' /\
    map cls (current_objects c')
    = [cls_Camera; cls_RGB_TCS34725; cls_TEMP_AHT21; cls_IR_MLX90614;
       cls_CO2_ENS160] /\
    collect_order (events_since (scripted [] 1) w')
    = concat (repeat [cls_RGB_TCS34725; cls_TEMP_AHT21; cls_IR_MLX90614;
                      cls_CO2_ENS160] 10).
Proof.
  destruct (Controller._gather_sensor_data
              (mkController
                 (objects_of [cls_Camera; cls_CO2_ENS160; cls_RGB_TCS34725;
                              cls_TEMP_AHT21; cls_IR_MLX90614]) None)
              (scripted [] 1)) as [c' w'|e w'] eqn:Hg;
    [| vm_compute in Hg; discriminate Hg].
  destruct (reorder_moves_co2_to_end
              [fresh_sensor cls_Camera] [fresh_sensor cls_RGB_TCS34725]
              [fresh_sensor cls_IR_MLX90614]
              CO2_ENS160.__init__ TEMP_AHT21.__init__ None (scripted [] 1) w' c')
    as (_ & Hcls & _ & _ & _ & Hord & _).
  - reflexivity.
  - reflexivity.
  - repeat constructor; discriminate.
  - repeat constructor; discriminate.
  - repeat constructor; discriminate.
  - exact Hg.
  - exists c', w'. split; [reflexivity |]. split; [exact Hcls | exact Hord].
Defined.

(** ** The default compensation *)

(** C10. When the first accumulated temperature is zero [get_temperature]
    returns 25, and when the first accumulated relative humidity is zero
    [get_humidity] returns 50, whatever else the accumulators hold.  So in
    a cycle of a node with both sensors, whatever compensation the CO2
    sensor had before, its compensation fields hold after the cycle, and
    held at every one of its collections, the first temperature and the
    first relative humidity the other sensor read in the cycle, with 25 in
    place of a temperature of zero and 50 in place of a humidity of zero:
    the default, not the zero sample. *)
Theorem get_temperature_zero_is_default
    (t h : Z) (ts hs : list Z)
    (c c' : controller) (temp co2 : sensor) (w w' : world) :
  TEMP_AHT21.get_temperature (aht21_sensor (VList (0%Z :: ts)) (VList (h :: hs)))
  = Res 25%Z /\
  TEMP_AHT21.get_humidity (aht21_sensor (VList (t :: ts)) (VList (0%Z :: hs)))
  = Res 50%Z /\
  (NoDup (map cls (current_objects c)) ->
   In temp (current_objects c) -> In co2 (current_objects c) ->
   cls temp = cls_TEMP_AHT21 -> cls co2 = cls_CO2_ENS160 ->
   data temp = fresh_data cls_TEMP_AHT21 ->
   Controller._gather_sensor_data c w = Ok c' w' ->
   exists t0 h0 ts' hs' co2',
     aht21_reads "temperature" (events_since w w') = t0 :: ts' /\
     aht21_reads "relative_humidity" (events_since w w') = h0 :: hs' /\
     In co2' (current_objects c') /\ cls co2' = cls_CO2_ENS160 /\
     temperature_compensation co2' = or_default 25 t0 /\
     humidity_compensation co2' = or_default 50 h0 /\
     co2_collects (events_since w w')
     = repeat (or_default 25 t0, or_default 50 h0) config.NUM_READINGS /\
     (t0 = 0%Z -> temperature_compensation co2' = 25%Z) /\
     (h0 = 0%Z -> humidity_compensation co2' = 50%Z)).
Proof.
  split; [reflexivity | split; [reflexivity |]].
  intros Hnd Htin Hcin Ht Hc Hdata H.
  destruct (gather_paired c c' w w' temp co2 [] [] Hnd Htin Hcin Ht Hc Hdata H)
    as (objs1 & objs2 & lc & lc2 & w1 & e1 & Hp & Hae & Hce & He1 & Hf1 & Hr & Hobjs).
  destruct (rounds_paired _ _ _ _ _ _ _ _ _ _ _ Hp Hae Hce Hr)
    as (ts' & hs' & tc' & hc' & e2 & Hp2 & Hl1 & Hl2 & He2 & Hrt & Hrh & Hcc & Hnz & _).
  simpl app in *.
  destruct ts' as [|t0 ts0]; [discriminate Hl1 |].
  destruct hs' as [|h0 hs0]; [discriminate Hl2 |].
  simpl hd in *.
  destruct Hnz as [-> ->]; [discriminate |].
  destruct Hp2 as (A & temp' & B & co2' & C & E & _ & _ & _ & Ht' & Hd' & Hc' & Htc & Hhc).
  pose proof (events_since_emits _ _ _ (emits_trans _ _ _ _ _ He1 He2)) as Hevs.
  destruct (foreign_quiet _ Hf1) as [Q1 Q1'].
  exists t0, h0, ts0, hs0, co2'.
  rewrite Hevs, !aht21_reads_app, co2_collects_app, Q1, !Q1', Hrt, Hrh, Hcc.
  rewrite Hobjs, E, Htc, Hhc.
  split; [reflexivity |]. split; [reflexivity |].
  split; [rewrite app_comm_cons, app_assoc; apply in_elt |].
  split; [exact Hc' |]. split; [reflexivity |]. split; [reflexivity |].
  split; [reflexivity |].
  split; intros ->; reflexivity.
Qed.

(** The second cycle of the node of main.py on a bus where the temperature
    reads zero from then on: the CO2 sensor comes to the cycle with the 9
    and 10 of the first cycle and leaves it with 25 and the humidity
    read. *)
Lemma get_temperature_zero_is_default_witness :
  exists c w c' w' co2',
    Controller.get_data 1 (fun _ => mkDatetime 10 20 0) main_controller
      (mkWorld (fun cl key n =>
                  if class_eqb cl cls_TEMP_AHT21 && String.eqb key "temperature"
                     && Nat.leb 112 n
                  then HVal 0%Z else HVal (Z.of_nat n + 1))
               (fun _ => None) 0 [])
    = Ok c w /\
    In (mkSensor cls_CO2_ENS160 (fresh_data cls_CO2_ENS160) 9 10) (current_objects c) /\
    Controller._gather_sensor_data c w = Ok c' w' /\
    In co2' (current_objects c') /\ cls co2' = cls_CO2_ENS160 /\
    temperature_compensation co2' = 25%Z /\
    humidity_compensation co2' = 122%Z.
Proof.
  destruct (Controller.get_data 1 (fun _ => mkDatetime 10 20 0) main_controller
              (mkWorld (fun cl key n =>
                          if class_eqb cl cls_TEMP_AHT21 && String.eqb key "temperature"
                             && Nat.leb 112 n
                          then HVal 0%Z else HVal (Z.of_nat n + 1))
                       (fun _ => None) 0 []))
    as [c w|e w] eqn:Hrun; [| vm_compute in Hrun; discriminate Hrun].
  destruct (Controller._gather_sensor_data c w) as [c' w'|e w'] eqn:Hg.
  2:{ vm_compute in Hrun. injection Hrun as Hc Hw. subst c w.
      vm_compute in Hg. discriminate Hg. }
  destruct (get_temperature_zero_is_default 0 0 [] [] c c' TEMP_AHT21.__init__
              (mkSensor cls_CO2_ENS160 (fresh_data cls_CO2_ENS160) 9 10) w w')
    as (_ & _ & H).
  assert (Hin : In (mkSensor cls_CO2_ENS160 (fresh_data cls_CO2_ENS160) 9 10)
                   (current_objects c)).
  { vm_compute in Hrun. injection Hrun as <- _. simpl. tauto. }
  destruct H as (t0 & h0 & ts' & hs' & co2' & Hrt & Hrh & Hin' & Hc' & Htc & Hhc & _).
  - vm_compute in Hrun. injection Hrun as <- _.
    repeat constructor; simpl; intuition discriminate.
  - vm_compute in Hrun. injection Hrun as <- _. simpl. tauto.
  - exact Hin.
  - reflexivity.
  - reflexivity.
  - reflexivity.
  - exact Hg.
  - exists c, w, c', w', co2'. split; [reflexivity |]. split; [exact Hin |].
    split; [exact Hg |]. split; [exact Hin' |]. split; [exact Hc' |].
    vm_compute in Hrun. injection Hrun as Ec Ew. subst c w.
    vm_compute in Hg. injection Hg as _ Ew'. subst w'.
    vm_compute in Hrt. vm_compute in Hrh.
    injection Hrt as Et _. injection Hrh as Eh _. subst t0 h0.
    split; [exact Htc | exact Hhc].
Defined.

(** * Further properties of the code *)

(** ** The median among the samples *)

Lemma sorted_around (s : list Z) :
  forall i m,
    StronglySorted Z.le s -> nth_error s i = Some m ->
    Forall (fun x => (x <= m)%Z) (firstn (S i) s) /\
    Forall (fun x => (m <= x)%Z) (skipn i s).
Proof.
  induction s as [|y s IH]; intros i m Hs Hn; [destruct i; discriminate Hn |].
  inversion Hs as [|? ? Hs' Hall]; subst.
  destruct i as [|i]; simpl in Hn.
  - inversion Hn; subst y. simpl. split.
    + constructor; [lia | constructor].
    + constructor; [lia | assumption].
  - destruct (IH _ _ Hs' Hn) as [H1 H2].
    split; [| exact H2].
    change (firstn (S (S i)) (y :: s)) with (y :: firstn (S i) s).
    constructor; [| exact H1].
    rewrite Forall_forall in Hall. apply Hall. eapply nth_error_In. exact Hn.
Qed.

Lemma filter_all_length {A} (f : A -> bool) (l : list A) :
  Forall (fun x => f x = true) l -> length (filter f l) = length l.
Proof.
  induction 1 as [|x l Hx _ IH]; simpl; [reflexivity |].
  rewrite Hx. simpl. congruence.
Qed.

Lemma filter_length_app_l {A} (f : A -> bool) (a b : list A) :
  (length (filter f a) <= length (filter f (a ++ b)))%nat.
Proof. rewrite filter_app, length_app. lia. Qed.

Lemma filter_length_app_r {A} (f : A -> bool) (a b : list A) :
  (length (filter f b) <= length (filter f (a ++ b)))%nat.
Proof. rewrite filter_app, length_app. lia. Qed.

Lemma find_median_data_sorted_index (l : list Z) (m : Z) :
  find_median_data (VList l) = Res (VNum m) ->
  length l = config.NUM_READINGS /\
  nth_error (list_sort l) (config.NUM_READINGS / 2) = Some m.
Proof.
  intros H.
  destruct (find_median_data_number _ _ H) as (l0 & E & Hlen). inversion E; subst l0.
  split; [exact Hlen |].
  unfold find_median_data in H. simpl truthy in H. rewrite Hlen in H.
  change (negb (config.NUM_READINGS =? 0)%nat) with true in H. cbv iota in H.
  rewrite Nat.eqb_refl in H.
  destruct (nth_error (list_sort l) (config.NUM_READINGS / 2)) eqn:E5;
    inversion H; subst; reflexivity.
Qed.

(** X1. The value [find_median_data] returns for a list is one of the
    samples of the list, at least NUM_READINGS/2 + 1 of the samples (6 of
    10) are at most this value and at least NUM_READINGS - NUM_READINGS/2
    of them (5 of 10) are at least this value: up to 5 samples that are too
    low and up to 4 that are too high cannot move it outside the range of
    the others. *)
Theorem median_is_a_middle_sample (l : list Z) (m : Z) :
  find_median_data (VList l) = Res (VNum m) ->
  In m l /\
  (config.NUM_READINGS / 2 + 1 <= count_le m l)%nat /\
  (config.NUM_READINGS - config.NUM_READINGS / 2 <= count_ge m l)%nat.
Proof.
  intros H. destruct (find_median_data_sorted_index _ _ H) as [Hlen Hn].
  assert (Hperm := list_sort_perm l).
  assert (Hs : StronglySorted Z.le (list_sort l)).
  { apply Sorted_StronglySorted; [intros a b c; apply Z.le_trans | apply list_sort_sorted]. }
  destruct (sorted_around _ _ _ Hs Hn) as [Hlow Hhigh].
  assert (Hslen : length (list_sort l) = config.NUM_READINGS)
    by (rewrite list_sort_length; exact Hlen).
  split; [| split].
  - eapply Permutation_in; [exact Hperm | eapply nth_error_In; exact Hn].
  - unfold count_le.
    rewrite <- (perm_filter_length _ _ _ Hperm).
    rewrite <- (firstn_skipn (S (config.NUM_READINGS / 2)) (list_sort l)) at 1.
    eapply Nat.le_trans; [| apply filter_length_app_l].
    rewrite filter_all_length.
    + rewrite length_firstn, Hslen. unfold config.NUM_READINGS. simpl. lia.
    + eapply Forall_impl; [| exact Hlow]. simpl. intros x Hx. apply Z.leb_le. exact Hx.
  - unfold count_ge.
    rewrite <- (perm_filter_length _ _ _ Hperm).
    rewrite <- (firstn_skipn (config.NUM_READINGS / 2) (list_sort l)) at 1.
    eapply Nat.le_trans; [| apply filter_length_app_r].
    rewrite filter_all_length.
    + rewrite length_skipn, Hslen. unfold config.NUM_READINGS. simpl. lia.
    + eapply Forall_impl; [| exact Hhigh]. simpl. intros x Hx. apply Z.leb_le. exact Hx.
Qed.

Lemma median_is_a_middle_sample_witness :
  In 21%Z [20; 900; 21; 19; 22; 0; 23; 21; 20; 850]%Z /\
  (6 <= count_le 21 [20; 900; 21; 19; 22; 0; 23; 21; 20; 850]%Z)%nat /\
  (5 <= count_ge 21 [20; 900; 21; 19; 22; 0; 23; 21; 20; 850]%Z)%nat.
Proof.
  apply (median_is_a_middle_sample [20; 900; 21; 19; 22; 0; 23; 21; 20; 850]%Z 21%Z).
  vm_compute. reflexivity.
Defined.

(** X2. [find_median_data] does not depend on the order in which the
    samples were accumulated: two lists with the same samples give the
    same result. *)
Theorem median_ignores_the_order (l l' : list Z) :
  Permutation l l' ->
  find_median_data (VList l) = find_median_data (VList l').
Proof.
  intros HP.
  assert (Hs : list_sort l = list_sort l').
  { apply sorted_is_list_sort; [| apply list_sort_sorted].
    eapply perm_trans; [apply list_sort_perm | exact HP]. }
  unfold find_median_data. simpl truthy.
  rewrite (Permutation_length HP), Hs. reflexivity.
Qed.

Lemma median_ignores_the_order_witness :
  find_median_data (VList [3; 1; 2; 10; 9; 8; 7; 6; 5; 4]%Z)
  = find_median_data (VList [1; 3; 2; 10; 9; 8; 7; 6; 5; 4]%Z).
Proof.
  apply median_ignores_the_order. apply perm_swap.
Defined.

(** ** [package] needs a reset before it is called again *)

Lemma medians_reduced_values (d : dict pyval) :
  Forall (fun kv => exists r, find_median_data (snd kv) = Res r) d ->
  reduced_values (medians d).
Proof.
  unfold reduced_values.
  induction 1 as [|[key v] d (r & Hr) _ IH]; simpl; [constructor |].
  constructor; [| exact IH]. simpl in *. rewrite Hr.
  apply (find_median_data_res _ _ Hr).
Qed.

Lemma dict_set_reduced_values (d : dict pyval) (k : string) (z : Z) :
  reduced_values d -> reduced_values (dict_set d k (VNum z)).
Proof.
  unfold reduced_values. induction 1 as [|[k' v] d Hv Hd IH]; simpl.
  - constructor; [simpl; eauto | constructor].
  - destruct (String.eqb k k'); constructor; simpl; eauto.
Qed.

Lemma dict_set_in {V} (d : dict V) (k : string) (v : V) :
  exists k', In (k', v) (dict_set d k v).
Proof.
  induction d as [|[k0 v0] d (k' & IH)]; simpl.
  - exists k. left. reflexivity.
  - destruct (String.eqb k k0).
    + exists k0. left. reflexivity.
    + exists k'. right. exact IH.
Qed.

(** A second reduction of reduced values stops at the first number that is
    not zero. *)
Lemma reduce_all_twice (d : dict pyval) :
  reduced_values d ->
  (exists k z, In (k, VNum z) d /\ z <> 0%Z) ->
  exists d', reduce_all d = (d', Some TypeError).
Proof.
  unfold reduced_values.
  induction 1 as [|[key v] d Hv Hd IH]; intros (k & z & Hin & Hz); [contradiction |].
  simpl in Hv. simpl.
  destruct Hv as [-> | (z0 & ->)].
  - simpl. destruct Hin as [E | Hin]; [discriminate E |].
    destruct IH as (d' & ->); [eauto |]. eauto.
  - unfold find_median_data. simpl truthy.
    destruct (Z.eqb z0 0) eqn:E0; simpl.
    + destruct Hin as [E | Hin].
      * inversion E; subst. apply Z.eqb_eq in E0. contradiction.
      * destruct IH as (d' & ->); [eauto |]. eauto.
    + eauto.
Qed.

Lemma package_reads_all (s s' : sensor) (d : dict (dict pyval)) :
  package s = Res (Some d, s') ->
  Forall (fun kv => exists r, find_median_data (snd kv) = Res r) (data s).
Proof.
  unfold package, package_plain, CO2_ENS160.package, _read.
  destruct (cls s); try discriminate;
    destruct (reduce_all (data s)) as [d1 [[]|]] eqn:E; simpl; try discriminate;
    intros _; apply (reduce_all_none _ _ E).
Qed.

(** X3. [package] cannot be called twice on the same data: once it has
    returned a Reading, the sensor's dict holds the reduced numbers and the
    node identifier, and a second [package] before [reset_sensor_data]
    raises [TypeError] ([len] of a number). *)
Theorem package_twice_raises (s s' : sensor) (d : dict (dict pyval)) :
  package s = Res (Some d, s') -> package s' = Err TypeError.
Proof.
  intros H.
  assert (Hall := package_reads_all _ _ _ H).
  destruct (package_some _ _ _ H) as (Hcam & _ & _ & ->).
  assert (Hred : reduced_values (reading_of s))
    by (apply dict_set_reduced_values, medians_reduced_values, Hall).
  destruct (reduce_all_twice (reading_of s) Hred) as (d' & Hd').
  { destruct (dict_set_in (medians (data s)) "Node" (VNum config.NODE)) as (k' & Hin).
    exists k', config.NODE. split; [exact Hin | discriminate]. }
  unfold package, package_plain, CO2_ENS160.package, _read. simpl.
  rewrite Hd'. destruct (cls s); try reflexivity. contradiction.
Qed.

Lemma package_twice_raises_witness :
  exists d s',
    package (aht21_sensor (VList [20; 21; 22; 23; 24; 25; 26; 27; 28; 29]%Z)
                          (VList [40; 41; 42; 43; 44; 45; 46; 47; 48; 49]%Z))
    = Res (Some d, s') /\
    package s' = Err TypeError.
Proof.
  destruct (package (aht21_sensor (VList [20; 21; 22; 23; 24; 25; 26; 27; 28; 29]%Z)
                                  (VList [40; 41; 42; 43; 44; 45; 46; 47; 48; 49]%Z)))
    as [[[d|] s']|e] eqn:E; try (vm_compute in E; discriminate E).
  exists d, s'. split; [reflexivity | exact (package_twice_raises _ _ _ E)].
Defined.

(** ** The delay and the countdown *)

(** X4. For every wall-clock time the delay [_calc_next_reading] computes
    is between 60 and 1259 seconds, and the cycle that starts after it
    starts twice the seconds of the completion time past a multiple of the
    stagger interval: on the grid exactly when the cycle completed at
    second 0. *)
Theorem calc_next_reading_range (t : datetime) :
  wellformed_time t ->
  (60 <= Controller._calc_next_reading t <= 1259)%Z /\
  ((seconds_of_day t + Controller._calc_next_reading t) mod stagger_seconds
   = 2 * second t)%Z /\
  ((seconds_of_day t + Controller._calc_next_reading t) mod stagger_seconds = 0
   <-> second t = 0)%Z.
Proof.
  intros Hwf. pose proof Hwf as (Hh & Hmi & Hs).
  assert (Hmod : ((seconds_of_day t + Controller._calc_next_reading t) mod stagger_seconds
                  = 2 * second t)%Z).
  { rewrite (calc_next_reading_excess t Hwf).
    destruct (seconds_to_boundary_least t) as (_ & H0 & _).
    unfold stagger_seconds, Controller.STAGGER_INTERVAL in *.
    change (20 * 60)%Z with 1200%Z in *.
    apply Z.mod_divide in H0; [| lia]. destruct H0 as [q Hq].
    symmetry. apply (Z.mod_unique _ _ q); lia. }
  split; [| split; [exact Hmod |]].
  - unfold Controller._calc_next_reading, Controller.STAGGER_INTERVAL.
    assert (Hb := Z.mod_pos_bound (minute t) 20 ltac:(lia)). lia.
  - rewrite Hmod. lia.
Qed.

Lemma calc_next_reading_range_witness :
  (60 <= Controller._calc_next_reading (mkDatetime 23 59 59) <= 1259)%Z /\
  ((seconds_of_day (mkDatetime 23 59 59)
    + Controller._calc_next_reading (mkDatetime 23 59 59)) mod stagger_seconds
   = 118)%Z.
Proof.
  destruct (calc_next_reading_range (mkDatetime 23 59 59)) as (H1 & H2 & _).
  - unfold wellformed_time. simpl. lia.
  - split; [exact H1 | exact H2].
Defined.

(** X5. The countdown the LCD shows is always 60 seconds more than the
    time to the next multiple of the stagger interval, and it differs from
    the delay the scheduler computes at the same wall-clock time by
    60 - 2 * second: the two agree at second 30 only. *)
Theorem lcd_countdown_is_a_minute_late (t : datetime) :
  wellformed_time t ->
  LCD.time_until_next_reading t = (seconds_to_boundary t + 60)%Z /\
  (LCD.time_until_next_reading t - Controller._calc_next_reading t
   = 60 - 2 * second t)%Z.
Proof.
  intros Hwf. rewrite (calc_next_reading_excess t Hwf).
  assert (E : LCD.time_until_next_reading t
              = (Controller._calc_next_reading t + 60 - 2 * second t)%Z).
  { unfold LCD.time_until_next_reading, Controller._calc_next_reading,
      Controller.STAGGER_INTERVAL. lia. }
  rewrite E, (calc_next_reading_excess t Hwf). lia.
Qed.

Lemma lcd_countdown_is_a_minute_late_witness :
  LCD.time_until_next_reading (mkDatetime 10 47 30) = 810%Z /\
  seconds_to_boundary (mkDatetime 10 47 30) = 750%Z.
Proof.
  destruct (lcd_countdown_is_a_minute_late (mkDatetime 10 47 30)) as [H _].
  - unfold wellformed_time. simpl. lia.
  - split; [reflexivity | reflexivity].
Defined.

(** ** The CO2 sensor never stores a zero *)

Lemma attempts_grown (n : nat) (key : string) (v : pyval) :
  forall w v' w',
    CO2_ENS160.attempts n key v w = Ok v' w' ->
    v' = v \/ exists l r, v = VList l /\ v' = VList (l ++ [r]) /\ r <> 0%Z.
Proof.
  induction n as [|n IH]; intros w v' w' H; simpl in H.
  - apply ret_ok in H. destruct H as [<- _]. left. reflexivity.
  - apply bind_ok in H. destruct H as (r & w1 & _ & H).
    destruct (Z.eqb r 0) eqn:E.
    + apply bind_ok in H. destruct H as ([] & w2 & _ & H). eapply IH. exact H.
    + destruct v as [l| |]; try discriminate H.
      apply ret_ok in H. destruct H as [<- _].
      right. exists l, r. apply Z.eqb_neq in E. auto.
Qed.

Lemma collect_keys_grown (d : dict pyval) :
  forall w d' w',
    CO2_ENS160.collect_keys d w = Ok d' w' -> Forall2 co2_grown d d'.
Proof.
  induction d as [|[key v] d IH]; intros w d' w' H;
    cbn [CO2_ENS160.collect_keys] in H.
  - apply ret_ok in H. destruct H as [<- _]. constructor.
  - apply bind_ok in H. destruct H as (v1 & w1 & Hv & H).
    apply bind_ok in H. destruct H as (d1 & w2 & Hd & H).
    apply ret_ok in H. destruct H as [<- _].
    constructor; [| eapply IH; exact Hd].
    split; [reflexivity |]. simpl. eapply attempts_grown. exact Hv.
Qed.

Lemma co2_grown_no_zero (d d' : dict pyval) :
  Forall2 co2_grown d d' -> no_zero d -> no_zero d'.
Proof.
  unfold no_zero. induction 1 as [|kv kv' d d' (_ & Hg) _ IH]; intros Hn.
  - constructor.
  - inversion Hn as [|? ? Hkv Hd]; subst. constructor; [| auto].
    intros l Hl. destruct Hg as [E | (l0 & r & H0 & H1 & Hr)].
    + apply Hkv. congruence.
    + rewrite H1 in Hl. inversion Hl; subst l. intros Hin.
      apply in_app_or in Hin. destruct Hin as [Hin | [E|[]]].
      * exact (Hkv _ H0 Hin).
      * congruence.
Qed.

(** X6. One [collect_data_for_median] of the CO2 sensor leaves every
    accumulator as it was or appends one sample to it, and the sample
    appended is never zero: accumulators without a zero stay without. *)
Theorem co2_collect_stores_no_zero (s s' : sensor) (w w' : world) :
  cls s = cls_CO2_ENS160 ->
  collect_data_for_median s w = Ok s' w' ->
  Forall2 co2_grown (data s) (data s') /\
  (no_zero (data s) -> no_zero (data s')).
Proof.
  intros Hc H. unfold collect_data_for_median in H.
  apply bind_ok in H. destruct H as ([] & w1 & _ & H). rewrite Hc in H.
  unfold CO2_ENS160.collect_data_for_median in H.
  apply bind_ok in H. destruct H as (d & w2 & Hd & H).
  apply ret_ok in H. destruct H as [<- _]. simpl.
  apply collect_keys_grown in Hd.
  split; [exact Hd | apply co2_grown_no_zero; exact Hd].
Qed.

Lemma co2_collect_stores_no_zero_witness :
  exists s' w',
    collect_data_for_median CO2_ENS160.__init__ (scripted [0; 0; 7; 0; 0; 0; 0; 0]%Z 3)
    = Ok s' w' /\
    data s' = [("AQI", VList [7%Z]); ("TVOC", VList []); ("eCO2", VList [3%Z])] /\
    no_zero (data s').
Proof.
  destruct (collect_data_for_median CO2_ENS160.__init__
              (scripted [0; 0; 7; 0; 0; 0; 0; 0]%Z 3)) as [s' w'|e w'] eqn:E;
    [| vm_compute in E; discriminate E].
  exists s', w'. split; [reflexivity |].
  destruct (co2_collect_stores_no_zero CO2_ENS160.__init__ s' _ w' eq_refl E) as [_ Hn].
  split.
  - vm_compute in E. injection E as <- _. reflexivity.
  - apply Hn. repeat constructor; simpl; intros l Hl; inversion Hl; subst; intros [].
Defined.

(** ** When the CO2 Reading is dropped *)

Lemma median_in_list (l : list Z) (m : Z) :
  find_median_data (VList l) = Res (VNum m) -> In m l.
Proof.
  intros H. destruct (find_median_data_sorted_index _ _ H) as [_ Hn].
  eapply Permutation_in; [apply list_sort_perm | eapply nth_error_In; exact Hn].
Qed.

Lemma all_truthy_no_zero (d : dict pyval) :
  acc_len config.NUM_READINGS d -> no_zero d ->
  CO2_ENS160.all_truthy (medians d) = true.
Proof.
  unfold acc_len, no_zero, CO2_ENS160.all_truthy.
  induction 1 as [|[key v] d (l & Hv & Hlen) _ IH]; intros Hn; [reflexivity |].
  inversion Hn as [|? ? Hkv Hd]; subst. simpl in *. subst v.
  destruct (find_median_data_full l Hlen) as (m & Hm).
  rewrite Hm, (IH Hd), andb_true_r. simpl.
  apply negb_true_iff, Z.eqb_neq. intros ->.
  exact (Hkv l eq_refl (median_in_list _ _ Hm)).
Qed.

(** X7. As long as the accumulators of the CO2 sensor hold no zero, which
    its own [collect_data_for_median] keeps so, [package] returns [None]
    exactly when the reduction failed, that is when an accumulator does
    not hold NUM_READINGS samples: the test that every reduced value is
    truthy never drops a Reading for a value of zero. *)
Theorem co2_dropped_exactly_when_incomplete
    (s s' : sensor) (o : option (dict (dict pyval))) :
  cls s = cls_CO2_ENS160 -> no_zero (data s) ->
  package s = Res (o, s') ->
  (o = None <-> ~ full s).
Proof.
  intros Hc Hn H. split.
  - intros -> Hfull.
    unfold package in H. rewrite Hc in H.
    unfold CO2_ENS160.package, _read in H.
    rewrite (proj1 (reduce_all_full _ Hfull)) in H. simpl in H.
    rewrite (all_truthy_no_zero _ Hfull Hn) in H. discriminate H.
  - intros Hnf. destruct o as [d|]; [| reflexivity].
    exfalso. apply Hnf. destruct (package_some _ _ _ H) as (_ & _ & Hfull & _). auto.
Qed.

Lemma co2_dropped_exactly_when_incomplete_witness :
  exists s',
    package (co2_sensor (VList [4; 2; 3; 1; 5; 9; 8; 7; 6; 10]%Z)
                        (VList [40; 20; 30; 10; 50; 90; 80; 70; 60]%Z)
                        (VList [400; 400; 400; 400; 400; 400; 400; 400; 400; 400]%Z)
                        25 50) = Res (None, s') /\
    ~ full (co2_sensor (VList [4; 2; 3; 1; 5; 9; 8; 7; 6; 10]%Z)
                       (VList [40; 20; 30; 10; 50; 90; 80; 70; 60]%Z)
                       (VList [400; 400; 400; 400; 400; 400; 400; 400; 400; 400]%Z)
                       25 50).
Proof.
  eexists. split; [vm_compute; reflexivity |].
  eapply (co2_dropped_exactly_when_incomplete _ _ None); [reflexivity | | | reflexivity].
  - repeat constructor; simpl; intros l Hl; inversion Hl; subst; simpl;
      intuition discriminate.
  - vm_compute. reflexivity.
Defined.

(** ** The objects of a node *)

(** X8. A sensor list that names UV_LTR390 never gives a node: the
    constructor of that class names an unbound variable, and
    [_create_objects] ends in an exception that is no [RuntimeError],
    whatever the other constructors do. *)
Theorem uv_sensor_stops_create_objects
    (ctor : sensor_class -> option exn) (sensor_list : list sensor_class) :
  In cls_UV_LTR390 sensor_list ->
  exists e, Controller._create_objects ctor sensor_list = Err e /\ e <> RuntimeError.
Proof.
  induction sensor_list as [|name names IH]; intros Hin; [contradiction |].
  simpl.
  destruct (class_eqb name cls_UV_LTR390) eqn:E.
  - apply class_eqb_eq in E. subst name. simpl. exists NameError. split; [reflexivity | discriminate].
  - apply class_eqb_neq in E. destruct Hin as [Hin | Hin]; [congruence |].
    destruct (IH Hin) as (e & He & Hne). rewrite He.
    destruct (Controller.construct ctor name) as [obj|e'].
    + exists e. auto.
    + destruct e'; try (eexists; split; [reflexivity | discriminate]).
      exists e. auto.
Qed.

Lemma uv_sensor_stops_create_objects_witness :
  exists e,
    Controller._create_objects (fun _ => None)
      [cls_Camera; cls_TEMP_AHT21; cls_UV_LTR390; cls_CO2_ENS160] = Err e /\
    e <> RuntimeError.
Proof.
  apply uv_sensor_stops_create_objects. simpl. tauto.
Defined.

(** X9. When UV_LTR390 is not configured and constructors fail with
    [RuntimeError] only, [_create_objects] returns one object for every
    name whose constructor did not fail, in the order of the list, each
    with empty accumulators: a failing sensor is left out and the others
    are kept. *)
Theorem create_objects_leaves_out_failures
    (ctor : sensor_class -> option exn) (sensor_list : list sensor_class) :
  ~ In cls_UV_LTR390 sensor_list ->
  (forall c e, In c sensor_list -> ctor c = Some e -> e = RuntimeError) ->
  exists objs,
    Controller._create_objects ctor sensor_list = Res objs /\
    map cls objs = filter (constructible ctor) sensor_list /\
    Forall (fun s => data s = fresh_data (cls s)) objs.
Proof.
  induction sensor_list as [|name names IH]; intros Huv Hrt.
  - exists []. repeat split. constructor.
  - destruct IH as (objs & IH1 & IH2 & IH3).
    { intros Hin. apply Huv. right. exact Hin. }
    { intros c e Hin. apply Hrt. right. exact Hin. }
    assert (Hname : name <> cls_UV_LTR390) by (intros ->; apply Huv; left; reflexivity).
    simpl. unfold constructible at 1.
    destruct (ctor name) as [e|] eqn:Ec.
    + assert (He : e = RuntimeError) by (apply (Hrt name); [left; reflexivity | exact Ec]).
      subst e.
      assert (Hcon : Controller.construct ctor name = Err RuntimeError)
        by (unfold Controller.construct; rewrite Ec; destruct name; congruence).
      rewrite Hcon. exists objs. auto.
    + destruct (Controller.construct ctor name) as [obj|e] eqn:Hcon.
      * destruct (construct_spec _ _ _ Hcon) as [Hcls Hdata].
        rewrite IH1. exists (obj :: objs). split; [reflexivity |].
        split; [simpl; congruence |].
        constructor; [rewrite Hdata, Hcls; reflexivity | exact IH3].
      * exfalso. unfold Controller.construct in Hcon. rewrite Ec in Hcon.
        destruct name; congruence.
Qed.

Lemma create_objects_leaves_out_failures_witness :
  exists objs,
    Controller._create_objects
      (fun c => if class_eqb c cls_IR_MLX90614 then Some RuntimeError else None)
      main_sensor_list = Res objs /\
    map cls objs = [cls_Camera; cls_RGB_TCS34725; cls_TEMP_AHT21; cls_CO2_ENS160].
Proof.
  destruct (create_objects_leaves_out_failures
              (fun c => if class_eqb c cls_IR_MLX90614 then Some RuntimeError else None)
              main_sensor_list) as (objs & H1 & H2 & _).
  - simpl. intuition discriminate.
  - intros c e _. destruct (class_eqb c cls_IR_MLX90614); intros E; inversion E.
    reflexivity.
  - exists objs. split; [exact H1 | exact H2].
Defined.

(** ** The order of the sensors settles *)

Lemma class_eq_dec (a b : sensor_class) : {a = b} + {a <> b}.
Proof. decide equality. Defined.

Lemma scan_classes (l : list sensor) :
  forall l' i lc w,
    map cls l = map cls l' -> Controller.scan l i lc w = Controller.scan l' i lc w.
Proof.
  induction l as [|s l IH]; intros [|s' l'] i lc w E; try discriminate E.
  - reflexivity.
  - simpl in E. injection E as Es El. simpl. rewrite Es.
    unfold bind. destruct (class_eqb (cls s') cls_Camera).
    + destruct (Camera.capture_image w); [| reflexivity]. simpl. apply IH. exact El.
    + simpl. apply IH. exact El.
Qed.

Lemma scan_no_temp (l : list sensor) :
  forall i lc w lc' w',
    Forall (fun s => cls s <> cls_TEMP_AHT21) l ->
    Controller.scan l i lc w = Ok lc' w' -> aht21_exists lc' = aht21_exists lc.
Proof.
  induction l as [|s l IH]; intros i lc w lc' w' Hn H; simpl in H.
  - apply ret_ok in H. destruct H as [<- _]. reflexivity.
  - inversion Hn as [|? ? Ht Hn']; subst.
    apply class_eqb_neq in Ht. rewrite Ht in H.
    apply bind_ok in H. destruct H as ([] & w1 & _ & H2).
    rewrite (IH _ _ _ _ _ Hn' H2).
    destruct (class_eqb (cls s) cls_CO2_ENS160); reflexivity.
Qed.

Lemma scan_no_co2 (l : list sensor) :
  forall i lc w lc' w',
    Forall (fun s => cls s <> cls_CO2_ENS160) l ->
    Controller.scan l i lc w = Ok lc' w' -> co2_exists lc' = co2_exists lc.
Proof.
  induction l as [|s l IH]; intros i lc w lc' w' Hn H; simpl in H.
  - apply ret_ok in H. destruct H as [<- _]. reflexivity.
  - inversion Hn as [|? ? Hc Hn']; subst.
    apply class_eqb_neq in Hc. rewrite Hc in H.
    apply bind_ok in H. destruct H as ([] & w1 & _ & H2).
    rewrite (IH _ _ _ _ _ Hn' H2).
    destruct (class_eqb (cls s) cls_TEMP_AHT21); reflexivity.
Qed.

Lemma classes_without (c : sensor_class) (l l' : list sensor) :
  Permutation (map cls l) (map cls l') -> ~ In c (map cls l) ->
  Forall (fun s => cls s <> c) l'.
Proof.
  intros HP Hn. apply Forall_forall. intros s Hs Heq. apply Hn.
  eapply Permutation_in; [apply Permutation_sym; exact HP |].
  rewrite <- Heq. apply in_map. exact Hs.
Qed.

(** After the rounds of a cycle, a scan of any list with the classes in
    the order [_gather_sensor_data] left them finds nothing to move. *)
Lemma settled_after_gather (c c' : controller) (w w' : world) (objs' : list sensor) :
  NoDup (map cls (current_objects c)) ->
  Controller._gather_sensor_data c w = Ok c' w' ->
  map cls objs' = map cls (current_objects c') ->
  forall w1 lc w2,
    Controller.scan objs' 0 entry_locals w1 = Ok lc w2 ->
    Controller.reorder objs' lc = Res objs'.
Proof.
  intros Hnd H Hcls w1 lc' w2 Hscan'.
  apply gather_ok in H.
  destruct H as (lc & w0 & objs1 & objs2 & lc2 & Hscan & Hre & Hr & ->).
  simpl in Hcls. apply rounds_any in Hr. apply stepped_classes in Hr.
  rewrite Hr in Hcls. clear Hr objs2 lc2.
  assert (Hperm : Permutation (map cls (current_objects c)) (map cls objs'))
    by (rewrite Hcls; apply Permutation_map, reorder_perm with (lc := lc); exact Hre).
  destruct (in_dec class_eq_dec cls_TEMP_AHT21 (map cls (current_objects c)))
    as [Htin | Htno].
  - destruct (in_dec class_eq_dec cls_CO2_ENS160 (map cls (current_objects c)))
      as [Hcin | Hcno].
    + apply in_map_iff in Htin. destruct Htin as (temp & Ht & Htin).
      apply in_map_iff in Hcin. destruct Hcin as (co2 & Hc & Hcin).
      destruct (split_both _ _ _ Hnd Htin Hcin Ht Hc)
        as [(A & B & C & E & HA & HB & HC) | (A & B & C & E & HA & HB & HC)];
        rewrite E in Hscan, Hre.
      * rewrite (scan_temp_first A B C co2 temp w w0 lc Hc Ht HA HB HC Hscan) in Hre.
        rewrite reorder_temp_first in Hre. injection Hre as <-.
        rewrite (scan_classes _ _ _ _ _ Hcls) in Hscan'.
        rewrite (scan_temp_first A B C co2 temp w1 w2 lc' Hc Ht HA HB HC Hscan').
        apply reorder_temp_first.
      * rewrite (scan_co2_first A B C co2 temp w w0 lc Hc Ht HA HB HC Hscan) in Hre.
        rewrite reorder_co2_first in Hre. injection Hre as <-.
        rewrite (scan_classes _ _ _ _ _ Hcls) in Hscan'.
        rewrite app_assoc in Hscan'.
        assert (HAB : neutral (A ++ B)) by (apply Forall_app; split; assumption).
        rewrite (scan_temp_first (A ++ B) C [] co2 temp w1 w2 lc' Hc Ht HAB HC
                   (Forall_nil _) Hscan').
        apply reorder_temp_first.
    + assert (Hno := classes_without _ _ _ Hperm Hcno).
      assert (Hf := scan_no_co2 _ _ _ _ _ _ Hno Hscan'). simpl in Hf.
      unfold Controller.reorder. rewrite Hf, andb_false_r. reflexivity.
  - assert (Hno := classes_without _ _ _ Hperm Htno).
    assert (Hf := scan_no_temp _ _ _ _ _ _ Hno Hscan'). simpl in Hf.
    unfold Controller.reorder. rewrite Hf. reflexivity.
Qed.

Lemma package_all_classes (objs : list sensor) :
  forall sd objs' sd',
    Controller.package_all objs sd = Res (objs', sd') -> map cls objs' = map cls objs.
Proof.
  intros sd objs' sd' H. apply package_all_keep in H.
  induction H as [|s s' l l' (Hc & _) _ IH]; simpl; congruence.
Qed.

(** The last of [S n] turns. *)
Lemma get_data_last (n : nat) :
  forall clock c w c' w',
    Controller.get_data (S n) clock c w = Ok c' w' ->
    exists c1 w1,
      Controller.get_data n clock c w = Ok c1 w1 /\
      Controller.get_data_cycle (clock n) c1 w1 = Ok c' w'.
Proof.
  induction n as [|n IH]; intros clock c w c' w' H.
  - simpl in H. apply bind_ok in H. destruct H as (c1 & w1 & Hc & H).
    apply ret_ok in H. destruct H as [<- <-].
    exists c, w. split; [reflexivity | exact Hc].
  - change (Controller.get_data (S (S n)) clock c w)
      with ((c1 <- Controller.get_data_cycle (clock O) c ;;
             Controller.get_data (S n) (fun i => clock (S i)) c1) w) in H.
    apply bind_ok in H. destruct H as (c1 & w1 & Hc & H).
    apply IH in H. destruct H as (c2 & w2 & Hrun & Hlast).
    exists c2, w2. split; [| exact Hlast].
    simpl. unfold bind at 1. rewrite Hc. exact Hrun.
Qed.

(** X10. The sensor list is reordered at most once: on a node built from
    a configured sensor list, once a first cycle has completed, the scan
    and the reordering at the start of a cycle leave the list as it is. *)
Theorem order_settles_after_first_cycle
    (ctor : sensor_class -> option exn) (sensor_list : list sensor_class)
    (objs0 : list sensor) (n : nat) (clock : nat -> datetime)
    (w0 w : world) (c : controller) :
  NoDup sensor_list ->
  Controller._create_objects ctor sensor_list = Res objs0 ->
  Controller.get_data (S n) clock (mkController objs0 None) w0 = Ok c w ->
  forall w1 lc w2,
    Controller.scan (current_objects c) 0 entry_locals w1 = Ok lc w2 ->
    Controller.reorder (current_objects c) lc = Res (current_objects c).
Proof.
  intros Hndl Hcreate Hrun.
  destruct (create_objects_spec _ _ _ Hcreate) as (_ & Hnd0 & Hfresh0 & _).
  assert (Hready0 : ready (current_objects (mkController objs0 None)))
    by (split; [apply Hnd0; assumption | assumption]).
  apply get_data_last in Hrun. destruct Hrun as (c1 & w1 & Hrun & Hcycle).
  destruct (get_data_ready _ _ _ _ _ _ Hready0 Hrun) as [Hready1 _].
  destruct (cycle_spec _ _ _ _ _ Hready1 Hcycle)
    as (cg & wg & snap & Hg & _ & _ & _ & Hpk & _).
  apply (settled_after_gather c1 cg w1 wg (current_objects c) (proj1 Hready1) Hg).
  eapply package_all_classes. exact Hpk.
Qed.

Lemma order_settles_after_first_cycle_witness :
  exists c w lc w2,
    Controller.get_data 1 (fun _ => mkDatetime 10 20 0)
      (mkController (objects_of [cls_CO2_ENS160; cls_Camera; cls_TEMP_AHT21]) None)
      ticking = Ok c w /\
    map cls (current_objects c) = [cls_Camera; cls_TEMP_AHT21; cls_CO2_ENS160] /\
    Controller.scan (current_objects c) 0 entry_locals w = Ok lc w2 /\
    Controller.reorder (current_objects c) lc = Res (current_objects c).
Proof.
  destruct (Controller.get_data 1 (fun _ => mkDatetime 10 20 0)
              (mkController (objects_of [cls_CO2_ENS160; cls_Camera; cls_TEMP_AHT21]) None)
              ticking) as [c w|e w] eqn:Hrun; [| vm_compute in Hrun; discriminate Hrun].
  destruct (Controller.scan (current_objects c) 0 entry_locals w) as [lc w2|e w2] eqn:Hscan.
  2:{ vm_compute in Hrun. injection Hrun as <- <-. vm_compute in Hscan. discriminate Hscan. }
  exists c, w, lc, w2. split; [reflexivity |].
  split; [vm_compute in Hrun; injection Hrun as <- _; reflexivity |].
  split; [exact Hscan |].
  apply (order_settles_after_first_cycle
           (fun _ => None) [cls_CO2_ENS160; cls_Camera; cls_TEMP_AHT21]
           (objects_of [cls_CO2_ENS160; cls_Camera; cls_TEMP_AHT21])
           0 (fun _ => mkDatetime 10 20 0) ticking w c) with (w1 := w) (w2 := w2).
  - repeat constructor; simpl; intuition discriminate.
  - reflexivity.
  - exact Hrun.
  - exact Hscan.
Defined.

(** ** A dropped CO2 Reading does not come back *)

Lemma collect_co2_grown (s s' : sensor) (w w' : world) :
  cls s = cls_CO2_ENS160 ->
  collect_data_for_median s w = Ok s' w' ->
  Forall2 co2_grown (data s) (data s').
Proof.
  intros Hc H. unfold collect_data_for_median in H.
  apply bind_ok in H. destruct H as ([] & w1 & _ & H). rewrite Hc in H.
  unfold CO2_ENS160.collect_data_for_median in H.
  apply bind_ok in H. destruct H as (d & w2 & Hd & H).
  apply ret_ok in H. destruct H as [<- _]. simpl.
  eapply collect_keys_grown. exact Hd.
Qed.

Lemma sample_co2_grown (lc lc' : locals) (s s' : sensor) (w w' : world) :
  cls s = cls_CO2_ENS160 ->
  Controller.sample lc s w = Ok (s', lc') w' ->
  Forall2 co2_grown (data s) (data s').
Proof.
  intros Hc H. unfold Controller.sample in H. rewrite Hc in H.
  destruct (aht21_exists lc).
  - destruct (aht21_temperature lc) as [t|]; [| discriminate H].
    destruct (aht21_humidity lc) as [h|]; [| discriminate H].
    apply bind_ok in H. destruct H as (s1 & w1 & Hcol & H).
    apply ret_ok in H. destruct H as [E _]. inversion E; subst.
    apply collect_co2_grown in Hcol; [exact Hcol | exact Hc].
  - apply bind_ok in H. destruct H as (s1 & w1 & Hcol & H).
    apply ret_ok in H. destruct H as [E _]. inversion E; subst.
    apply collect_co2_grown in Hcol; [exact Hcol | exact Hc].
Qed.

Section Through_the_rounds.

Variable P : dict pyval -> Prop.
Hypothesis P_grown : forall d d', Forall2 co2_grown d d' -> P d -> P d'.

Lemma sample_holds (lc lc' : locals) (s s' : sensor) (w w' : world) :
  Controller.sample lc s w = Ok (s', lc') w' -> co2_holds P s -> co2_holds P s'.
Proof.
  intros H Hs Hc'.
  assert (Hc : cls s = cls_CO2_ENS160).
  { destruct (sample_any _ _ _ _ _ _ H) as (E & _). congruence. }
  apply (P_grown (data s)); [| exact (Hs Hc)].
  eapply sample_co2_grown; eassumption.
Qed.

Lemma sample_all_holds (l : list sensor) :
  forall l' lc lc' w w',
    Controller.sample_all l lc w = Ok (l', lc') w' ->
    Forall (co2_holds P) l -> Forall (co2_holds P) l'.
Proof.
  induction l as [|s l IH]; intros l' lc lc' w w' H Hl.
  - simpl in H. apply ret_ok in H. destruct H as [E _]. inversion E. constructor.
  - apply sample_all_cons in H.
    destruct H as (s' & lc1 & w1 & rest' & Hs & Hrest & ->).
    inversion Hl as [|? ? Hh Hl']; subst.
    constructor; [eapply sample_holds; eassumption | eapply IH; eassumption].
Qed.

Lemma rounds_holds (n : nat) :
  forall objs objs' lc lc' w w',
    Controller.rounds n objs lc w = Ok (objs', lc') w' ->
    Forall (co2_holds P) objs -> Forall (co2_holds P) objs'.
Proof.
  induction n as [|n IH]; intros objs objs' lc lc' w w' H Hl.
  - simpl in H. apply ret_ok in H. destruct H as [E _]. inversion E; subst. exact Hl.
  - apply rounds_succ in H.
    destruct H as (objs1 & lc1 & w1 & w2 & Hs & _ & Hr).
    eapply IH; [exact Hr |]. eapply sample_all_holds; eassumption.
Qed.

Lemma gather_holds (c c' : controller) (w w' : world) :
  Controller._gather_sensor_data c w = Ok c' w' ->
  Forall (co2_holds P) (current_objects c) -> Forall (co2_holds P) (current_objects c').
Proof.
  intros H Hl. apply gather_ok in H.
  destruct H as (lc & w0 & objs1 & objs2 & lc2 & _ & Hre & Hr & ->). simpl.
  eapply rounds_holds; [exact Hr |].
  apply reorder_perm in Hre.
  rewrite Forall_forall in *. intros s Hs. apply Hl.
  eapply Permutation_in; [apply Permutation_sym; exact Hre | exact Hs].
Qed.

End Through_the_rounds.

Lemma co2_grown_length (d d' : dict pyval) :
  Forall2 co2_grown d d' -> d <> [] -> d' <> [].
Proof. intros H Hd. destruct H; [contradiction | discriminate]. Qed.

Lemma co2_grown_reduced (d d' : dict pyval) :
  Forall2 co2_grown d d' -> reduced_values d -> d' = d.
Proof.
  unfold reduced_values.
  induction 1 as [|[k v] [k' v'] d d' (Hk & Hg) _ IH]; intros Hr; [reflexivity |].
  inversion Hr as [|? ? Hv Hd]; subst. simpl in *.
  rewrite (IH Hd). subst k'.
  destruct Hg as [-> | (l & r & -> & _)]; [reflexivity |].
  destruct Hv as [Hv | [z Hv]]; discriminate Hv.
Qed.

Lemma gather_keyed (c c' : controller) (w w' : world) :
  Controller._gather_sensor_data c w = Ok c' w' ->
  Forall keyed (current_objects c) -> Forall keyed (current_objects c').
Proof.
  apply (gather_holds (fun d => d <> [])). apply co2_grown_length.
Qed.

Lemma gather_stale (c c' : controller) (w w' : world) :
  Controller._gather_sensor_data c w = Ok c' w' ->
  Forall stale (current_objects c) -> Forall stale (current_objects c').
Proof.
  apply (gather_holds (fun d => d <> [] /\ reduced_values d)).
  intros d d' Hg [Hd Hr]. rewrite (co2_grown_reduced _ _ Hg Hr). auto.
Qed.

Lemma reduce_all_no_runtime_error (d : dict pyval) :
  forall d', reduce_all d <> (d', Some RuntimeError).
Proof.
  induction d as [|[k v] d IH]; intros d' H; simpl in H; [discriminate H |].
  destruct (find_median_data v) as [r|e] eqn:E.
  - destruct (reduce_all d) as [d1 o] eqn:Ed. inversion H; subst.
    exact (IH _ eq_refl).
  - inversion H; subst. unfold find_median_data in E.
    destruct (truthy v); [| discriminate E].
    destruct v as [l|z|]; try discriminate E.
    destruct (Nat.eqb (length l) config.NUM_READINGS); [| discriminate E].
    destruct (nth_error (list_sort l) (length l / 2)); discriminate E.
Qed.

(** A CO2 sensor whose [package] returns [None] is left with the reduced
    dict. *)
Lemma package_none_co2 (s s' : sensor) :
  cls s = cls_CO2_ENS160 -> data s <> [] ->
  package s = Res (None, s') ->
  data s' <> [] /\ reduced_values (data s').
Proof.
  intros Hc Hd. unfold package. rewrite Hc.
  unfold CO2_ENS160.package, _read.
  destruct (reduce_all (data s)) as [d1 [e|]] eqn:E.
  - destruct e; try discriminate.
    exfalso. exact (reduce_all_no_runtime_error _ _ E).
  - destruct (reduce_all_none _ _ E) as [-> Hall]. simpl.
    destruct (CO2_ENS160.all_truthy (medians (data s))); [discriminate |].
    intros H. inversion H; subst. simpl.
    split; [| apply medians_reduced_values; exact Hall].
    destruct (data s); [contradiction | discriminate].
Qed.

Lemma full_not_reduced (s : sensor) :
  data s <> [] -> reduced_values (data s) -> ~ full s.
Proof.
  unfold full, acc_len, reduced_values. intros Hd Hr Hf.
  destruct (data s) as [|kv d]; [contradiction |].
  inversion Hr as [|? ? Hv _]; subst. inversion Hf as [|? ? (l & Hl & _) _]; subst.
  destruct Hv as [Hv | [z Hv]]; congruence.
Qed.

Lemma package_stale (s s' : sensor) (o : option (dict (dict pyval))) :
  stale s -> package s = Res (o, s') ->
  (cls s = cls_CO2_ENS160 -> o = None) /\ stale s'.
Proof.
  intros Hs H.
  assert (Ho : cls s = cls_CO2_ENS160 -> o = None).
  { intros Hc. destruct (Hs Hc) as [Hd Hr]. destruct o as [d|]; [| reflexivity].
    exfalso. destruct (package_some _ _ _ H) as (_ & _ & Hf & _).
    exact (full_not_reduced _ Hd Hr (Hf Hc)). }
  split; [exact Ho |]. intros Hc'.
  assert (Hc : cls s = cls_CO2_ENS160)
    by (rewrite <- (package_class _ _ _ H); exact Hc').
  rewrite (Ho Hc) in H. destruct (Hs Hc) as [Hd _].
  eapply package_none_co2; eassumption.
Qed.

Lemma dict_get_set_same {V} (d : dict V) (k : string) (v : V) :
  dict_get (dict_set d k v) k = Some v.
Proof.
  induction d as [|[k' v'] d IH]; simpl.
  - rewrite String.eqb_refl. reflexivity.
  - destruct (String.eqb k k') eqn:E; simpl; rewrite E; [reflexivity | exact IH].
Qed.

Lemma dict_get_set_some {V} (d : dict V) (k k0 : string) (v : V) :
  dict_get d k0 <> None -> dict_get (dict_set d k v) k0 <> None.
Proof.
  intros H. destruct (String.eqb k k0) eqn:E.
  - apply String.eqb_eq in E. subst k0. rewrite dict_get_set_same. discriminate.
  - apply String.eqb_neq in E. rewrite (dict_get_set_other _ _ _ _ E). exact H.
Qed.

(** A key of the Snapshot stays in it. *)
Lemma package_all_has (objs : list sensor) (k : string) :
  forall sd objs' sd',
    Controller.package_all objs sd = Res (objs', sd') ->
    dict_get sd k <> None -> dict_get sd' k <> None.
Proof.
  induction objs as [|s objs IH]; intros sd objs' sd' H Hk.
  - simpl in H. inversion H; subst. exact Hk.
  - apply package_all_cons in H.
    destruct H as [(_ & rest' & Hrest & _) | (_ & o & s1 & rest' & Hp & H)].
    + eapply IH; eassumption.
    + destruct o as [d|]; destruct H as [Hrest _].
      * eapply IH; [exact Hrest |].
        destruct (package_some _ _ _ Hp) as (_ & -> & _).
        apply dict_get_set_some. exact Hk.
      * eapply IH; eassumption.
Qed.

Lemma class_name_co2 (c : sensor_class) :
  c <> cls_CO2_ENS160 -> class_name c <> "CO2_ENS160"%string.
Proof.
  intros Hc E. apply Hc. apply class_name_inj. exact E.
Qed.

Lemma package_all_keyed (objs : list sensor) :
  forall sd objs' sd',
    Controller.package_all objs sd = Res (objs', sd') ->
    Forall keyed objs -> Forall keyed objs'.
Proof.
  induction objs as [|s objs IH]; intros sd objs' sd' H Hl.
  - simpl in H. inversion H; subst. constructor.
  - inversion Hl as [|? ? Hs Hl']; subst. apply package_all_cons in H.
    destruct H as [(_ & rest' & Hrest & ->) | (_ & o & s1 & rest' & Hp & H)].
    + constructor; [exact Hs | eapply IH; eassumption].
    + destruct o as [d|]; destruct H as [Hrest ->].
      * constructor; [| eapply IH; eassumption].
        intros Hc. simpl in *. rewrite Hc. discriminate.
      * constructor; [| eapply IH; eassumption].
        intros Hc.
        assert (Hc0 : cls s = cls_CO2_ENS160)
          by (rewrite <- (package_class _ _ _ Hp); exact Hc).
        apply (package_none_co2 s s1 Hc0 (Hs Hc0) Hp).
Qed.

(** Where the Snapshot has no CO2 Reading, every CO2 sensor is left stale. *)
Lemma package_all_dropped (objs : list sensor) :
  forall sd objs' sd',
    Controller.package_all objs sd = Res (objs', sd') ->
    Forall keyed objs ->
    dict_get sd' "CO2_ENS160" = None -> Forall stale objs'.
Proof.
  induction objs as [|s objs IH]; intros sd objs' sd' H Hl Hno.
  - simpl in H. inversion H; subst. constructor.
  - inversion Hl as [|? ? Hs Hl']; subst. apply package_all_cons in H.
    destruct H as [(Hcam & rest' & Hrest & ->) | (_ & o & s1 & rest' & Hp & H)].
    + constructor; [| eapply IH; eassumption].
      intros Hc. rewrite Hcam in Hc. discriminate Hc.
    + pose proof (package_class _ _ _ Hp) as Hcls.
      destruct o as [d|]; destruct H as [Hrest ->].
      * constructor; [| eapply IH; eassumption].
        intros Hc. exfalso. simpl in Hc. rewrite Hcls in Hc.
        destruct (package_some _ _ _ Hp) as (_ & -> & _).
        apply (package_all_has _ "CO2_ENS160" _ _ _ Hrest); [| exact Hno].
        rewrite Hc. simpl. unfold dict_update. simpl.
        rewrite dict_get_set_same. discriminate.
      * constructor; [| eapply IH; eassumption].
        intros Hc. rewrite Hcls in Hc.
        apply (package_none_co2 s s1 Hc (Hs Hc) Hp).
Qed.

(** Stale CO2 sensors stay stale, and add nothing to the Snapshot. *)
Lemma package_all_stale (objs : list sensor) :
  forall sd objs' sd',
    Controller.package_all objs sd = Res (objs', sd') ->
    Forall stale objs ->
    Forall stale objs' /\
    (dict_get sd "CO2_ENS160" = None -> dict_get sd' "CO2_ENS160" = None).
Proof.
  induction objs as [|s objs IH]; intros sd objs' sd' H Hl.
  - simpl in H. inversion H; subst. split; [constructor | auto].
  - inversion Hl as [|? ? Hs Hl']; subst. apply package_all_cons in H.
    destruct H as [(Hcam & rest' & Hrest & ->) | (_ & o & s1 & rest' & Hp & H)].
    + destruct (IH _ _ _ Hrest Hl') as [IH1 IH2].
      split; [constructor; assumption | exact IH2].
    + destruct (package_stale _ _ _ Hs Hp) as [Ho Hs1].
      pose proof (package_class _ _ _ Hp) as Hcls.
      destruct o as [d|]; destruct H as [Hrest ->];
        destruct (IH _ _ _ Hrest Hl') as [IH1 IH2].
      * assert (Hc : cls s <> cls_CO2_ENS160)
          by (intros Hc; discriminate (Ho Hc)).
        split.
        -- constructor; [| exact IH1]. intros Hc'. exfalso. apply Hc.
           simpl in Hc'. rewrite <- Hcls. exact Hc'.
        -- intros Hno. apply IH2.
           destruct (package_some _ _ _ Hp) as (_ & -> & _).
           unfold dict_update. simpl.
           rewrite dict_get_set_other; [exact Hno | apply class_name_co2; exact Hc].
      * split; [constructor; assumption | exact IH2].
Qed.

Lemma cycle_parts (now : datetime) (c c2 : controller) (w w2 : world) :
  Controller.get_data_cycle now c w = Ok c2 w2 ->
  exists c1 w1 snap,
    Controller._gather_sensor_data c w = Ok c1 w1 /\
    Controller.package_all (current_objects c1) [] = Res (current_objects c2, snap) /\
    last_data c2 = Some snap.
Proof.
  intros H. unfold Controller.get_data_cycle in H.
  apply bind_ok in H. destruct H as (c1 & w1 & Hg & H).
  apply bind_ok in H. destruct H as ([objs' snap] & w3 & Hp & H).
  apply lift_ok in Hp. destruct Hp as [Hp _].
  apply bind_ok in H. destruct H as ([] & w4 & _ & H).
  apply ret_ok in H. destruct H as [<- _]. simpl.
  exists c1, w1, snap. auto.
Qed.

Lemma create_objects_keyed (ctor : sensor_class -> option exn) (names : list sensor_class) :
  forall objs,
    Controller._create_objects ctor names = Res objs -> Forall keyed objs.
Proof.
  induction names as [|name names IH]; intros objs H; simpl in H.
  - inversion H. constructor.
  - destruct (Controller.construct ctor name) as [obj|e] eqn:E.
    + destruct (Controller._create_objects ctor names) as [objs1|e1]; [| discriminate H].
      inversion H; subst. constructor; [| apply IH; reflexivity].
      destruct (construct_spec _ _ _ E) as [Hc Hd].
      intros Hco2. rewrite Hd, <- Hc, Hco2. discriminate.
    + destruct e; try discriminate H. apply IH. exact H.
Qed.

Lemma get_data_keyed (n : nat) :
  forall clock c w c' w',
    Controller.get_data n clock c w = Ok c' w' ->
    Forall keyed (current_objects c) -> Forall keyed (current_objects c').
Proof.
  induction n as [|n IH]; intros clock c w c' w' H Hk; simpl in H.
  - apply ret_ok in H. destruct H as [<- _]. exact Hk.
  - apply bind_ok in H. destruct H as (c1 & w1 & Hc & H).
    eapply IH; [exact H |].
    apply cycle_parts in Hc. destruct Hc as (c0 & w0 & snap & Hg & Hp & _).
    eapply package_all_keyed; [exact Hp |]. eapply gather_keyed; eassumption.
Qed.

Lemma get_data_stale (n : nat) :
  forall clock c w c' w' snap,
    Controller.get_data n clock c w = Ok c' w' ->
    Forall stale (current_objects c) ->
    last_data c = Some snap -> dict_get snap "CO2_ENS160" = None ->
    Forall stale (current_objects c') /\
    exists snap', last_data c' = Some snap' /\ dict_get snap' "CO2_ENS160" = None.
Proof.
  induction n as [|n IH]; intros clock c w c' w' snap H Hs Hl Hno; simpl in H.
  - apply ret_ok in H. destruct H as [<- _]. split; [exact Hs | eauto].
  - apply bind_ok in H. destruct H as (c1 & w1 & Hc & H).
    apply cycle_parts in Hc. destruct Hc as (c0 & w0 & snap1 & Hg & Hp & Hl1).
    destruct (package_all_stale _ _ _ _ Hp (gather_stale _ _ _ _ Hg Hs)) as [Hs1 Hno1].
    eapply IH; [exact H | exact Hs1 | exact Hl1 | apply Hno1; reflexivity].
Qed.

(** X11. A dropped CO2 Reading does not come back.  On a node built from a
    configured sensor list, once a cycle has completed with a Snapshot
    that has no CO2 Reading, every CO2 sensor is left with the reduced
    dict in place of its accumulators, and however many further cycles
    complete, on whatever the hardware answers, the last Snapshot has no
    CO2 Reading either. *)
Theorem dropped_co2_reading_never_returns
    (ctor : sensor_class -> option exn) (sensor_list : list sensor_class)
    (objs0 : list sensor) (n m : nat) (clock clock' : nat -> datetime)
    (w0 w w1 w' : world) (c c' : controller) (snap : dict (dict pyval)) :
  Controller._create_objects ctor sensor_list = Res objs0 ->
  Controller.get_data (S n) clock (mkController objs0 None) w0 = Ok c w ->
  Controller.get_last_data c = Some snap ->
  dict_get snap "CO2_ENS160" = None ->
  Controller.get_data m clock' c w1 = Ok c' w' ->
  Forall stale (current_objects c') /\
  exists snap',
    Controller.get_last_data c' = Some snap' /\
    dict_get snap' "CO2_ENS160" = None.
Proof.
  intros Hcreate Hrun Hl Hno Hmore.
  apply get_data_last in Hrun. destruct Hrun as (c1 & w2 & Hrun & Hcycle).
  assert (Hk : Forall keyed (current_objects c1)).
  { eapply get_data_keyed; [exact Hrun |]. simpl.
    eapply create_objects_keyed. exact Hcreate. }
  apply cycle_parts in Hcycle. destruct Hcycle as (c0 & w3 & snap0 & Hg & Hp & Hl0).
  unfold Controller.get_last_data in *.
  assert (snap0 = snap) by congruence. subst snap0.
  assert (Hs : Forall stale (current_objects c)).
  { eapply package_all_dropped; [exact Hp | | exact Hno].
    eapply gather_keyed; eassumption. }
  eapply get_data_stale; eassumption.
Qed.

Lemma dropped_co2_reading_never_returns_witness :
  exists c w c' w' snap',
    Controller.get_data 1 (fun _ => mkDatetime 10 20 0) main_controller (scripted [] 0)
    = Ok c w /\
    Controller.get_data 2 (fun _ => mkDatetime 10 40 0) c w = Ok c' w' /\
    In (co2_sensor VNone VNone VNone 25 50) (current_objects c') /\
    Forall stale (current_objects c') /\
    Controller.get_last_data c' = Some snap' /\
    dict_get snap' "CO2_ENS160" = None.
Proof.
  destruct (Controller.get_data 1 (fun _ => mkDatetime 10 20 0) main_controller
              (scripted [] 0)) as [c w|e w] eqn:Hrun;
    [| vm_compute in Hrun; discriminate Hrun].
  destruct (Controller.get_data 2 (fun _ => mkDatetime 10 40 0) c w)
    as [c' w'|e w'] eqn:Hmore.
  2:{ vm_compute in Hrun. injection Hrun as <- <-. vm_compute in Hmore.
      discriminate Hmore. }
  destruct (Controller.get_last_data c) as [snap|] eqn:Hl.
  2:{ vm_compute in Hrun. injection Hrun as <- _. discriminate Hl. }
  assert (Hno : dict_get snap "CO2_ENS160" = None).
  { vm_compute in Hrun. injection Hrun as <- _. vm_compute in Hl.
    injection Hl as <-. reflexivity. }
  destruct (dropped_co2_reading_never_returns
              (fun _ => None) main_sensor_list (objects_of main_sensor_list)
              0 2 (fun _ => mkDatetime 10 20 0) (fun _ => mkDatetime 10 40 0)
              (scripted [] 0) w w w' c c' snap eq_refl Hrun Hl Hno Hmore)
    as (Hs & snap' & Hl' & Hno').
  exists c, w, c', w', snap'.
  split; [reflexivity |]. split; [exact Hmore |].
  split; [| split; [exact Hs | split; [exact Hl' | exact Hno']]].
  vm_compute in Hrun. injection Hrun as <- <-.
  vm_compute in Hmore. injection Hmore as <- _.
  simpl. tauto.
Defined.

(** ** Hardware that answers: every cycle completes *)

Lemma bind_run {A B} (c : M A) (k : A -> M B) (w w1 : world) (a : A) :
  c w = Ok a w1 -> bind c k w = k a w1.
Proof. unfold bind. intros ->. reflexivity. Qed.

Lemma healthy_log (ev : event) (w : world) : healthy w -> healthy (log ev w).
Proof. intros Hw. exact Hw. Qed.

Lemma healthy_advance (w : world) : healthy w -> healthy (advance w).
Proof.
  intros [Hr Hc]. split.
  - intros c key n Hn. apply (Hr c key n). simpl in Hn. lia.
  - intros n Hn. apply (Hc n). simpl in Hn. lia.
Qed.

Lemma getattr_healthy (c : sensor_class) (key : string) (w : world) :
  healthy w ->
  exists v w', getattr c key w = Ok v w' /\ healthy w' /\
               (c = cls_CO2_ENS160 -> v <> 0%Z).
Proof.
  intros Hw. destruct (proj1 Hw c key (tick w) (le_n _)) as (v & Hv & Hz).
  exists v, (log (EvRead c key v) (advance w)).
  unfold getattr. rewrite Hv. split; [reflexivity |].
  split; [apply healthy_log, healthy_advance; exact Hw | exact Hz].
Qed.

Lemma capture_image_healthy (w : world) :
  healthy w -> exists b w', Camera.capture_image w = Ok b w' /\ healthy w'.
Proof.
  intros Hw.
  assert (Hd : forall w0, healthy w0 ->
                          exists b, Camera.driver w0 = Ok b (advance w0)).
  { intros w0 Hw0. unfold Camera.driver.
    destruct (proj2 Hw0 (tick w0) (le_n _)) as [E | E]; rewrite E; eauto. }
  unfold Camera.capture_image.
  destruct (Hd w Hw) as ([|] & Hs); rewrite (bind_run _ _ _ _ _ Hs).
  - pose proof (healthy_log (EvAwaitSleep 2) _ (healthy_advance _ Hw)) as Hw1.
    destruct (Hd _ Hw1) as (b & Hc).
    eexists. eexists. split.
    + unfold bind at 1. unfold emit at 1. rewrite (bind_run _ _ _ _ _ Hc).
      reflexivity.
    + apply healthy_log, healthy_advance. exact Hw1.
  - eexists. eexists.
    split; [reflexivity | apply healthy_log, healthy_advance; exact Hw].
Qed.

Lemma append_samples_healthy (c : sensor_class) (d : dict pyval) :
  forall w j,
    healthy w -> acc_len j d ->
    exists d' w', append_samples c d w = Ok d' w' /\ healthy w' /\ Forall2 grown d d'.
Proof.
  induction d as [|[key v] d IH]; intros w j Hw Ha.
  - exists [], w. split; [reflexivity |]. split; [exact Hw | constructor].
  - inversion Ha as [|? ? (l & Hl & Hlen) Ha']; subst. simpl in Hl. subst v.
    destruct (getattr_healthy c key w Hw) as (r & w1 & Hget & Hw1 & _).
    destruct (IH w1 _ Hw1 Ha') as (d1 & w2 & Hd & Hw2 & Hg).
    exists ((key, VList (l ++ [r])) :: d1), w2.
    split.
    { simpl. rewrite (bind_run _ _ _ _ _ Hget). rewrite (bind_run _ _ _ _ _ Hd).
      reflexivity. }
    split; [exact Hw2 |]. constructor; [| exact Hg].
    split; [reflexivity |]. exists l, r. auto.
Qed.

Lemma attempts_healthy (n : nat) (key : string) (l : list Z) (w : world) :
  healthy w ->
  exists r w',
    CO2_ENS160.attempts (S n) key (VList l) w = Ok (VList (l ++ [r])) w' /\
    healthy w' /\ r <> 0%Z.
Proof.
  intros Hw.
  destruct (getattr_healthy cls_CO2_ENS160 key w Hw) as (r & w1 & Hget & Hw1 & Hz).
  exists r, w1. cbn [CO2_ENS160.attempts]. rewrite (bind_run _ _ _ _ _ Hget).
  destruct (Z.eqb r 0) eqn:E.
  - apply Z.eqb_eq in E. exfalso. exact (Hz eq_refl E).
  - split; [reflexivity |]. split; [exact Hw1 | exact (Hz eq_refl)].
Qed.

Lemma collect_keys_healthy (d : dict pyval) :
  forall w j,
    healthy w -> acc_len j d ->
    exists d' w',
      CO2_ENS160.collect_keys d w = Ok d' w' /\ healthy w' /\
      Forall2 grown d d' /\ Forall2 co2_grown d d'.
Proof.
  induction d as [|[key v] d IH]; intros w j Hw Ha.
  - exists [], w. split; [reflexivity |]. split; [exact Hw |]. split; constructor.
  - inversion Ha as [|? ? (l & Hl & Hlen) Ha']; subst. simpl in Hl. subst v.
    destruct (attempts_healthy 4 key l w Hw) as (r & w1 & Hat & Hw1 & Hz).
    destruct (IH w1 _ Hw1 Ha') as (d1 & w2 & Hd & Hw2 & Hg & Hg').
    exists ((key, VList (l ++ [r])) :: d1), w2.
    split.
    { cbn [CO2_ENS160.collect_keys].
      change config.CO2_ATTEMPTS with 5%nat.
      rewrite (bind_run _ _ _ _ _ Hat). rewrite (bind_run _ _ _ _ _ Hd).
      reflexivity. }
    split; [exact Hw2 |]. split.
    + constructor; [| exact Hg]. split; [reflexivity |]. exists l, r. auto.
    + constructor; [| exact Hg']. split; [reflexivity |]. right. exists l, r. auto.
Qed.

Lemma grown_keys (d d' : dict pyval) :
  Forall2 grown d d' -> map fst d' = map fst d.
Proof.
  induction 1 as [|kv kv' d d' (Hk & _) _ IH]; simpl; [reflexivity |].
  rewrite Hk, IH. reflexivity.
Qed.

Lemma collect_healthy (s : sensor) (w : world) (j : nat) :
  healthy w -> sampled j s -> cls s <> cls_Camera ->
  exists s' w',
    collect_data_for_median s w = Ok s' w' /\ healthy w' /\
    sampled (S j) s' /\ cls s' = cls s /\
    temperature_compensation s' = temperature_compensation s /\
    humidity_compensation s' = humidity_compensation s.
Proof.
  intros Hw (Hk & Ha & Hz) Hcam.
  assert (Hplain : cls s <> cls_CO2_ENS160 ->
            exists s' w',
              (d <- append_samples (cls s) (data s) ;; ret (set_data s d))
                (log (EvCollect (cls s) (comp_of s)) w) = Ok s' w' /\ healthy w' /\
              sampled (S j) s' /\ cls s' = cls s /\
              temperature_compensation s' = temperature_compensation s /\
              humidity_compensation s' = humidity_compensation s).
  { intros Hco2.
    destruct (append_samples_healthy (cls s) (data s)
                (log (EvCollect (cls s) (comp_of s)) w) j Hw Ha)
      as (d' & w' & Hd & Hw' & Hg).
    exists (set_data s d'), w'. rewrite (bind_run _ _ _ _ _ Hd).
    split; [reflexivity |]. split; [exact Hw' |].
    split; [| simpl; auto].
    split; [simpl; rewrite (grown_keys _ _ Hg); exact Hk |].
    split; [exact (grown_acc_len _ _ _ Hg Ha) |].
    simpl. intros E. contradiction. }
  unfold collect_data_for_median.
  rewrite (bind_run _ _ w (log (EvCollect (cls s) (comp_of s)) w) tt eq_refl).
  destruct (cls s) eqn:Hc; try (apply Hplain; discriminate).
  - contradiction.
  - destruct (collect_keys_healthy (data s)
                (log (EvCollect cls_CO2_ENS160 (comp_of s)) w) j Hw Ha)
      as (d' & w' & Hd & Hw' & Hg & Hg').
    exists (set_data s d'), w'. unfold CO2_ENS160.collect_data_for_median.
    rewrite (bind_run _ _ _ _ _ Hd).
    split; [reflexivity |]. split; [exact Hw' |].
    split; [| simpl; auto].
    split; [simpl; rewrite (grown_keys _ _ Hg), Hc; exact Hk |].
    split; [exact (grown_acc_len _ _ _ Hg Ha) |].
    simpl. intros _. apply (co2_grown_no_zero _ _ Hg'). apply Hz. reflexivity.
Qed.

Lemma sampled_temp (s : sensor) (j : nat) :
  sampled (S j) s -> cls s = cls_TEMP_AHT21 ->
  exists t h, TEMP_AHT21.get_temperature s = Res t /\ TEMP_AHT21.get_humidity s = Res h.
Proof.
  intros (Hk & Ha & _) Hc. rewrite Hc in Hk. simpl in Hk.
  unfold TEMP_AHT21.get_temperature, TEMP_AHT21.get_humidity, TEMP_AHT21.first_of.
  destruct (data s) as [|[k1 v1] [|[k2 v2] [|kv d]]]; try discriminate Hk.
  simpl in Hk. injection Hk as -> ->.
  inversion Ha as [|? ? (l1 & Hl1 & Hn1) Ha1]; subst.
  inversion Ha1 as [|? ? (l2 & Hl2 & Hn2) _]; subst.
  simpl in Hl1, Hl2. subst v1 v2.
  destruct l1 as [|x1 l1]; [discriminate Hn1 |].
  destruct l2 as [|x2 l2]; [discriminate Hn2 |].
  simpl. eauto.
Qed.

Lemma served_true (l : list sensor_class) : served true l = true.
Proof. induction l as [|[] l IH]; simpl; auto. Qed.

Lemma served_no_co2 (b : bool) (l : list sensor_class) :
  ~ In cls_CO2_ENS160 l -> served b l = true.
Proof.
  revert b. induction l as [|c l IH]; intros b Hn; [reflexivity |].
  simpl in Hn. destruct c; simpl; try (apply IH; tauto).
  exfalso. apply Hn. left. reflexivity.
Qed.

(** One sensor of a round. *)
Lemma sample_healthy (lc : locals) (s : sensor) (w : world) (j : nat) :
  healthy w -> sampled j s ->
  (cls s = cls_CO2_ENS160 -> aht21_exists lc = true -> is_bound lc = true) ->
  exists s' lc' w',
    Controller.sample lc s w = Ok (s', lc') w' /\ healthy w' /\
    sampled (S j) s' /\ cls s' = cls s /\
    aht21_exists lc' = aht21_exists lc /\ co2_exists lc' = co2_exists lc /\
    (cls s <> cls_TEMP_AHT21 -> lc' = lc) /\
    (is_bound lc = true -> is_bound lc' = true) /\
    (cls s = cls_TEMP_AHT21 -> co2_exists lc = true -> is_bound lc' = true).
Proof.
  intros Hw Hs Hb.
  assert (Hplain : cls s <> cls_Camera ->
            exists s' lc' w',
              (s1 <- collect_data_for_median s ;; ret (s1, lc)) w = Ok (s', lc') w' /\
              healthy w' /\ sampled (S j) s' /\ cls s' = cls s /\ lc' = lc).
  { intros Hcam.
    destruct (collect_healthy s w j Hw Hs Hcam) as (s' & w' & Hc & Hw' & Hs' & Hcls & _).
    exists s', lc, w'. rewrite (bind_run _ _ _ _ _ Hc). auto. }
  unfold Controller.sample. destruct (cls s) eqn:Hc.
  - exists s, lc, w. split; [reflexivity |]. split; [exact Hw |].
    split.
    { destruct Hs as (Hk & Ha & Hz). rewrite Hc in Hk. simpl in Hk.
      split; [rewrite Hc; exact Hk |].
      split; [| intros E; congruence].
      destruct (data s); [constructor | discriminate Hk]. }
    split; [exact Hc |]. repeat split; auto. intros E. discriminate E.
  - destruct (co2_exists lc) eqn:Hco2.
    + assert (Hcam : cls s <> cls_Camera) by congruence.
      destruct (collect_healthy s w j Hw Hs Hcam) as (s' & w' & Hcol & Hw' & Hs' & Hcls & _).
      destruct (sampled_temp s' j Hs') as (t & h & Ht & Hh); [congruence |].
      eexists s', _, w'. rewrite (bind_run _ _ _ _ _ Hcol).
      rewrite Ht, Hh. simpl. unfold bind, ret.
      split; [reflexivity |]. split; [exact Hw' |]. split; [exact Hs' |].
      split; [congruence |]. simpl. repeat split; auto.
      intros E. contradiction.
    + destruct Hplain as (s' & lc' & w' & Hrun & Hw' & Hs' & Hcls & ->); [congruence |].
      exists s', lc, w'. split; [exact Hrun |]. split; [exact Hw' |].
      split; [exact Hs' |]. split; [congruence |]. repeat split; auto.
      intros _ E. discriminate E.
  - destruct (aht21_exists lc) eqn:Haht.
    + specialize (Hb eq_refl eq_refl). unfold is_bound in Hb.
      destruct (aht21_temperature lc) as [t|]; [| discriminate Hb].
      destruct (aht21_humidity lc) as [h|]; [| discriminate Hb].
      destruct (collect_healthy
                  (set_humidity_compensation (set_temperature_compensation s t) h)
                  w j Hw) as (s' & w' & Hcol & Hw' & Hs' & Hcls & _).
      { exact Hs. }
      { simpl. congruence. }
      exists s', lc, w'. rewrite (bind_run _ _ _ _ _ Hcol).
      split; [reflexivity |]. split; [exact Hw' |]. split; [exact Hs' |].
      split; [simpl in Hcls; congruence |]. repeat split; auto.
      intros E. discriminate E.
    + destruct Hplain as (s' & lc' & w' & Hrun & Hw' & Hs' & Hcls & ->); [congruence |].
      exists s', lc, w'. split; [exact Hrun |]. split; [exact Hw' |].
      split; [exact Hs' |]. split; [congruence |]. repeat split; auto.
      intros E. discriminate E.
  - destruct Hplain as (s' & lc' & w' & Hrun & Hw' & Hs' & Hcls & ->); [congruence |].
    exists s', lc, w'. split; [exact Hrun |]. split; [exact Hw' |].
    split; [exact Hs' |]. split; [congruence |]. repeat split; auto.
    intros E. discriminate E.
  - destruct Hplain as (s' & lc' & w' & Hrun & Hw' & Hs' & Hcls & ->); [congruence |].
    exists s', lc, w'. split; [exact Hrun |]. split; [exact Hw' |].
    split; [exact Hs' |]. split; [congruence |]. repeat split; auto.
    intros E. discriminate E.
  - destruct Hplain as (s' & lc' & w' & Hrun & Hw' & Hs' & Hcls & ->); [congruence |].
    exists s', lc, w'. split; [exact Hrun |]. split; [exact Hw' |].
    split; [exact Hs' |]. split; [congruence |]. repeat split; auto.
    intros E. discriminate E.
Qed.

Lemma served_co2 (l : list sensor_class) :
  forall b,
    served b l = true -> In cls_CO2_ENS160 l ->
    b = true \/ In cls_TEMP_AHT21 l.
Proof.
  induction l as [|c l IH]; intros b Hs Hin; [contradiction |].
  destruct Hin as [-> | Hin].
  - simpl in Hs. apply andb_prop in Hs. left. tauto.
  - destruct c; simpl in Hs;
      try (destruct (IH _ Hs Hin) as [E | E]; [left; exact E | right; right; exact E]).
    + right. left. reflexivity.
    + apply andb_prop in Hs. left. tauto.
Qed.

(** One round over the sensor list. *)
Lemma sample_all_healthy (l : list sensor) :
  forall lc w j,
    healthy w -> Forall (sampled j) l -> in_order l lc ->
    exists l' lc' w',
      Controller.sample_all l lc w = Ok (l', lc') w' /\ healthy w' /\
      Forall (sampled (S j)) l' /\ map cls l' = map cls l /\
      aht21_exists lc' = aht21_exists lc /\ co2_exists lc' = co2_exists lc /\
      (is_bound lc = true -> is_bound lc' = true) /\
      (In cls_TEMP_AHT21 (map cls l) -> co2_exists lc = true -> is_bound lc' = true).
Proof.
  induction l as [|s l IH]; intros lc w j Hw Hl [Hco2 Hserved].
  - exists [], lc, w. split; [reflexivity |]. split; [exact Hw |].
    split; [constructor |]. repeat split; auto; contradiction.
  - inversion Hl as [|? ? Hs Hl']; subst.
    destruct (sample_healthy lc s w j Hw Hs)
      as (s' & lc1 & w1 & Hrun & Hw1 & Hs' & Hcls & Ha1 & Hc1 & Hsame & Hb1 & Ht1).
    { intros Hc Ha. specialize (Hserved Ha). simpl in Hserved. rewrite Hc in Hserved.
      apply andb_prop in Hserved. tauto. }
    assert (Hord : in_order l lc1).
    { split.
      - intros Hin. rewrite Hc1. apply Hco2. right. exact Hin.
      - intros Ha. rewrite Ha1 in Ha. specialize (Hserved Ha). simpl in Hserved.
        destruct (class_eq_dec (cls s) cls_TEMP_AHT21) as [Et | Et].
        + destruct (in_dec class_eq_dec cls_CO2_ENS160 (map cls l)) as [Hin | Hin].
          * rewrite Ht1; [apply served_true | exact Et |].
            apply Hco2. right. exact Hin.
          * apply served_no_co2. exact Hin.
        + rewrite (Hsame Et).
          destruct (cls s); try exact Hserved; try contradiction.
          apply andb_prop in Hserved. tauto. }
    destruct (IH lc1 w1 j Hw1 Hl' Hord)
      as (l' & lc' & w' & Hrest & Hw' & Hl1 & Hcl & Ha' & Hc' & Hb' & Ht').
    exists (s' :: l'), lc', w'.
    split.
    { simpl. rewrite (bind_run _ _ _ _ _ Hrun). simpl.
      rewrite (bind_run _ _ _ _ _ Hrest). reflexivity. }
    split; [exact Hw' |]. split; [constructor; assumption |].
    split; [simpl; congruence |].
    split; [congruence |]. split; [congruence |].
    split; [auto |].
    intros [Et | Hin] Hc.
    + apply Hb'. apply Ht1; [exact Et | exact Hc].
    + apply Ht'; [exact Hin | congruence].
Qed.

(** The rounds of a cycle. *)
Lemma rounds_healthy (n : nat) :
  forall l lc w j,
    healthy w -> Forall (sampled j) l -> in_order l lc ->
    exists l' lc' w',
      Controller.rounds n l lc w = Ok (l', lc') w' /\ healthy w' /\
      Forall (sampled (j + n)) l' /\ map cls l' = map cls l.
Proof.
  induction n as [|n IH]; intros l lc w j Hw Hl Hord.
  - exists l, lc, w. split; [reflexivity |]. split; [exact Hw |].
    rewrite Nat.add_0_r. auto.
  - destruct (sample_all_healthy l lc w j Hw Hl Hord)
      as (l1 & lc1 & w1 & Hrun & Hw1 & Hl1 & Hcl & Ha1 & Hc1 & Hb1 & Ht1).
    assert (Hord1 : in_order l1 lc1).
    { destruct Hord as [Hco2 Hserved]. split.
      - rewrite Hcl, Hc1. exact Hco2.
      - rewrite Hcl, Ha1. intros Ha.
        destruct (in_dec class_eq_dec cls_CO2_ENS160 (map cls l)) as [Hin | Hin].
        + destruct (served_co2 _ _ (Hserved Ha) Hin) as [Eb | Ht].
          * rewrite (Hb1 Eb). apply served_true.
          * rewrite (Ht1 Ht (Hco2 Hin)). apply served_true.
        + apply served_no_co2. exact Hin. }
    destruct (IH l1 lc1 (log EvSleep w1) (S j) Hw1 Hl1 Hord1)
      as (l' & lc' & w' & Hrest & Hw' & Hl' & Hcl').
    exists l', lc', w'.
    split.
    { cbn [Controller.rounds]. rewrite (bind_run _ _ _ _ _ Hrun). simpl.
      rewrite (bind_run _ _ w1 (log EvSleep w1) tt eq_refl). exact Hrest. }
    split; [exact Hw' |].
    split; [rewrite Nat.add_succ_r; exact Hl' | congruence].
Qed.

Lemma scan_healthy (l : list sensor) :
  forall i lc w,
    healthy w -> exists lc' w', Controller.scan l i lc w = Ok lc' w' /\ healthy w'.
Proof.
  induction l as [|s l IH]; intros i lc w Hw.
  - exists lc, w. split; [reflexivity | exact Hw].
  - cbn [Controller.scan]. destruct (class_eqb (cls s) cls_Camera).
    + destruct (capture_image_healthy w Hw) as (b & w1 & Hcap & Hw1).
      match goal with
      | |- context [Controller.scan l (S i) ?lc2] =>
          destruct (IH (S i) lc2 w1 Hw1) as (lc' & w' & Hrest & Hw')
      end.
      exists lc', w'. split; [| exact Hw'].
      unfold bind at 1. unfold bind at 1. rewrite Hcap. exact Hrest.
    + match goal with
      | |- context [Controller.scan l (S i) ?lc2] =>
          destruct (IH (S i) lc2 w Hw) as (lc' & w' & Hrest & Hw')
      end.
      exists lc', w'. split; [| exact Hw']. exact Hrest.
Qed.

(** What the scan leaves in the flags, and that it binds no value. *)
Lemma scan_sees (l : list sensor) :
  forall i lc w lc' w',
    Controller.scan l i lc w = Ok lc' w' ->
    (aht21_exists lc' = true <->
     aht21_exists lc = true \/ In cls_TEMP_AHT21 (map cls l)) /\
    (co2_exists lc' = true <->
     co2_exists lc = true \/ In cls_CO2_ENS160 (map cls l)) /\
    is_bound lc' = is_bound lc.
Proof.
  induction l as [|s l IH]; intros i lc w lc' w' H.
  - simpl in H. apply ret_ok in H. destruct H as [<- _]. simpl. tauto.
  - cbn [Controller.scan] in H.
    apply bind_ok in H. destruct H as ([] & w1 & _ & H).
    apply IH in H. destruct H as (Ha & Hc & Hb). simpl map.
    destruct (cls s) eqn:Ecls; simpl in Ha, Hc, Hb; simpl;
      (split; [| split]); try exact Hb;
      try (rewrite Ha); try (rewrite Hc);
      intuition (try discriminate; auto).
Qed.

Lemma served_neutral (A : list sensor) (b : bool) (R : list sensor_class) :
  neutral A -> served b (map cls A ++ R) = served b R.
Proof.
  induction 1 as [|s A [Ht Hc] _ IH]; [reflexivity |].
  simpl. destruct (cls s); try exact IH; contradiction.
Qed.

(** The scan and the reordering of a list with each class at most once
    leave a list and locals that let the rounds go through. *)
Lemma reorder_in_order (objs : list sensor) (lc : locals) (w w1 : world) :
  NoDup (map cls objs) ->
  Controller.scan objs 0 entry_locals w = Ok lc w1 ->
  exists objs1, Controller.reorder objs lc = Res objs1 /\ in_order objs1 lc.
Proof.
  intros Hnd Hscan.
  destruct (scan_sees _ _ _ _ _ _ Hscan) as (Ha & Hc & Hb). simpl in Ha, Hc, Hb.
  destruct (in_dec class_eq_dec cls_TEMP_AHT21 (map cls objs)) as [Ht | Ht];
    destruct (in_dec class_eq_dec cls_CO2_ENS160 (map cls objs)) as [Hco2 | Hco2].
  - apply in_map_iff in Ht. destruct Ht as (temp & Htc & Htin).
    apply in_map_iff in Hco2. destruct Hco2 as (co2 & Hcc & Hcin).
    destruct (split_both objs temp co2 Hnd Htin Hcin Htc Hcc)
      as [(A & B & C & -> & HA & HB & HC) | (A & B & C & -> & HA & HB & HC)].
    + rewrite (scan_temp_first A B C co2 temp w w1 lc Hcc Htc HA HB HC Hscan).
      exists (A ++ temp :: B ++ co2 :: C).
      split; [apply reorder_temp_first |].
      split; [reflexivity |]. intros _. simpl is_bound.
      rewrite map_app, (served_neutral A _ _ HA). simpl. rewrite Htc.
      apply served_true.
    + rewrite (scan_co2_first A B C co2 temp w w1 lc Hcc Htc HA HB HC Hscan).
      exists (A ++ B ++ temp :: C ++ [co2]).
      split; [apply reorder_co2_first |].
      split; [reflexivity |]. intros _. simpl is_bound.
      rewrite map_app, (served_neutral A _ _ HA).
      rewrite map_app, (served_neutral B _ _ HB). simpl. rewrite Htc.
      apply served_true.
  - exists objs. split.
    + unfold Controller.reorder.
      destruct (co2_exists lc) eqn:E.
      * exfalso. destruct (proj1 Hc eq_refl) as [F | F]; [discriminate F | contradiction].
      * rewrite andb_false_r. reflexivity.
    + split; [intros Hin; contradiction |].
      intros _. apply served_no_co2. exact Hco2.
  - exists objs. split.
    + unfold Controller.reorder.
      destruct (aht21_exists lc) eqn:E.
      * exfalso. destruct (proj1 Ha eq_refl) as [F | F]; [discriminate F | contradiction].
      * reflexivity.
    + split; [intros _; apply Hc; right; exact Hco2 |].
      intros E. exfalso.
      destruct (proj1 Ha E) as [F | F]; [discriminate F | contradiction].
  - exists objs. split.
    + unfold Controller.reorder.
      destruct (aht21_exists lc) eqn:E.
      * exfalso. destruct (proj1 Ha eq_refl) as [F | F]; [discriminate F | contradiction].
      * reflexivity.
    + split; [intros Hin; contradiction |].
      intros _. apply served_no_co2. exact Hco2.
Qed.

(** The whole of [_gather_sensor_data]. *)
Lemma gather_healthy (c : controller) (w : world) :
  healthy w -> NoDup (map cls (current_objects c)) ->
  Forall (sampled 0) (current_objects c) ->
  exists c1 w1,
    Controller._gather_sensor_data c w = Ok c1 w1 /\ healthy w1 /\
    Forall (sampled config.NUM_READINGS) (current_objects c1) /\
    Permutation (map cls (current_objects c)) (map cls (current_objects c1)) /\
    last_data c1 = last_data c.
Proof.
  intros Hw Hnd Hl.
  destruct (scan_healthy (current_objects c) 0 entry_locals w Hw)
    as (lc & w1 & Hscan & Hw1).
  destruct (reorder_in_order _ _ _ _ Hnd Hscan) as (objs1 & Hre & Hord).
  assert (Hl1 : Forall (sampled 0) objs1).
  { pose proof (reorder_perm _ _ _ Hre) as Hp.
    rewrite Forall_forall in *. intros s Hs. apply Hl.
    eapply Permutation_in; [apply Permutation_sym; exact Hp | exact Hs]. }
  destruct (rounds_healthy config.NUM_READINGS objs1 lc w1 0 Hw1 Hl1 Hord)
    as (objs2 & lc2 & w2 & Hr & Hw2 & Hl2 & Hcl).
  exists (mkController objs2 (last_data c)), w2.
  split.
  { unfold Controller._gather_sensor_data.
    rewrite (bind_run _ _ _ _ _ Hscan). rewrite Hre. simpl lift.
    rewrite (bind_run _ _ w1 w1 objs1 eq_refl).
    rewrite (bind_run _ _ _ _ _ Hr). reflexivity. }
  split; [exact Hw2 |]. split; [exact Hl2 |]. split; [| reflexivity].
  simpl. rewrite Hcl. apply Permutation_map. eapply reorder_perm. exact Hre.
Qed.

(** A sensor with full accumulators packages its Reading. *)
Lemma package_healthy (s : sensor) :
  sampled config.NUM_READINGS s -> cls s <> cls_Camera ->
  exists s',
    package s = Res (Some [(class_name (cls s), reading_of s)], s') /\
    cls s' = cls s /\ all_numbers (reading_of s).
Proof.
  intros (Hk & Ha & Hz) Hcam.
  destruct (reduce_all_full _ Ha) as [Hred Hnum].
  assert (Hrd : all_numbers (reading_of s)) by (apply reading_of_full; exact Ha).
  assert (Hplain : exists s',
             package_plain s = Res (Some [(class_name (cls s), reading_of s)], s') /\
             cls s' = cls s /\ all_numbers (reading_of s)).
  { unfold package_plain, _read. rewrite Hred. simpl.
    eexists. split; [reflexivity |]. split; [reflexivity | exact Hrd]. }
  unfold package. destruct (cls s) eqn:Hc; try exact Hplain.
  - contradiction.
  - unfold CO2_ENS160.package, _read. rewrite Hred. simpl.
    rewrite (all_truthy_no_zero _ Ha (Hz eq_refl)).
    eexists. split; [reflexivity |]. split; [exact Hc | exact Hrd].
Qed.

Lemma sampled_fresh (s : sensor) : sampled 0 (reset_sensor_data s).
Proof.
  split; [reflexivity |]. split; [apply acc_len_fresh |].
  simpl. intros ->. repeat constructor; simpl; intros l Hl; inversion Hl; subst; intros [].
Qed.

Lemma sampled_camera (s : sensor) (j k : nat) :
  cls s = cls_Camera -> sampled j s -> sampled k s.
Proof.
  intros Hc (Hk & _ & _). rewrite Hc in Hk. simpl in Hk.
  split; [rewrite Hc; exact Hk |].
  split; [| intros E; congruence].
  destruct (data s); [constructor | discriminate Hk].
Qed.

(** Lines 158-165 on sensors with full accumulators: every sensor but the
    camera puts its Reading under its name. *)
Lemma package_all_healthy (objs : list sensor) :
  forall sd,
    Forall (sampled config.NUM_READINGS) objs -> NoDup (map cls objs) ->
    exists objs' sd',
      Controller.package_all objs sd = Res (objs', sd') /\
      Forall (sampled 0) objs' /\ map cls objs' = map cls objs /\
      (forall s, In s objs -> cls s <> cls_Camera ->
                 dict_get sd' (class_name (cls s)) = Some (reading_of s) /\
                 all_numbers (reading_of s)) /\
      (forall k, (forall s, In s objs -> class_name (cls s) <> k) ->
                 dict_get sd' k = dict_get sd k).
Proof.
  induction objs as [|s objs IH]; intros sd Hl Hnd.
  - exists [], sd. split; [reflexivity |]. split; [constructor |].
    split; [reflexivity |]. split; [intros s [] | reflexivity].
  - inversion Hl as [|? ? Hs Hl']; subst.
    simpl in Hnd. apply NoDup_cons_iff in Hnd. destruct Hnd as [Hnin Hnd].
    assert (Hother : forall s0, In s0 objs -> class_name (cls s0) <> class_name (cls s)).
    { intros s0 Hin E. apply Hnin. apply class_name_inj in E. rewrite <- E.
      apply in_map. exact Hin. }
    cbn [Controller.package_all].
    destruct (class_eqb (cls s) cls_Camera) eqn:Ecam.
    + apply class_eqb_eq in Ecam.
      destruct (IH sd Hl' Hnd) as (objs' & sd' & Hrun & Hl1 & Hcl & Hget & Hrest).
      exists (s :: objs'), sd'. rewrite Hrun.
      split; [reflexivity |].
      split; [constructor; [eapply sampled_camera; eassumption | exact Hl1] |].
      split; [simpl; congruence |].
      split.
      * intros s0 [<- | Hin] Hn; [contradiction | apply Hget; assumption].
      * intros k Hk. apply Hrest. intros s0 Hin. apply Hk. right. exact Hin.
    + apply class_eqb_neq in Ecam.
      destruct (package_healthy s Hs Ecam) as (s1 & Hp & Hc1 & Hnum).
      rewrite Hp.
      destruct (IH (dict_update sd [(class_name (cls s), reading_of s)]) Hl' Hnd)
        as (objs' & sd' & Hrun & Hl1 & Hcl & Hget & Hrest).
      exists (reset_sensor_data s1 :: objs'), sd'. rewrite Hrun.
      split; [reflexivity |].
      split; [constructor; [apply sampled_fresh | exact Hl1] |].
      split; [simpl; congruence |].
      split.
      * intros s0 [<- | Hin] Hn; [| apply Hget; assumption].
        split; [| exact Hnum].
        rewrite (Hrest _ Hother). unfold dict_update. simpl.
        apply dict_get_set_same.
      * intros k Hk. rewrite Hrest.
        -- unfold dict_update. simpl. apply dict_get_set_other.
           apply Hk. left. reflexivity.
        -- intros s0 Hin. apply Hk. right. exact Hin.
Qed.

(** One turn of [get_data]. *)
Lemma cycle_healthy (now : datetime) (c : controller) (w : world) :
  healthy w -> NoDup (map cls (current_objects c)) ->
  Forall (sampled 0) (current_objects c) ->
  exists c2 w2 snap,
    Controller.get_data_cycle now c w = Ok c2 w2 /\ healthy w2 /\
    NoDup (map cls (current_objects c2)) /\
    Forall (sampled 0) (current_objects c2) /\
    Permutation (map cls (current_objects c)) (map cls (current_objects c2)) /\
    last_data c2 = Some snap /\
    (forall cl, In cl (map cls (current_objects c)) -> cl <> cls_Camera ->
                exists rd, dict_get snap (class_name cl) = Some rd /\ all_numbers rd).
Proof.
  intros Hw Hnd Hl.
  destruct (gather_healthy c w Hw Hnd Hl) as (c1 & w1 & Hg & Hw1 & Hl1 & Hperm & _).
  assert (Hnd1 : NoDup (map cls (current_objects c1)))
    by (eapply Permutation_NoDup; eassumption).
  destruct (package_all_healthy (current_objects c1) [] Hl1 Hnd1)
    as (objs' & snap & Hp & Hl2 & Hcl & Hget & _).
  exists (mkController objs' (Some snap)),
         (log (EvAwaitSleep (Controller._calc_next_reading now)) w1), snap.
  split.
  { unfold Controller.get_data_cycle.
    rewrite (bind_run _ _ _ _ _ Hg). rewrite Hp. simpl lift.
    rewrite (bind_run _ _ w1 w1 (objs', snap) eq_refl).
    reflexivity. }
  split; [exact Hw1 |]. simpl.
  split; [rewrite Hcl; exact Hnd1 |]. split; [exact Hl2 |].
  split; [rewrite Hcl; exact Hperm |]. split; [reflexivity |].
  intros cl Hin Hn.
  apply (Permutation_in _ Hperm) in Hin. apply in_map_iff in Hin.
  destruct Hin as (s & <- & Hin).
  destruct (Hget s Hin Hn) as [Hd Hnum]. eauto.
Qed.

Lemma get_data_healthy (n : nat) :
  forall clock c w,
    healthy w -> NoDup (map cls (current_objects c)) ->
    Forall (sampled 0) (current_objects c) ->
    exists c' w' snap,
      Controller.get_data (S n) clock c w = Ok c' w' /\ healthy w' /\
      last_data c' = Some snap /\
      (forall cl, In cl (map cls (current_objects c)) -> cl <> cls_Camera ->
                  exists rd, dict_get snap (class_name cl) = Some rd /\ all_numbers rd).
Proof.
  induction n as [|n IH]; intros clock c w Hw Hnd Hl;
    destruct (cycle_healthy (clock O) c w Hw Hnd Hl)
      as (c2 & w2 & snap & Hc & Hw2 & Hnd2 & Hl2 & Hperm & Hlast & Hget).
  - exists c2, w2, snap. split; [| auto].
    cbn [Controller.get_data]. rewrite (bind_run _ _ _ _ _ Hc). reflexivity.
  - destruct (IH (fun i => clock (S i)) c2 w2 Hw2 Hnd2 Hl2)
      as (c' & w' & snap' & Hrun & Hw' & Hlast' & Hget').
    exists c', w', snap'. split.
    { change (Controller.get_data (S (S n)) clock c w)
        with ((c1 <- Controller.get_data_cycle (clock O) c ;;
               Controller.get_data (S n) (fun i => clock (S i)) c1) w).
      rewrite (bind_run _ _ _ _ _ Hc). exact Hrun. }
    split; [exact Hw' |]. split; [exact Hlast' |].
    intros cl Hin Hn. apply Hget'; [| exact Hn].
    eapply Permutation_in; eassumption.
Qed.

Lemma create_objects_sampled (ctor : sensor_class -> option exn)
    (names : list sensor_class) :
  forall objs,
    Controller._create_objects ctor names = Res objs -> Forall (sampled 0) objs.
Proof.
  induction names as [|name names IH]; intros objs H; simpl in H.
  - inversion H. constructor.
  - destruct (Controller.construct ctor name) as [obj|e] eqn:E.
    + destruct (Controller._create_objects ctor names) as [objs1|e1]; [| discriminate H].
      inversion H; subst. constructor; [| apply IH; reflexivity].
      destruct (construct_spec _ _ _ E) as [Hc Hd].
      split; [rewrite Hd, Hc; reflexivity |].
      split; [rewrite Hd; apply acc_len_fresh |].
      intros Hco2. rewrite Hd, <- Hc, Hco2.
      repeat constructor; simpl; intros l Hl; inversion Hl; subst; intros [].
    + destruct e; try discriminate H. apply IH. exact H.
Qed.

(** X12. On hardware that answers, the node runs.  When the bus answers
    every read with a value, the CO2 sensor never with zero, and the camera
    raises nothing but [RuntimeError], then on a node built from a
    configured sensor list every cycle of [get_data] completes, however
    many there are, and the Snapshot of the last one holds, under the name
    of every sensor object but the camera, a Reading made of numbers. *)
Theorem healthy_node_completes_every_cycle
    (ctor : sensor_class -> option exn) (sensor_list : list sensor_class)
    (objs0 : list sensor) (n : nat) (clock : nat -> datetime) (w : world) :
  NoDup sensor_list ->
  Controller._create_objects ctor sensor_list = Res objs0 ->
  healthy w ->
  exists c' w' snap,
    Controller.get_data (S n) clock (mkController objs0 None) w = Ok c' w' /\
    healthy w' /\
    Controller.get_last_data c' = Some snap /\
    forall s, In s objs0 -> cls s <> cls_Camera ->
              exists rd, dict_get snap (class_name (cls s)) = Some rd /\
                         all_numbers rd.
Proof.
  intros Hnd Hcreate Hw.
  destruct (create_objects_spec _ _ _ Hcreate) as (_ & Hnd0 & _).
  destruct (get_data_healthy n clock (mkController objs0 None) w Hw (Hnd0 Hnd)
              (create_objects_sampled _ _ _ Hcreate))
    as (c' & w' & snap & Hrun & Hw' & Hlast & Hget).
  exists c', w', snap. split; [exact Hrun |]. split; [exact Hw' |].
  split; [exact Hlast |].
  intros s Hin Hn. apply Hget; [| exact Hn]. simpl. apply in_map. exact Hin.
Qed.

Lemma healthy_node_completes_every_cycle_witness :
  healthy ticking /\
  exists c' w' snap,
    Controller.get_data 3 (fun _ => mkDatetime 10 20 0) main_controller ticking
    = Ok c' w' /\
    healthy w' /\
    Controller.get_last_data c' = Some snap /\
    forall s, In s (objects_of main_sensor_list) -> cls s <> cls_Camera ->
              exists rd, dict_get snap (class_name (cls s)) = Some rd /\
                         all_numbers rd.
Proof.
  assert (Hw : healthy ticking).
  { split.
    - intros c key n _. exists (Z.of_nat n + 1)%Z. split; [reflexivity |]. intros _. lia.
    - intros n _. left. reflexivity. }
  split; [exact Hw |].
  apply (healthy_node_completes_every_cycle
           (fun _ => None) main_sensor_list (objects_of main_sensor_list)
           2 (fun _ => mkDatetime 10 20 0) ticking).
  - repeat constructor; simpl; intuition discriminate.
  - reflexivity.
  - exact Hw.
Defined.

(** ** A fault of the camera *)

Lemma scan_camera_fault (objs : list sensor) :
  forall i lc w e w1,
    (exists s, In s objs /\ cls s = cls_Camera) ->
    Camera.capture_image w = Raise e w1 ->
    Controller.scan objs i lc w = Raise e w1.
Proof.
  induction objs as [|s objs IH]; intros i lc w e w1 (cam & Hin & Hc) Hcap.
  - contradiction.
  - cbn [Controller.scan]. destruct (class_eqb (cls s) cls_Camera) eqn:E.
    + unfold bind at 1. unfold bind at 1. rewrite Hcap. reflexivity.
    + unfold bind at 1. simpl. apply IH; [| exact Hcap].
      exists cam. split; [| exact Hc].
      destruct Hin as [-> | Hin]; [| exact Hin].
      apply class_eqb_neq in E. contradiction.
Qed.

Lemma driver_fault (w : world) (e : exn) :
  hw_capture w (tick w) = Some e -> e <> RuntimeError ->
  Camera.driver w = Raise e (advance w).
Proof.
  intros Hcap He. unfold Camera.driver. rewrite Hcap.
  destruct e; try reflexivity. contradiction.
Qed.

Lemma scan_fault_ends_get_data (c : controller) (w w1 : world) (e : exn)
    (n : nat) (clock : nat -> datetime) :
  Controller.scan (current_objects c) 0 entry_locals w = Raise e w1 ->
  Controller.get_data (S n) clock c w = Raise e w1.
Proof.
  intros H. cbn [Controller.get_data]. unfold bind at 1.
  unfold Controller.get_data_cycle. unfold bind at 1.
  unfold Controller._gather_sensor_data. unfold bind at 1.
  rewrite H. reflexivity.
Qed.

(** X13. A fault of the camera ends [get_data] before any sensor is read.
    Where the sensor list holds a camera and its driver raises an
    exception that is no [RuntimeError], the first cycle ends in that
    exception during the scan, with no sensor sampled and nothing
    published: when the camera fails to start, the trace is left as it
    was; when the capture fails, the pause of two seconds that the method
    awaits before it is all that was added.  (A [RuntimeError] of the
    camera is caught and the cycle goes on.) *)
Theorem camera_fault_ends_get_data_before_sampling
    (c : controller) (cam : sensor) (w : world) (e : exn)
    (n : nat) (clock : nat -> datetime) :
  In cam (current_objects c) -> cls cam = cls_Camera ->
  e <> RuntimeError ->
  (hw_capture w (tick w) = Some e ->
   exists w',
     Controller.get_data (S n) clock c w = Raise e w' /\
     trace w' = trace w) /\
  (hw_capture w (tick w) = None -> hw_capture w (S (tick w)) = Some e ->
   exists w',
     Controller.get_data (S n) clock c w = Raise e w' /\
     trace w' = trace w ++ [EvAwaitSleep 2]).
Proof.
  intros Hin Hc He. split.
  - intros Hcap. exists (advance w). split; [| reflexivity].
    apply scan_fault_ends_get_data. apply scan_camera_fault; [eauto |].
    unfold Camera.capture_image, bind.
    rewrite (driver_fault w e Hcap He). reflexivity.
  - intros Hstart Hcap.
    exists (advance (log (EvAwaitSleep 2) (advance w))). split; [| reflexivity].
    apply scan_fault_ends_get_data. apply scan_camera_fault; [eauto |].
    unfold Camera.capture_image. unfold bind at 1.
    unfold Camera.driver at 1. rewrite Hstart.
    unfold bind at 1. unfold emit at 1. unfold bind at 1.
    rewrite (driver_fault (log (EvAwaitSleep 2) (advance w)) e Hcap He).
    reflexivity.
Qed.

Lemma camera_fault_ends_get_data_before_sampling_witness :
  (exists w',
      Controller.get_data 1 (fun _ => mkDatetime 10 20 0) main_controller
        (mkWorld (fun _ _ _ => HVal 1%Z) (fun _ => Some OSError) 0 [])
      = Raise OSError w' /\
      trace w' = []) /\
  (exists w',
      Controller.get_data 1 (fun _ => mkDatetime 10 20 0) main_controller
        (mkWorld (fun _ _ _ => HVal 1%Z)
                 (fun n => if Nat.eqb n 0 then None else Some OSError) 0 [])
      = Raise OSError w' /\
      trace w' = [EvAwaitSleep 2]).
Proof.
  split.
  - apply (camera_fault_ends_get_data_before_sampling
             main_controller (fresh_sensor cls_Camera)
             (mkWorld (fun _ _ _ => HVal 1%Z) (fun _ => Some OSError) 0 [])
             OSError 0 (fun _ => mkDatetime 10 20 0)).
    + left. reflexivity.
    + reflexivity.
    + discriminate.
    + reflexivity.
  - apply (camera_fault_ends_get_data_before_sampling
             main_controller (fresh_sensor cls_Camera)
             (mkWorld (fun _ _ _ => HVal 1%Z)
                      (fun n => if Nat.eqb n 0 then None else Some OSError) 0 [])
             OSError 0 (fun _ => mkDatetime 10 20 0)).
    + left. reflexivity.
    + reflexivity.
    + discriminate.
    + reflexivity.
    + reflexivity.
Defined.

(** ** The pages of the display *)

Lemma sleeps_app (a b : list LCD.op) :
  LCD.sleeps (a ++ b) = (LCD.sleeps a + LCD.sleeps b)%nat.
Proof. unfold LCD.sleeps. rewrite filter_app, length_app. reflexivity. Qed.

(** The loop from row [row] on, with [3 * q + r] entries to fill the rows
    from the first on. *)
Lemma column_on_display (sensor : string) :
  (String.length sensor <= 20)%nat -> (0 <= LCD.column sensor < 20)%Z.
Proof.
  intros H. unfold LCD.column. split.
  - apply Z.div_pos; lia.
  - apply Z.div_lt_upper_bound; lia.
Qed.

Lemma display_rows_pages (sensor : string) (data : dict pyval) :
  forall row cur scr q r,
    all_numbers data ->
    (1 <= row <= 3)%nat ->
    (row - 1 + length (LCD.readings_of data) = 3 * q + r)%nat -> (r < 3)%nat ->
    exists ops,
      LCD.display_rows sensor data row = (ops, None) /\
      LCD.sleeps ops = q /\
      ((String.length sensor <= 20)%nat -> Forall LCD.on_display ops) /\
      LCD.run ops cur scr
      = if Nat.eqb q 0
        then scr ++ LCD.page_lines row (LCD.readings_of data)
        else LCD.title sensor
             :: LCD.page_lines 1 (skipn (length (LCD.readings_of data) - r)
                                        (LCD.readings_of data)).
Proof.
  induction data as [|[reading v] data IH]; intros row cur scr q r Hnum Hrow Hk Hr.
  - simpl in Hk. assert (q = 0)%nat by lia. subst q.
    exists []. simpl. rewrite app_nil_r. auto.
  - inversion Hnum as [|? ? (z & Hz) Hnum']; subst. simpl in Hz. subst v.
    unfold LCD.readings_of in *. cbn [filter fst] in *.
    cbn [LCD.display_rows].
    destruct (String.eqb reading "Node") eqn:En; cbn [negb] in *.
    + apply IH; assumption.
    + cbn [length] in Hk.
      destruct (Nat.eqb (row + 1) 4) eqn:E4.
      * apply Nat.eqb_eq in E4. assert (row = 3)%nat by lia. subst row.
        destruct q as [|q]; [lia |].
        destruct (IH 1%nat (0%nat, LCD.column sensor) [LCD.title sensor] q r Hnum')
          as (ops & Hops & Hs & Hon & Hrun); try lia.
        rewrite Hops.
        eexists. split; [reflexivity |].
        split; [cbn [app]; unfold LCD.sleeps in *; simpl; lia |].
        split.
        { intros Hname. pose proof (column_on_display sensor Hname) as Hcol.
          repeat (constructor; [cbn [LCD.on_display]; auto; lia |]).
          exact (Hon Hname). }
        cbn [app LCD.header LCD.run]. unfold LCD.title in Hrun |- *. rewrite Hrun.
        assert (Hlen : (length (filter (fun kv => negb (String.eqb (fst kv) "Node")) data)
                        = 3 * q + r)%nat) by lia.
        cbn [Nat.eqb length].
        replace (S (length (filter (fun kv => negb (String.eqb (fst kv) "Node")) data)) - r)%nat
          with (S (length (filter (fun kv => negb (String.eqb (fst kv) "Node")) data) - r))
          by lia.
        cbn [skipn].
        destruct (Nat.eqb q 0) eqn:Eq; [| reflexivity].
        apply Nat.eqb_eq in Eq. subst q.
        replace (length (filter (fun kv => negb (String.eqb (fst kv) "Node")) data) - r)%nat
          with 0%nat by lia.
        reflexivity.
      * apply Nat.eqb_neq in E4.
        destruct (IH (row + 1)%nat (row, 0%Z)
                    (scr ++ [((row, 0%Z), LCD.Labelled (substring 0 8 reading) z)])
                    q r Hnum')
          as (ops & Hops & Hs & Hon & Hrun); try lia.
        rewrite Hops.
        eexists. split; [reflexivity |].
        split; [cbn [app]; unfold LCD.sleeps in *; simpl; exact Hs |].
        split.
        { intros Hname. pose proof (column_on_display sensor Hname) as Hcol.
          repeat (constructor; [cbn [LCD.on_display]; auto; lia |]).
          exact (Hon Hname). }
        cbn [app LCD.run]. rewrite Hrun.
        destruct (Nat.eqb q 0) eqn:Eq.
        -- rewrite <- app_assoc. cbn [LCD.page_lines app].
           rewrite Nat.add_1_r. reflexivity.
        -- apply Nat.eqb_neq in Eq.
           replace (length ((reading, VNum z)
                            :: filter (fun kv => negb (String.eqb (fst kv) "Node")) data) - r)%nat
             with (S (length (filter (fun kv => negb (String.eqb (fst kv) "Node")) data) - r))
             by (cbn [length]; lia).
           reflexivity.
Qed.

(** X14. The display shows three values a page.  For a Reading whose
    values are numbers and a sensor name of at most twenty characters,
    [_display_sensor_data] raises nothing and puts the cursor nowhere but
    within the four rows and twenty columns of the display; with [k] entries
    other than the node identifier it sleeps [k / 3] times, once after
    every third value, and leaves on the display the name of the sensor
    and the values after the last full page: when [k] is a multiple of
    three, the name alone. *)
Theorem lcd_shows_three_values_a_page (sensor : string) (data : dict pyval) :
  (String.length sensor <= 20)%nat ->
  all_numbers data ->
  let k := length (LCD.readings_of data) in
  exists ops,
    LCD._display_sensor_data sensor data = (ops, None) /\
    LCD.sleeps ops = (k / 3)%nat /\
    Forall LCD.on_display ops /\
    LCD.shown ops
    = LCD.title sensor
      :: LCD.page_lines 1 (skipn (3 * (k / 3)) (LCD.readings_of data)) /\
    (k mod 3 = 0%nat -> LCD.shown ops = [LCD.title sensor]).
Proof.
  intros Hname Hnum k.
  pose proof (column_on_display sensor Hname) as Hcol.
  pose proof (Nat.div_mod_eq k 3) as Hdm.
  pose proof (Nat.mod_upper_bound k 3 ltac:(discriminate)) as Hr.
  destruct (display_rows_pages sensor data 1 (0%nat, LCD.column sensor)
              [LCD.title sensor] (k / 3) (k mod 3) Hnum)
    as (ops & Hops & Hs & Hon & Hrun); try (fold k; lia).
  unfold LCD._display_sensor_data. rewrite Hops.
  exists (LCD.header sensor ++ ops).
  split; [reflexivity |].
  split; [rewrite sleeps_app; rewrite Hs; reflexivity |].
  split.
  { apply Forall_app. split; [| exact (Hon Hname)].
    repeat constructor; cbn [LCD.on_display]; lia. }
  assert (Hshown : LCD.shown (LCD.header sensor ++ ops)
                   = LCD.title sensor
                     :: LCD.page_lines 1 (skipn (3 * (k / 3)) (LCD.readings_of data))).
  { unfold LCD.shown, LCD.header. cbn [app LCD.run].
    unfold LCD.title in Hrun |- *. rewrite Hrun. fold k.
    destruct (Nat.eqb (k / 3) 0) eqn:Eq.
    - apply Nat.eqb_eq in Eq. rewrite Eq. reflexivity.
    - replace (k - k mod 3)%nat with (3 * (k / 3))%nat by lia. reflexivity. }
  split; [exact Hshown |].
  intros Hz. rewrite Hshown.
  replace (3 * (k / 3))%nat with k by lia.
  unfold k. rewrite skipn_all. reflexivity.
Qed.

Lemma lcd_shows_three_values_a_page_witness :
  exists ops,
    LCD._display_sensor_data "CO2_ENS160"
      [("AQI", VNum 2); ("TVOC", VNum 120); ("eCO2", VNum 400); ("Node", VNum 69)]
    = (ops, None) /\
    LCD.sleeps ops = 1%nat /\
    LCD.shown ops = [LCD.title "CO2_ENS160"].
Proof.
  destruct (lcd_shows_three_values_a_page "CO2_ENS160"
              [("AQI", VNum 2); ("TVOC", VNum 120); ("eCO2", VNum 400); ("Node", VNum 69)])
    as (ops & Hops & Hs & _ & _ & Hshown).
  - simpl. lia.
  - repeat constructor; simpl; eauto.
  - exists ops. split; [exact Hops |]. split; [exact Hs |].
    apply Hshown. reflexivity.
Defined.

(** ** A CO2 sensor that answers again after its Reading was dropped *)

Lemma bind_raise {A B} (c : M A) (k : A -> M B) (w w1 : world) (e : exn) :
  c w = Raise e w1 -> bind c k w = Raise e w1.
Proof. unfold bind. intros ->. reflexivity. Qed.

Lemma attempts_stale (n : nat) (key : string) (v : pyval) (w : world) :
  healthy w -> (v = VNone \/ exists z, v = VNum z) ->
  exists w', CO2_ENS160.attempts (S n) key v w = Raise AttributeError w'.
Proof.
  intros Hw Hv.
  destruct (getattr_healthy cls_CO2_ENS160 key w Hw) as (r & w1 & Hget & _ & Hz).
  exists w1. cbn [CO2_ENS160.attempts]. rewrite (bind_run _ _ _ _ _ Hget).
  destruct (Z.eqb r 0) eqn:E.
  - apply Z.eqb_eq in E. exfalso. exact (Hz eq_refl E).
  - destruct Hv as [-> | [z ->]]; reflexivity.
Qed.

Lemma collect_stale (s : sensor) (w : world) :
  healthy w -> cls s = cls_CO2_ENS160 ->
  data s <> [] -> reduced_values (data s) ->
  exists w', collect_data_for_median s w = Raise AttributeError w'.
Proof.
  intros Hw Hc Hd Hr. unfold collect_data_for_median.
  rewrite (bind_run _ _ w (log (EvCollect (cls s) (comp_of s)) w) tt eq_refl).
  rewrite Hc. unfold CO2_ENS160.collect_data_for_median.
  destruct (data s) as [|[key v] d]; [contradiction |].
  inversion Hr as [|? ? Hv _]; subst. simpl in Hv.
  destruct (attempts_stale 4 key v (log (EvCollect cls_CO2_ENS160 (comp_of s)) w)
              (healthy_log _ _ Hw) Hv) as (w' & Hat).
  exists w'. apply bind_raise. cbn [CO2_ENS160.collect_keys].
  change config.CO2_ATTEMPTS with 5%nat. apply bind_raise. exact Hat.
Qed.

Lemma sample_stale (lc : locals) (s : sensor) (w : world) :
  healthy w -> cls s = cls_CO2_ENS160 ->
  data s <> [] -> reduced_values (data s) ->
  (aht21_exists lc = true -> is_bound lc = true) ->
  exists w', Controller.sample lc s w = Raise AttributeError w'.
Proof.
  intros Hw Hc Hd Hr Hb. unfold Controller.sample. rewrite Hc.
  destruct (aht21_exists lc).
  - specialize (Hb eq_refl). unfold is_bound in Hb.
    destruct (aht21_temperature lc) as [t|]; [| discriminate Hb].
    destruct (aht21_humidity lc) as [h|]; [| discriminate Hb].
    destruct (collect_stale
                (set_humidity_compensation (set_temperature_compensation s t) h) w
                Hw Hc Hd Hr) as (w' & Hcol).
    exists w'. apply bind_raise. exact Hcol.
  - destruct (collect_stale s w Hw Hc Hd Hr) as (w' & Hcol).
    exists w'. apply bind_raise. exact Hcol.
Qed.

Lemma in_order_tail (s : sensor) (l : list sensor) (lc lc1 : locals) :
  in_order (s :: l) lc ->
  aht21_exists lc1 = aht21_exists lc -> co2_exists lc1 = co2_exists lc ->
  (cls s <> cls_TEMP_AHT21 -> lc1 = lc) ->
  (cls s = cls_TEMP_AHT21 -> co2_exists lc = true -> is_bound lc1 = true) ->
  in_order l lc1.
Proof.
  intros [Hco2 Hserved] Ha1 Hc1 Hsame Ht1. split.
  - intros Hin. rewrite Hc1. apply Hco2. right. exact Hin.
  - intros Ha. rewrite Ha1 in Ha. specialize (Hserved Ha). simpl in Hserved.
    destruct (class_eq_dec (cls s) cls_TEMP_AHT21) as [Et | Et].
    + destruct (in_dec class_eq_dec cls_CO2_ENS160 (map cls l)) as [Hin | Hin].
      * rewrite Ht1; [apply served_true | exact Et |].
        apply Hco2. right. exact Hin.
      * apply served_no_co2. exact Hin.
    + rewrite (Hsame Et).
      destruct (cls s); try exact Hserved; try contradiction.
      apply andb_prop in Hserved. tauto.
Qed.

(** A round over a list with a stale CO2 sensor. *)
Lemma sample_all_stale (l : list sensor) :
  forall lc w j,
    healthy w ->
    Forall (fun s => cls s <> cls_CO2_ENS160 -> sampled j s) l ->
    Forall stale l -> In cls_CO2_ENS160 (map cls l) -> in_order l lc ->
    exists w', Controller.sample_all l lc w = Raise AttributeError w'.
Proof.
  induction l as [|s l IH]; intros lc w j Hw Hl Hst Hin Hord; [contradiction |].
  inversion Hl as [|? ? Hs Hl']; subst. inversion Hst as [|? ? Hss Hst']; subst.
  destruct (class_eq_dec (cls s) cls_CO2_ENS160) as [Hc | Hc].
  - destruct (Hss Hc) as [Hd Hr].
    destruct (sample_stale lc s w Hw Hc Hd Hr) as (w' & Hrun).
    { intros Ha. destruct Hord as [_ Hserved]. specialize (Hserved Ha).
      simpl in Hserved. rewrite Hc in Hserved. apply andb_prop in Hserved. tauto. }
    exists w'. cbn [Controller.sample_all]. apply bind_raise. exact Hrun.
  - destruct (sample_healthy lc s w j Hw (Hs Hc))
      as (s' & lc1 & w1 & Hrun & Hw1 & _ & _ & Ha1 & Hc1 & Hsame & _ & Ht1).
    { intros E. contradiction. }
    destruct (IH lc1 w1 j Hw1 Hl' Hst') as (w' & Hrest).
    { destruct Hin as [E | Hin]; [congruence | exact Hin]. }
    { eapply in_order_tail; eassumption. }
    exists w'. cbn [Controller.sample_all]. rewrite (bind_run _ _ _ _ _ Hrun).
    apply bind_raise. exact Hrest.
Qed.

(** After the cycles of a node, the last without a CO2 Reading, every CO2
    sensor is stale. *)
Lemma stale_after_drop (n : nat) (clock : nat -> datetime) (c0 c : controller)
    (w0 w : world) (snap : dict (dict pyval)) :
  Forall keyed (current_objects c0) ->
  Controller.get_data (S n) clock c0 w0 = Ok c w ->
  last_data c = Some snap -> dict_get snap "CO2_ENS160" = None ->
  Forall stale (current_objects c).
Proof.
  intros Hk0 Hrun Hl Hno.
  apply get_data_last in Hrun. destruct Hrun as (c1 & w2 & Hrun & Hcycle).
  assert (Hk : Forall keyed (current_objects c1))
    by (eapply get_data_keyed; eassumption).
  apply cycle_parts in Hcycle. destruct Hcycle as (c2 & w3 & snap0 & Hg & Hp & Hl0).
  assert (snap0 = snap) by congruence. subst snap0.
  eapply package_all_dropped; [exact Hp | | exact Hno].
  eapply gather_keyed; eassumption.
Qed.

(** X15. A CO2 sensor that answers again ends the node.  On a node built
    from a configured sensor list that names the CO2 sensor, once a cycle
    has completed with a Snapshot that has no CO2 Reading, and the
    hardware from then on answers every read, the CO2 sensor never with
    zero, the next cycle ends [get_data] in an [AttributeError]: the first
    value of the CO2 sensor is appended to what is no list any more. *)
Theorem recovered_co2_sensor_ends_the_node
    (ctor : sensor_class -> option exn) (sensor_list : list sensor_class)
    (objs0 : list sensor) (n m : nat) (clock clock' : nat -> datetime)
    (w0 w : world) (c : controller) (snap : dict (dict pyval)) :
  NoDup sensor_list ->
  Controller._create_objects ctor sensor_list = Res objs0 ->
  In cls_CO2_ENS160 (map cls objs0) ->
  Controller.get_data (S n) clock (mkController objs0 None) w0 = Ok c w ->
  Controller.get_last_data c = Some snap ->
  dict_get snap "CO2_ENS160" = None ->
  healthy w ->
  exists w', Controller.get_data (S m) clock' c w = Raise AttributeError w'.
Proof.
  intros Hnd Hcreate Hin Hrun Hl Hno Hw.
  assert (Hst : Forall stale (current_objects c)).
  { eapply stale_after_drop; [| exact Hrun | exact Hl | exact Hno].
    simpl. eapply create_objects_keyed. exact Hcreate. }
  destruct (create_objects_spec _ _ _ Hcreate) as (_ & Hnd0 & Hfresh0 & _).
  assert (Hready : ready (current_objects (mkController objs0 None)))
    by (split; [exact (Hnd0 Hnd) | exact Hfresh0]).
  destruct (get_data_ready _ _ _ _ _ _ Hready Hrun) as [[Hndc Hfresh] Hperm].
  simpl in Hperm.
  destruct (scan_healthy (current_objects c) 0 entry_locals w Hw)
    as (lc & w1 & Hscan & Hw1).
  destruct (reorder_in_order _ _ _ _ Hndc Hscan) as (objs1 & Hre & Hord).
  pose proof (reorder_perm _ _ _ Hre) as Hp.
  assert (Hl1 : Forall (fun s => cls s <> cls_CO2_ENS160 -> sampled 0 s) objs1).
  { rewrite Forall_forall in *. intros s Hs Hc.
    assert (Hs0 : In s (current_objects c))
      by (eapply Permutation_in; [apply Permutation_sym; exact Hp | exact Hs]).
    split; [rewrite (Hfresh s Hs0 Hc); reflexivity |].
    split; [rewrite (Hfresh s Hs0 Hc); apply acc_len_fresh |].
    intros E. contradiction. }
  assert (Hst1 : Forall stale objs1).
  { rewrite Forall_forall in *. intros s Hs. apply Hst.
    eapply Permutation_in; [apply Permutation_sym; exact Hp | exact Hs]. }
  assert (Hin1 : In cls_CO2_ENS160 (map cls objs1)).
  { eapply Permutation_in; [apply Permutation_map; exact Hp |].
    eapply Permutation_in; [exact Hperm | exact Hin]. }
  destruct (sample_all_stale objs1 lc w1 0 Hw1 Hl1 Hst1 Hin1 Hord) as (w' & Hround).
  exists w'.
  cbn [Controller.get_data]. apply bind_raise.
  unfold Controller.get_data_cycle. apply bind_raise.
  unfold Controller._gather_sensor_data.
  rewrite (bind_run _ _ _ _ _ Hscan). rewrite Hre. simpl lift.
  rewrite (bind_run _ _ w1 w1 objs1 eq_refl).
  apply bind_raise. change config.NUM_READINGS with 10%nat.
  cbn [Controller.rounds]. apply bind_raise. exact Hround.
Qed.

Lemma recovered_co2_sensor_ends_the_node_witness :
  exists c w w',
    Controller.get_data 1 (fun _ => mkDatetime 10 20 0) main_controller
      (mkWorld (fun c _ n => if class_eqb c cls_CO2_ENS160 && Nat.ltb n 232
                             then HVal 0%Z else HVal 1%Z)
               (fun _ => None) 0 [])
    = Ok c w /\
    tick w = 232%nat /\
    Controller.get_data 1 (fun _ => mkDatetime 10 40 0) c w = Raise AttributeError w'.
Proof.
  destruct (Controller.get_data 1 (fun _ => mkDatetime 10 20 0) main_controller
              (mkWorld (fun c _ n => if class_eqb c cls_CO2_ENS160 && Nat.ltb n 232
                                     then HVal 0%Z else HVal 1%Z)
                       (fun _ => None) 0 [])) as [c w|e w] eqn:Hrun;
    [| vm_compute in Hrun; discriminate Hrun].
  assert (Htick : tick w = 232%nat).
  { vm_compute in Hrun. injection Hrun as _ <-. reflexivity. }
  assert (Hread : hw_read w = fun c _ n => if class_eqb c cls_CO2_ENS160 && Nat.ltb n 232
                                           then HVal 0%Z else HVal 1%Z).
  { vm_compute in Hrun. injection Hrun as _ <-. reflexivity. }
  assert (Hcap : hw_capture w = fun _ => None).
  { vm_compute in Hrun. injection Hrun as _ <-. reflexivity. }
  assert (Hw : healthy w).
  { split.
    - intros cl key k Hk. rewrite Htick in Hk. rewrite Hread.
      assert (E : Nat.ltb k 232 = false) by (apply Nat.ltb_ge; exact Hk).
      rewrite E, andb_false_r. exists 1%Z. split; [reflexivity |]. discriminate.
    - intros k _. rewrite Hcap. left. reflexivity. }
  destruct (Controller.get_last_data c) as [snap|] eqn:Hl.
  2:{ vm_compute in Hrun. injection Hrun as <- _. discriminate Hl. }
  assert (Hno : dict_get snap "CO2_ENS160" = None).
  { vm_compute in Hrun. injection Hrun as <- _. vm_compute in Hl.
    injection Hl as <-. reflexivity. }
  assert (Hnd : NoDup main_sensor_list)
    by (repeat constructor; simpl; intuition discriminate).
  assert (Hin : In cls_CO2_ENS160 (map cls (objects_of main_sensor_list)))
    by (simpl; tauto).
  destruct (recovered_co2_sensor_ends_the_node
              (fun _ => None) main_sensor_list (objects_of main_sensor_list)
              0 0 (fun _ => mkDatetime 10 20 0) (fun _ => mkDatetime 10 40 0)
              _ w c snap Hnd eq_refl Hin Hrun Hl Hno Hw) as (w' & Hraise).
  exists c, w, w'. split; [reflexivity |]. split; [exact Htick | exact Hraise].
Defined.

(** ** The sleeps of a run of cycles *)

Lemma await_sleeps_app (a b : list event) :
  await_sleeps (a ++ b) = await_sleeps a ++ await_sleeps b.
Proof.
  induction a as [|e a IH]; [reflexivity |].
  destruct e; simpl; rewrite ?IH; reflexivity.
Qed.

Lemma in_cycle_quiet (evs : list event) :
  Forall in_cycle evs -> await_sleeps evs = [].
Proof.
  induction 1 as [|e evs He _ IH]; [reflexivity |].
  destruct e; simpl; try exact IH. contradiction.
Qed.

Lemma sampling_in_cycle (c : sensor_class) (evs : list event) :
  Forall (sampling_of c) evs -> Forall in_cycle evs.
Proof.
  intros H. eapply Forall_impl; [| exact H].
  intros e He. destruct e; simpl in *; auto.
Qed.

Lemma collect_in_cycle (s s' : sensor) (w w' : world) :
  collect_data_for_median s w = Ok s' w' ->
  exists evs, emits w w' evs /\ Forall in_cycle evs.
Proof.
  intros H. apply collect_ok in H. destruct H as (_ & _ & _ & _ & evs & He & Hf).
  eexists. split; [exact He |].
  constructor; [exact I | eapply sampling_in_cycle; exact Hf].
Qed.

Lemma sample_in_cycle (lc lc' : locals) (s s' : sensor) (w w' : world) :
  Controller.sample lc s w = Ok (s', lc') w' ->
  exists evs, emits w w' evs /\ Forall in_cycle evs.
Proof.
  intros H.
  assert (Hplain : forall s0,
             (s2 <- collect_data_for_median s0 ;; ret (s2, lc)) w = Ok (s', lc') w' ->
             exists evs, emits w w' evs /\ Forall in_cycle evs).
  { intros s0 Hrun.
    apply bind_ok in Hrun. destruct Hrun as (s2 & w2 & Hcol & Hrun).
    apply ret_ok in Hrun. destruct Hrun as [_ <-].
    eapply collect_in_cycle. exact Hcol. }
  unfold Controller.sample in H.
  destruct (cls s) eqn:Hcls; try (eapply Hplain; exact H).
  - apply ret_ok in H. destruct H as [_ <-].
    exists []. split; [apply emits_refl | constructor].
  - destruct (co2_exists lc); [| eapply Hplain; exact H].
    apply bind_ok in H. destruct H as (s1 & w1 & Hcol & H).
    apply bind_ok in H. destruct H as (t & w2 & Ht & H).
    apply bind_ok in H. destruct H as (h & w3 & Hh & H).
    apply lift_ok in Ht. destruct Ht as [_ <-].
    apply lift_ok in Hh. destruct Hh as [_ <-].
    apply ret_ok in H. destruct H as [_ <-].
    eapply collect_in_cycle. exact Hcol.
  - destruct (aht21_exists lc); [| eapply Hplain; exact H].
    destruct (aht21_temperature lc); [| discriminate H].
    destruct (aht21_humidity lc); [| discriminate H].
    eapply Hplain. exact H.
Qed.

Lemma sample_all_in_cycle (l : list sensor) :
  forall l' lc lc' w w',
    Controller.sample_all l lc w = Ok (l', lc') w' ->
    exists evs, emits w w' evs /\ Forall in_cycle evs.
Proof.
  induction l as [|s l IH]; intros l' lc lc' w w' H.
  - simpl in H. apply ret_ok in H. destruct H as [_ <-].
    exists []. split; [apply emits_refl | constructor].
  - apply sample_all_cons in H.
    destruct H as (s' & lc1 & w1 & rest' & Hs & Hr & _).
    apply sample_in_cycle in Hs. destruct Hs as (e1 & He1 & Hf1).
    apply IH in Hr. destruct Hr as (e2 & He2 & Hf2).
    exists (e1 ++ e2). split; [eapply emits_trans; eassumption |].
    apply Forall_app. auto.
Qed.

Lemma rounds_in_cycle (n : nat) :
  forall objs objs' lc lc' w w',
    Controller.rounds n objs lc w = Ok (objs', lc') w' ->
    exists evs, emits w w' evs /\ Forall in_cycle evs.
Proof.
  induction n as [|n IH]; intros objs objs' lc lc' w w' H.
  - simpl in H. apply ret_ok in H. destruct H as [_ <-].
    exists []. split; [apply emits_refl | constructor].
  - apply rounds_succ in H.
    destruct H as (objs1 & lc1 & w1 & w2 & Hs & Hsl & Hr).
    apply sample_all_in_cycle in Hs. destruct Hs as (e1 & He1 & Hf1).
    apply IH in Hr. destruct Hr as (e2 & He2 & Hf2).
    exists (e1 ++ [EvSleep] ++ e2).
    split; [eapply emits_trans; [exact He1 | eapply emits_trans; eassumption] |].
    apply Forall_app. split; [exact Hf1 |].
    constructor; [exact I | exact Hf2].
Qed.

(** The scan awaits the pause of a capture at most once for every camera. *)
Lemma scan_sleeps (l : list sensor) :
  forall i lc w lc' w',
    Controller.scan l i lc w = Ok lc' w' ->
    exists evs k,
      emits w w' evs /\ await_sleeps evs = repeat 2%Z k /\ (k <= cameras l)%nat.
Proof.
  unfold cameras.
  induction l as [|s l IH]; intros i lc w lc' w' H; simpl in H.
  - invert_run H. exists [], 0%nat.
    split; [apply emits_refl |]. split; [reflexivity | apply Nat.le_refl].
  - apply bind_ok in H. destruct H as ([] & w1 & H1 & H2).
    apply IH in H2. destruct H2 as (evs & k & He & Hs & Hk).
    simpl. destruct (class_eqb (cls s) cls_Camera).
    + apply bind_ok in H1. destruct H1 as (b & w0 & Hc & Hr).
      invert_run Hr. apply capture_image_ok in Hc. destruct Hc as [Hc | Hc].
      * exists ([EvCapture b] ++ evs), k.
        split; [eapply emits_trans; eassumption |].
        split; [exact Hs | simpl; lia].
      * exists ([EvAwaitSleep 2; EvCapture b] ++ evs), (S k).
        split; [eapply emits_trans; eassumption |].
        split; [simpl; rewrite Hs; reflexivity | simpl; lia].
    + invert_run H1. exists evs, k. auto.
Qed.

Lemma cameras_perm (l l' : list sensor) :
  Permutation (map cls l) (map cls l') -> cameras l = cameras l'.
Proof. intros H. unfold cameras. apply perm_filter_length. exact H. Qed.

(** One turn of [get_data]: the events of the acquisition, with the pauses
    of its captures, then the sleep. *)
Lemma cycle_events (now : datetime) (c c' : controller) (w w' : world) :
  Controller.get_data_cycle now c w = Ok c' w' ->
  exists evs k,
    emits w w' (evs ++ [EvAwaitSleep (Controller._calc_next_reading now)]) /\
    await_sleeps evs = repeat 2%Z k /\
    (k <= cameras (current_objects c))%nat /\
    cameras (current_objects c') = cameras (current_objects c).
Proof.
  intros H. unfold Controller.get_data_cycle in H.
  apply bind_ok in H. destruct H as (c1 & w1 & Hg & H).
  apply bind_ok in H. destruct H as ([objs' snap] & w3 & Hp & H).
  apply lift_ok in Hp. destruct Hp as [Hp <-].
  apply bind_ok in H. destruct H as ([] & w4 & Hem & H).
  apply ret_ok in H. destruct H as [<- <-].
  apply emit_ok in Hem.
  apply gather_ok in Hg.
  destruct Hg as (lc & w0 & objs1 & objs2 & lc2 & Hscan & Hre & Hr & ->).
  apply scan_sleeps in Hscan. destruct Hscan as (e1 & k & He1 & Hs1 & Hk).
  pose proof (rounds_any _ _ _ _ _ _ _ Hr) as Hstep.
  apply rounds_in_cycle in Hr. destruct Hr as (e2 & He2 & Hf2).
  exists (e1 ++ e2), k.
  split; [eapply emits_trans; [eapply emits_trans; eassumption | exact Hem] |].
  split; [rewrite await_sleeps_app, Hs1, (in_cycle_quiet _ Hf2), app_nil_r;
          reflexivity |].
  split; [exact Hk |]. simpl in *.
  apply cameras_perm. rewrite (package_all_classes _ _ _ _ Hp).
  rewrite (stepped_classes _ _ _ Hstep).
  apply Permutation_sym, Permutation_map. eapply reorder_perm. exact Hre.
Qed.

Lemma get_data_emits (n : nat) :
  forall clock c c' w w',
    Controller.get_data n clock c w = Ok c' w' ->
    emits w w' (events_since w w').
Proof.
  induction n as [|n IH]; intros clock c c' w w' H.
  - simpl in H. apply ret_ok in H. destruct H as [_ <-].
    rewrite (events_since_emits w w [] (emits_refl w)). apply emits_refl.
  - cbn [Controller.get_data] in H.
    apply bind_ok in H. destruct H as (c1 & w1 & Hc & H).
    apply cycle_events in Hc. destruct Hc as (e1 & k & He1 & _).
    pose proof (emits_trans _ _ _ _ _ He1 (IH _ _ _ _ _ H)) as He.
    rewrite (events_since_emits _ _ _ He). exact He.
Qed.

(** X16. The sleeps of a run of cycles.  In a run of [get_data] that
    completes [n] cycles, the sleeps awaited are, cycle by cycle, the
    pauses of two seconds of the cycle's captures, at most one for every
    camera object of the node, followed by exactly one more: the delay
    [_calc_next_reading] computes from the wall clock at the end of the
    cycle, which is the last event of the cycle.  On a node without a
    camera the sleeps awaited are these delays and nothing else. *)
Theorem one_sleep_after_each_cycle (n : nat) :
  forall (clock : nat -> datetime) (c c' : controller) (w w' : world),
    Controller.get_data n clock c w = Ok c' w' ->
    (exists pauses,
        length pauses = n /\
        Forall (fun k => (k <= cameras (current_objects c))%nat) pauses /\
        await_sleeps (events_since w w')
        = run_sleeps pauses
            (map (fun i => Controller._calc_next_reading (clock i)) (seq 0 n))) /\
    (cameras (current_objects c) = 0%nat ->
     await_sleeps (events_since w w')
     = map (fun i => Controller._calc_next_reading (clock i)) (seq 0 n)) /\
    (n <> 0%nat ->
     exists evs,
       trace w' = evs ++ [EvAwaitSleep (Controller._calc_next_reading (clock (n - 1)%nat))]).
Proof.
  induction n as [|n IH]; intros clock c c' w w' H.
  - simpl in H. apply ret_ok in H. destruct H as [_ <-].
    rewrite (events_since_emits w w [] (emits_refl w)).
    split; [exists []; split; [reflexivity | split; [constructor | reflexivity]] |].
    split; [reflexivity | intros E; contradiction].
  - cbn [Controller.get_data] in H.
    apply bind_ok in H. destruct H as (c1 & w1 & Hc & H).
    apply cycle_events in Hc. destruct Hc as (e1 & k & He1 & Hs1 & Hk & Hcam).
    pose proof (get_data_emits _ _ _ _ _ _ H) as He2.
    destruct (IH _ _ _ _ _ H) as ((pauses & Hlen & Hall & IH1) & IH0 & IH2).
    rewrite (events_since_emits _ _ _ (emits_trans _ _ _ _ _ He1 He2)).
    rewrite !await_sleeps_app, Hs1. cbn [await_sleeps app seq map].
    rewrite <- seq_shift, map_map.
    split; [| split].
    + exists (k :: pauses). split; [simpl; congruence |].
      split; [constructor; [exact Hk | rewrite <- Hcam; exact Hall] |].
      cbn [run_sleeps]. rewrite IH1, <- app_assoc. reflexivity.
    + intros Hz. assert (k = 0)%nat by lia. subst k.
      cbn [repeat app]. rewrite IH0; [reflexivity | congruence].
    + intros _. destruct n as [|n].
      * simpl in H. apply ret_ok in H. destruct H as [_ <-].
        eexists. rewrite He1. rewrite app_assoc. reflexivity.
      * destruct IH2 as (evs & Hevs); [discriminate |].
        exists evs. rewrite Hevs. simpl. rewrite Nat.sub_0_r. reflexivity.
Qed.

Lemma one_sleep_after_each_cycle_witness :
  (exists c' w',
      Controller.get_data 2
        (fun i => if Nat.eqb i 0 then mkDatetime 10 20 7 else mkDatetime 10 41 30)
        main_controller ticking = Ok c' w' /\
      await_sleeps (events_since ticking w') = [2; 1207; 2; 1170]%Z) /\
  (exists c' w',
      Controller.get_data 2
        (fun i => if Nat.eqb i 0 then mkDatetime 10 20 7 else mkDatetime 10 41 30)
        (mkController (objects_of [cls_TEMP_AHT21; cls_CO2_ENS160]) None) ticking
      = Ok c' w' /\
      await_sleeps (events_since ticking w') = [1207; 1170]%Z).
Proof.
  split.
  - destruct (Controller.get_data 2
                (fun i => if Nat.eqb i 0 then mkDatetime 10 20 7 else mkDatetime 10 41 30)
                main_controller ticking) as [c' w'|e w'] eqn:Hrun;
      [| vm_compute in Hrun; discriminate Hrun].
    exists c', w'. split; [reflexivity |].
    destruct (one_sleep_after_each_cycle 2 _ _ _ _ _ Hrun)
      as ((pauses & _ & _ & H) & _).
    vm_compute in Hrun. injection Hrun as _ <-. reflexivity.
  - destruct (Controller.get_data 2
                (fun i => if Nat.eqb i 0 then mkDatetime 10 20 7 else mkDatetime 10 41 30)
                (mkController (objects_of [cls_TEMP_AHT21; cls_CO2_ENS160]) None) ticking)
      as [c' w'|e w'] eqn:Hrun; [| vm_compute in Hrun; discriminate Hrun].
    exists c', w'. split; [reflexivity |].
    destruct (one_sleep_after_each_cycle 2 _ _ _ _ _ Hrun) as (_ & H & _).
    rewrite H; reflexivity.
Defined.

(** ** One pass of the display over the Snapshot *)

Lemma run_clear (a : list LCD.op) :
  forall b cur scr,
    LCD.run (a ++ LCD.Clear :: b) cur scr = LCD.run b (0%nat, 0%Z) [].
Proof.
  induction a as [|o a IH]; intros b cur scr; [reflexivity |].
  destruct o; simpl; apply IH.
Qed.

Lemma display_sensor_data_sleeps (sensor : string) (data : dict pyval) :
  all_numbers data ->
  exists ops,
    LCD._display_sensor_data sensor data = (ops, None) /\
    LCD.sleeps ops = (length (LCD.readings_of data) / 3)%nat.
Proof.
  intros Hnum. set (k := length (LCD.readings_of data)).
  pose proof (Nat.div_mod_eq k 3) as Hdm.
  pose proof (Nat.mod_upper_bound k 3 ltac:(discriminate)) as Hr.
  destruct (display_rows_pages sensor data 1 (0%nat, 0%Z) [] (k / 3) (k mod 3) Hnum)
    as (ops & Hops & Hs & _); try (fold k; lia).
  unfold LCD._display_sensor_data. rewrite Hops.
  eexists. split; [reflexivity |]. rewrite sleeps_app, Hs. reflexivity.
Qed.

Lemma display_all_sleeps (snap : dict (dict pyval)) :
  Forall (fun kv => all_numbers (snd kv)) snap ->
  exists ops,
    LCD.display_all snap = (ops, None) /\ LCD.sleeps ops = LCD.pass_sleeps snap.
Proof.
  induction 1 as [|[sensor data] snap Hd _ (ops' & Hops' & Hs')].
  - exists []. split; reflexivity.
  - destruct (display_sensor_data_sleeps sensor data Hd) as (ops & Hops & Hs).
    cbn [LCD.display_all]. rewrite Hops, Hops'.
    eexists. split; [reflexivity |].
    rewrite sleeps_app, Hs.
    change (LCD.sleeps (LCD.Sleep :: ops')) with (S (LCD.sleeps ops')).
    rewrite Hs'. unfold LCD.pass_sleeps. simpl. lia.
Qed.

(** X17. One pass of the display.  Before a first Snapshot there is nothing
    to show and [_write_to_screen] does nothing.  On a Snapshot whose
    Readings hold numbers it raises nothing; it sleeps once for every full
    page of every Reading, once more after every Reading and once on the
    countdown; and it leaves on the display the three lines of the
    countdown, each centred in its row. *)
Theorem lcd_pass_over_the_snapshot
    (format_2f : Z -> string) (snap : dict (dict pyval)) (t : datetime) :
  Forall (fun kv => all_numbers (snd kv)) snap ->
  LCD._write_to_screen format_2f None t = ([], None) /\
  exists ops,
    LCD._write_to_screen format_2f (Some snap) t = (ops, None) /\
    LCD.sleeps ops = (LCD.pass_sleeps snap + 1)%nat /\
    LCD.shown ops
    = [LCD.title "Next Reading";
       ((1%nat, LCD.column (String.append "in " (format_2f (LCD.time_until_next_reading t)))),
        LCD.Plain (String.append "in " (format_2f (LCD.time_until_next_reading t))));
       ((2%nat, LCD.column "seconds"), LCD.Plain "seconds")].
Proof.
  intros Hnum. split; [reflexivity |].
  destruct (display_all_sleeps snap Hnum) as (ops & Hops & Hs).
  unfold LCD._write_to_screen. rewrite Hops.
  eexists. split; [reflexivity |]. split.
  - rewrite sleeps_app, Hs. reflexivity.
  - unfold LCD.shown, LCD.display_messages. rewrite run_clear. reflexivity.
Qed.

Lemma lcd_pass_over_the_snapshot_witness :
  exists ops,
    LCD._write_to_screen (fun _ => "810.00")
      (Some [("RGB_TCS34725",
              [("color", VNum 1); ("color_temperature", VNum 1); ("lux", VNum 1);
               ("color_rgb_bytes", VNum 1); ("Node", VNum 69)]);
             ("IR_MLX90614",
              [("ambient_temperature", VNum 1); ("object_temperature", VNum 1);
               ("Node", VNum 69)]);
             ("TEMP_AHT21",
              [("temperature", VNum 1); ("relative_humidity", VNum 1);
               ("Node", VNum 69)]);
             ("CO2_ENS160",
              [("AQI", VNum 2); ("TVOC", VNum 120); ("eCO2", VNum 400);
               ("Node", VNum 69)])])
      (mkDatetime 10 47 30) = (ops, None) /\
    LCD.sleeps ops = 7%nat.
Proof.
  destruct (lcd_pass_over_the_snapshot (fun _ => "810.00")
              [("RGB_TCS34725",
                [("color", VNum 1); ("color_temperature", VNum 1); ("lux", VNum 1);
                 ("color_rgb_bytes", VNum 1); ("Node", VNum 69)]);
               ("IR_MLX90614",
                [("ambient_temperature", VNum 1); ("object_temperature", VNum 1);
                 ("Node", VNum 69)]);
               ("TEMP_AHT21",
                [("temperature", VNum 1); ("relative_humidity", VNum 1);
                 ("Node", VNum 69)]);
               ("CO2_ENS160",
                [("AQI", VNum 2); ("TVOC", VNum 120); ("eCO2", VNum 400);
                 ("Node", VNum 69)])]
              (mkDatetime 10 47 30)) as (_ & ops & Hops & Hs & _).
  - repeat constructor; simpl; eauto.
  - exists ops. split; [exact Hops | exact Hs].
Defined.
